(** * langsmithgo: the client library's wire contract, embedded and verified

    A shallow embedding of [contracts.go] and [dataset.go].

    - Go strings are byte sequences: [string] (a list of 8-bit [ascii]).
    - A Go call that returns [(T, error)] returns an [outcome T]; a run-time
      panic (slice out of range, nil dereference) is the third case.
    - [encoding/json], [time], [os], [net/http] and [mime/multipart] belong to
      Go's standard library; the parts of them the client calls are modelled
      from their documented behaviour, each under the name of the Go function.
    - What the program does not define (the network's answers, what net/http
      accepts as a URL, the boundary multipart draws at random, the decoding
      of typed responses) is a field of the [Host] record; the process
      environment is an argument of the constructor. *)

From Stdlib Require Import ZArith List String Ascii Lia Bool.
From stdpp Require Import gmap strings.
Import ListNotations.
Open Scope string_scope.
Open Scope list_scope.
Open Scope Z_scope.

#[local] Set Warnings "-register-all".

(** ** Errors, panics and outcomes *)

(** Reasons for which [time.Parse] rejects a value ([*time.ParseError]). *)
Inductive ParseErrorKind :=
| BadValue                      (* the value does not match the layout element *)
| OutOfRange (field : string)   (* ": <field> out of range" *)
| ExtraText (rest : string).    (* ": extra text: <rest>" *)

Inductive error :=
| errors_New (msg : string)
| time_ParseError (k : ParseErrorKind)
| json_SyntaxError              (* the input is not one JSON value *)
| json_NotAString               (* a number, boolean, array or object (UnmarshalTypeError),
                                   or no JSON at all (SyntaxError) *)
| json_UnsupportedTypeError     (* chan, func, complex: no JSON encoding *)
| json_UnsupportedValueError    (* NaN or infinite float *)
| json_MarshalerError (msg : string)   (* a MarshalJSON method returned an error *)
| url_Error                     (* http.NewRequest could not parse method or URL *)
| net_Error (code : Z)          (* the transport failed *)
| remote_Error (detail : string).  (* non-2xx response, see handleResponse *)

Inductive panic :=
| slice_bounds_out_of_range (hi len : Z)
| nil_pointer_dereference.

Inductive outcome (A : Type) :=
| Ok (a : A)
| Err (e : error)
| Panic (p : panic).
Arguments Ok {A} a.
Arguments Err {A} e.
Arguments Panic {A} p.

Definition obind {A B} (x : outcome A) (k : A -> outcome B) : outcome B :=
  match x with
  | Ok a => k a
  | Err e => Err e
  | Panic p => Panic p
  end.

Notation "'do' x <- e1 ; e2" := (obind e1 (fun x => e2))
  (at level 10, x binder, e1 at level 100, e2 at level 200).

(** ** Bytes and decimal digits *)

Definition byte_val (c : ascii) : Z := Z.of_N (N_of_ascii c).
Definition byte_of (z : Z) : ascii := ascii_of_N (Z.to_N z).

Definition isDigit (c : ascii) : bool := (48 <=? byte_val c) && (byte_val c <=? 57).
Definition digit (n : Z) : ascii := byte_of (48 + n).
Definition digit_val (c : ascii) : Z := byte_val c - 48.

Definition len (s : string) : Z := Z.of_nat (String.length s).

(** [s[n:]] for [0 <= n <= len s]. *)
Fixpoint drop (n : nat) (s : string) : string :=
  match n, s with
  | O, _ => s
  | S n', String _ s' => drop n' s'
  | S _, EmptyString => EmptyString
  end.

(** [s[:n]] for [0 <= n <= len s]. *)
Fixpoint take (n : nat) (s : string) : string :=
  match n, s with
  | O, _ => EmptyString
  | S n', String c s' => String c (take n' s')
  | S _, EmptyString => EmptyString
  end.

Fixpoint decimal (fuel : nat) (u : Z) (acc : string) : string :=
  match fuel with
  | O => acc
  | S fuel' =>
      let acc' := String (digit (u mod 10)) acc in
      if u / 10 =? 0 then acc' else decimal fuel' (u / 10) acc'
  end.

(** Decimal form of [u >= 0], no leading zero. *)
Definition utoa (u : Z) : string := decimal (S (Z.to_nat (Z.log2 u))) u "".

Fixpoint zeros (n : nat) : string :=
  match n with
  | O => ""
  | S n' => String "0" (zeros n')
  end.

(** time.appendInt: sign, then the decimal form padded with zeros to [width]. *)
Definition appendInt (x : Z) (width : nat) : string :=
  let ds := utoa (Z.abs x) in
  (if x <? 0 then "-" else "") +:+ zeros (width - String.length ds) +:+ ds.

(** ** package time *)

(** A [time.Time]: an instant (seconds since 1970-01-01T00:00:00Z and the
    nanoseconds within that second) together with the offset, in seconds east
    of UTC, that its Location has at that instant.  The monotonic clock
    reading, which neither formatting nor comparison with [Equal] sees, is
    left out. *)
Record time_Time := mkTime { unix : Z; nsec : Z; offset : Z }.

Definition UTC : Z := 0.

Definition isLeap (year : Z) : bool :=
  (year mod 4 =? 0) && (negb (year mod 100 =? 0) || (year mod 400 =? 0)).

Definition daysIn (m year : Z) : Z :=
  if (m =? 2) && isLeap year then 29
  else nth (Z.to_nat (m - 1)) [31; 28; 31; 30; 31; 30; 31; 31; 30; 31; 30; 31] 0.

(** Days from 1970-01-01 to the given day of the proleptic Gregorian calendar. *)
Definition days_from_civil (y m d : Z) : Z :=
  let y' := if m <=? 2 then y - 1 else y in
  let era := y' / 400 in
  let yoe := y' - era * 400 in
  let doy := (153 * (if 2 <? m then m - 3 else m + 9) + 2) / 5 + d - 1 in
  let doe := yoe * 365 + yoe / 4 - yoe / 100 + doy in
  era * 146097 + doe - 719468.

(** The calendar date of a day number: year, month (1..12), day (1..31). *)
Definition civil_from_days (z : Z) : Z * Z * Z :=
  let z' := z + 719468 in
  let era := z' / 146097 in
  let doe := z' - era * 146097 in
  let yoe := (doe - doe / 1460 + doe / 36524 - doe / 146096) / 365 in
  let doy := doe - (365 * yoe + yoe / 4 - yoe / 100) in
  let mp := (5 * doy + 2) / 153 in
  let d := doy - (153 * mp + 2) / 5 + 1 in
  let m := if mp <? 10 then mp + 3 else mp - 9 in
  (if m <=? 2 then yoe + era * 400 + 1 else yoe + era * 400, m, d).

(** Seconds on the wall clock of the time's own Location. *)
Definition abs (t : time_Time) : Z := unix t + offset t.

Definition Year (t : time_Time) : Z := fst (fst (civil_from_days (abs t / 86400))).
Definition Month (t : time_Time) : Z := snd (fst (civil_from_days (abs t / 86400))).
Definition Day (t : time_Time) : Z := snd (civil_from_days (abs t / 86400)).
Definition Hour (t : time_Time) : Z := abs t mod 86400 / 3600.
Definition Minute (t : time_Time) : Z := abs t mod 3600 / 60.
Definition Second (t : time_Time) : Z := abs t mod 60.

(** time.Date for fields already in range (what Parse hands over), so that no
    normalisation of overflowing fields takes place. *)
Definition time_Date (year month day hour min sec ns loc : Z) : time_Time :=
  {| unix := days_from_civil year month day * 86400 + hour * 3600 + min * 60 + sec - loc;
     nsec := ns;
     offset := loc |}.

(** t.Truncate(time.Second) *)
Definition Truncate_Second (t : time_Time) : time_Time :=
  {| unix := unix t; nsec := 0; offset := offset t |}.

(** t.Equal(u): the same instant, whatever the Locations. *)
Definition Equal (t u : time_Time) : bool := (unix t =? unix u) && (nsec t =? nsec u).

(** *** Layouts *)

(** The layout elements that occur in the layouts of this program. *)
Inductive std :=
| stdLongYear      (* "2006" *)
| stdZeroMonth     (* "01" *)
| stdZeroDay       (* "02" *)
| stdHour          (* "15" *)
| stdZeroMinute    (* "04" *)
| stdZeroSecond.   (* "05" *)

Inductive chunk :=
| Std (s : std)
| Literal (c : ascii).

Definition stdTable : list (string * std) :=
  [ ("2006", stdLongYear); ("01", stdZeroMonth); ("02", stdZeroDay);
    ("15", stdHour); ("04", stdZeroMinute); ("05", stdZeroSecond) ].

Fixpoint lookupStd (table : list (string * std)) (layout : string) : option (string * std) :=
  match table with
  | [] => None
  | (p, s) :: table' => if String.prefix p layout then Some (p, s) else lookupStd table' layout
  end.

(** time.nextStdChunk, iterated over the whole layout, for the elements above:
    the layout as the sequence of its elements and literal bytes. *)
Fixpoint chunks (fuel : nat) (layout : string) : list chunk :=
  match fuel with
  | O => []
  | S fuel' =>
      match lookupStd stdTable layout with
      | Some (p, s) => Std s :: chunks fuel' (drop (String.length p) layout)
      | None =>
          match layout with
          | EmptyString => []
          | String c rest => Literal c :: chunks fuel' rest
          end
      end
  end.

Definition nextStdChunks (layout : string) : list chunk := chunks (String.length layout) layout.

(** *** Format *)

Definition formatStd (s : std) (t : time_Time) : string :=
  match s with
  | stdLongYear => appendInt (Year t) 4
  | stdZeroMonth => appendInt (Month t) 2
  | stdZeroDay => appendInt (Day t) 2
  | stdHour => appendInt (Hour t) 2
  | stdZeroMinute => appendInt (Minute t) 2
  | stdZeroSecond => appendInt (Second t) 2
  end.

Fixpoint formatChunks (cs : list chunk) (t : time_Time) : string :=
  match cs with
  | [] => ""
  | Std s :: cs' => formatStd s t +:+ formatChunks cs' t
  | Literal c :: cs' => String c (formatChunks cs' t)
  end.

(** t.Format(layout) *)
Definition Format (t : time_Time) (layout : string) : string :=
  formatChunks (nextStdChunks layout) t.

(** *** Parse *)

(** time.getnum: one or two digits; exactly two when [fixed]. *)
Definition getnum (s : string) (fixed : bool) : option (Z * string) :=
  match s with
  | String c0 s1 =>
      if isDigit c0 then
        match s1 with
        | String c1 s2 =>
            if isDigit c1 then Some (digit_val c0 * 10 + digit_val c1, s2)
            else if fixed then None else Some (digit_val c0, s1)
        | EmptyString => if fixed then None else Some (digit_val c0, s1)
        end
      else None
  | EmptyString => None
  end.

(** The value of a string made of digits only (time.atoi on unsigned input). *)
Fixpoint atoi_digits (s : string) (acc : Z) : option Z :=
  match s with
  | EmptyString => Some acc
  | String c s' => if isDigit c then atoi_digits s' (acc * 10 + digit_val c) else None
  end.

(** The run of digits at the head of a string, and what follows it. *)
Fixpoint span_digits (s : string) : string * string :=
  match s with
  | String c s' => if isDigit c then let (ds, r) := span_digits s' in (String c ds, r) else ("", s)
  | EmptyString => ("", "")
  end.

Definition commaOrPeriod (c : ascii) : bool := (c =? ".")%char || (c =? ",")%char.

(** time.parseNanoseconds on the digits that follow the separator: at most
    nine of them count, scaled to nanoseconds. *)
Definition parseNanoseconds (ds : string) : option Z :=
  let ds9 := take 9 ds in
  match atoi_digits ds9 0 with
  | Some n => Some (n * 10 ^ (9 - len ds9))
  | None => None
  end.

(** The fields Parse collects. *)
Record parsed := mkParsed {
  p_year : Z; p_month : Z; p_day : Z;
  p_hour : Z; p_min : Z; p_sec : Z; p_nsec : Z }.

Definition parsed0 : parsed :=
  {| p_year := 0; p_month := -1; p_day := -1; p_hour := 0; p_min := 0; p_sec := 0; p_nsec := 0 |}.

Definition in_range (lo x hi : Z) : bool := (lo <=? x) && (x <? hi).

(** One layout element of time.parse: the fields so far and the rest of the
    value, or the error. *)
Definition parseStd (s : std) (p : parsed) (value : string) : outcome (parsed * string) :=
  match s with
  | stdLongYear =>
      match value with
      | String c0 _ =>
          if (4 <=? len value) && isDigit c0 then
            match atoi_digits (take 4 value) 0 with
            | Some y => Ok (mkParsed y (p_month p) (p_day p) (p_hour p) (p_min p) (p_sec p) (p_nsec p),
                            drop 4 value)
            | None => Err (time_ParseError BadValue)
            end
          else Err (time_ParseError BadValue)
      | EmptyString => Err (time_ParseError BadValue)
      end
  | stdZeroMonth =>
      match getnum value true with
      | Some (m, rest) =>
          if in_range 1 m 13
          then Ok (mkParsed (p_year p) m (p_day p) (p_hour p) (p_min p) (p_sec p) (p_nsec p), rest)
          else Err (time_ParseError (OutOfRange "month"))
      | None => Err (time_ParseError BadValue)
      end
  | stdZeroDay =>
      (* any two digits here: the day is checked against the month at the end *)
      match getnum value true with
      | Some (d, rest) =>
          Ok (mkParsed (p_year p) (p_month p) d (p_hour p) (p_min p) (p_sec p) (p_nsec p), rest)
      | None => Err (time_ParseError BadValue)
      end
  | stdHour =>
      match getnum value false with
      | Some (h, rest) =>
          if in_range 0 h 24
          then Ok (mkParsed (p_year p) (p_month p) (p_day p) h (p_min p) (p_sec p) (p_nsec p), rest)
          else Err (time_ParseError (OutOfRange "hour"))
      | None => Err (time_ParseError BadValue)
      end
  | stdZeroMinute =>
      match getnum value true with
      | Some (m, rest) =>
          if in_range 0 m 60
          then Ok (mkParsed (p_year p) (p_month p) (p_day p) (p_hour p) m (p_sec p) (p_nsec p), rest)
          else Err (time_ParseError (OutOfRange "minute"))
      | None => Err (time_ParseError BadValue)
      end
  | stdZeroSecond =>
      match getnum value true with
      | Some (s, rest) =>
          if in_range 0 s 60 then
            (* a fractional second in the value is accepted although the
               layout has none *)
            match rest with
            | String c0 (String c1 rest') =>
                if commaOrPeriod c0 && isDigit c1 then
                  let (ds, rest'') := span_digits (String c1 rest') in
                  match parseNanoseconds ds with
                  | Some ns =>
                      Ok (mkParsed (p_year p) (p_month p) (p_day p) (p_hour p) (p_min p) s ns, rest'')
                  | None => Err (time_ParseError BadValue)
                  end
                else Ok (mkParsed (p_year p) (p_month p) (p_day p) (p_hour p) (p_min p) s (p_nsec p), rest)
            | _ => Ok (mkParsed (p_year p) (p_month p) (p_day p) (p_hour p) (p_min p) s (p_nsec p), rest)
            end
          else Err (time_ParseError (OutOfRange "second"))
      | None => Err (time_ParseError BadValue)
      end
  end.

(** The loop of time.parse over the layout's elements; a literal byte of the
    layout (none of them a space here) must be the next byte of the value. *)
Fixpoint parseChunks (cs : list chunk) (p : parsed) (value : string) : outcome parsed :=
  match cs with
  | [] =>
      match value with
      | EmptyString => Ok p
      | _ => Err (time_ParseError (ExtraText value))
      end
  | Std s :: cs' =>
      do r <- parseStd s p value;
      parseChunks cs' (fst r) (snd r)
  | Literal c :: cs' =>
      match value with
      | String c' value' =>
          if (c' =? c)%char then parseChunks cs' p value' else Err (time_ParseError BadValue)
      | EmptyString => Err (time_ParseError BadValue)
      end
  end.

(** time.Parse(layout, value): a value without zone is a time in UTC. *)
Definition Parse (layout value : string) : outcome time_Time :=
  do p <- parseChunks (nextStdChunks layout) parsed0 value;
  let month := if p_month p <? 0 then 1 else p_month p in
  let day := if p_day p <? 0 then 1 else p_day p in
  if (day <? 1) || (daysIn month (p_year p) <? day)
  then Err (time_ParseError (OutOfRange "day"))
  else Ok (time_Date (p_year p) month day (p_hour p) (p_min p) (p_sec p) (p_nsec p) UTC).

(** ** package encoding/json: decoding into a Go string *)

Definition quote : ascii := "034"%char.
Definition backslash : ascii := "092"%char.

Definition isSpace (c : ascii) : bool :=
  (c =? " ")%char || (c =? "009")%char || (c =? "010")%char || (c =? "013")%char.

Fixpoint skipSpace (s : string) : string :=
  match s with
  | String c s' => if isSpace c then skipSpace s' else s
  | EmptyString => s
  end.

Definition hexval (c : ascii) : option Z :=
  let v := byte_val c in
  if in_range 48 v 58 then Some (v - 48)
  else if in_range 97 v 103 then Some (v - 87)
  else if in_range 65 v 71 then Some (v - 55)
  else None.

(** json.getu4, on the four bytes that follow a backslash and [u]. *)
Definition getu4 (s : string) : option Z :=
  match s with
  | String a (String b (String c (String d _))) =>
      match hexval a, hexval b, hexval c, hexval d with
      | Some x3, Some x2, Some x1, Some x0 => Some (((x3 * 16 + x2) * 16 + x1) * 16 + x0)
      | _, _, _, _ => None
      end
  | _ => None
  end.

Definition RuneError : string :=
  String (byte_of 239) (String (byte_of 191) (String (byte_of 189) "")).

(** utf8.EncodeRune *)
Definition EncodeRune (r : Z) : string :=
  if r <? 128 then String (byte_of r) ""
  else if r <? 2048 then
    String (byte_of (192 + r / 64)) (String (byte_of (128 + r mod 64)) "")
  else if in_range 55296 r 57344 then RuneError
  else if r <? 65536 then
    String (byte_of (224 + r / 4096))
      (String (byte_of (128 + r / 64 mod 64)) (String (byte_of (128 + r mod 64)) ""))
  else if r <? 1114112 then
    String (byte_of (240 + r / 262144))
      (String (byte_of (128 + r / 4096 mod 64))
         (String (byte_of (128 + r / 64 mod 64)) (String (byte_of (128 + r mod 64)) "")))
  else RuneError.

Definition isCont (lo hi : Z) (c : ascii) : bool := in_range lo (byte_val c) (hi + 1).

(** The length of the well-formed UTF-8 sequence that starts with byte [c0]
    and goes on in [s], if there is one (utf8.DecodeRune's accept ranges). *)
Definition utf8_size (c0 : ascii) (s : string) : option nat :=
  let b := byte_val c0 in
  let two lo hi :=
    match s with
    | String c1 _ => if isCont lo hi c1 then Some 2%nat else None
    | _ => None
    end in
  let three lo hi :=
    match s with
    | String c1 (String c2 _) => if isCont lo hi c1 && isCont 128 191 c2 then Some 3%nat else None
    | _ => None
    end in
  let four lo hi :=
    match s with
    | String c1 (String c2 (String c3 _)) =>
        if isCont lo hi c1 && isCont 128 191 c2 && isCont 128 191 c3 then Some 4%nat else None
    | _ => None
    end in
  if in_range 194 b 224 then two 128 191
  else if b =? 224 then three 160 191
  else if in_range 225 b 237 then three 128 191
  else if b =? 237 then three 128 159
  else if in_range 238 b 240 then three 128 191
  else if b =? 240 then four 144 191
  else if in_range 241 b 244 then four 128 191
  else if b =? 244 then four 128 143
  else None.

Definition simpleEscape (c : ascii) : option ascii :=
  if (c =? quote)%char then Some quote
  else if (c =? backslash)%char then Some backslash
  else if (c =? "/")%char then Some "/"%char
  else if (c =? "b")%char then Some "008"%char
  else if (c =? "f")%char then Some "012"%char
  else if (c =? "n")%char then Some "010"%char
  else if (c =? "r")%char then Some "013"%char
  else if (c =? "t")%char then Some "009"%char
  else None.

Definition cons_result (pre : string) (r : option (string * string)) : option (string * string) :=
  match r with
  | Some (s, rest) => Some (pre +:+ s, rest)
  | None => None
  end.

(** The inside of a JSON string literal, from after the opening quote: the
    Go string it denotes and what follows the closing quote; [None] where the
    scanner finds a syntax error (control byte, unknown escape, no closing
    quote).  Ill-formed UTF-8 and unpaired surrogates become U+FFFD. *)
Fixpoint unquote (fuel : nat) (s : string) : option (string * string) :=
  match fuel with
  | O => None
  | S fuel' =>
      match s with
      | EmptyString => None
      | String c s1 =>
          if (c =? quote)%char then Some ("", s1)
          else if (c =? backslash)%char then
            match s1 with
            | EmptyString => None
            | String e s2 =>
                if (e =? "u")%char then
                  match getu4 s2 with
                  | None => None
                  | Some rr =>
                      let s3 := drop 4 s2 in
                      if in_range 55296 rr 57344 then
                        match s3 with
                        | String b1 (String u1 s4) =>
                            match (if (b1 =? backslash)%char && (u1 =? "u")%char
                                   then getu4 s4 else None) with
                            | Some rr1 =>
                                if in_range 55296 rr 56320 && in_range 56320 rr1 57344
                                then cons_result
                                       (EncodeRune ((rr - 55296) * 1024 + (rr1 - 56320) + 65536))
                                       (unquote fuel' (drop 4 s4))
                                else cons_result RuneError (unquote fuel' s3)
                            | None => cons_result RuneError (unquote fuel' s3)
                            end
                        | _ => cons_result RuneError (unquote fuel' s3)
                        end
                      else cons_result (EncodeRune rr) (unquote fuel' s3)
                  end
                else
                  match simpleEscape e with
                  | Some b => cons_result (String b "") (unquote fuel' s2)
                  | None => None
                  end
            end
          else if byte_val c <? 32 then None
          else if byte_val c <? 128 then cons_result (String c "") (unquote fuel' s1)
          else
            match utf8_size c s1 with
            | Some n => cons_result (take n s) (unquote fuel' (drop n s))
            | None => cons_result RuneError (unquote fuel' s1)
            end
      end
  end.

(** [var s string; err := json.Unmarshal(data, &s)], returning [s]: a JSON
    string gives its value, JSON null leaves [s] empty, anything else is an
    error. *)
Definition json_Unmarshal_string (data : string) : outcome string :=
  match skipSpace data with
  | String c body =>
      if (c =? quote)%char then
        match unquote (String.length body) body with
        | Some (s, rest) =>
            match skipSpace rest with
            | EmptyString => Ok s
            | _ => Err json_SyntaxError
            end
        | None => Err json_SyntaxError
        end
      else if String.prefix "null" (String c body) then
        match skipSpace (drop 4 (String c body)) with
        | EmptyString => Ok ""
        | _ => Err json_SyntaxError
        end
      else Err json_NotAString
  | EmptyString => Err json_SyntaxError
  end.

(** ** contracts.go: LangsmithTime *)

Definition langsmithTimeFormat : string := "2006-01-02T15:04:05".

(** [type LangsmithTime time.Time] *)
Record LangsmithTime := mkLangsmithTime { as_Time : time_Time }.

(** [fmt.Sprintf] with the verb [%s] between two quotes. *)
Definition quoted (s : string) : string := String quote (s +:+ String quote "").

Definition LangsmithTime_MarshalJSON (t : LangsmithTime) : outcome string :=
  let formattedTime := quoted (Format (as_Time t) langsmithTimeFormat) in
  Ok formattedTime.

(** The receiver [*t] is written only on success: the outcome carries the new
    value.  [s[:19]] panics when [s] is shorter than 19 bytes. *)
Definition LangsmithTime_UnmarshalJSON (b : string) : outcome LangsmithTime :=
  do s <- json_Unmarshal_string b;
  if len s <? 19 then Panic (slice_bounds_out_of_range 19 (len s))
  else
    do t2 <- Parse langsmithTimeFormat (take 19 s);
    Ok (mkLangsmithTime t2).

(** ** time.Time as JSON (RFC 3339 with nanoseconds) *)

Fixpoint trimZeros (s : string) : string :=
  match s with
  | EmptyString => EmptyString
  | String c s' =>
      match trimZeros s' with
      | EmptyString => if (c =? "0")%char then EmptyString else String c EmptyString
      | r => String c r
      end
  end.

(** time.appendNano for the layout element [.999999999]: nothing for a whole
    second, else the point and the nanoseconds without trailing zeros. *)
Definition appendNano (ns : Z) : string :=
  if ns =? 0 then "" else String "." (trimZeros (appendInt ns 9)).

Definition appendZone (off : Z) : string :=
  if off =? 0 then "Z"
  else
    let zone := Z.quot off 60 in
    (if zone <? 0 then "-" else "+") +:+
    appendInt (Z.abs zone / 60) 2 +:+ ":" +:+ appendInt (Z.abs zone mod 60) 2.

(** t.Format(time.RFC3339Nano) *)
Definition Format_RFC3339Nano (t : time_Time) : string :=
  Format t langsmithTimeFormat +:+ appendNano (nsec t) +:+ appendZone (offset t).

(** time.Time's own MarshalJSON: RFC 3339 wants a year of four digits and
    (from Go 1.20 on) a zone hour below 24. *)
Definition Time_MarshalJSON (t : time_Time) : outcome string :=
  if negb (in_range 0 (Year t) 10000) then
    Err (errors_New "Time.MarshalJSON: year outside of range [0,9999]")
  else if 24 <=? Z.abs (Z.quot (offset t) 60) / 60 then
    Err (errors_New "Time.MarshalJSON: timezone hour outside of range [0,23]")
  else Ok (quoted (Format_RFC3339Nano t)).

(** The zero [time.Time]: January 1 of year 1, 00:00:00 UTC. *)
Definition zero_Time : time_Time := {| unix := -62135596800; nsec := 0; offset := UTC |}.

(** ** package encoding/json: encoding *)

(** A JSON document as json.Marshal produces it.  Numbers keep the Go value
    they come from; [JRaw] is the text a MarshalJSON method returned. *)
Inductive JSON :=
| JNull
| JBool (b : bool)
| JInt (n : Z)
| JFloat (bits : Z)
| JString (s : string)
| JRaw (text : string)
| JArray (l : list JSON)
| JObject (members : list (string * JSON)).

(** A Go value as the encoder sees it through reflection.  A struct is the
    list of its exported fields in declaration order, each with the name and
    the omitempty option of its json tag. *)
Inductive GoValue :=
| GoString (s : string)
| GoInt (n : Z)
| GoFloat64 (bits : Z)                     (* the IEEE 754 binary64 bit pattern *)
| GoBool (b : bool)
| GoNil                                    (* nil pointer, interface, map or slice *)
| GoRef (v : GoValue)                      (* non-nil pointer to, or interface holding, v *)
| GoSlice (l : list GoValue)               (* non-nil slice *)
| GoMap (m : list (string * GoValue))      (* non-nil map[string]T, keys distinct *)
| GoStruct (fields : list (string * bool * GoValue))
| GoTime (t : time_Time)
| GoLangsmithTime (t : LangsmithTime)
| GoUnsupported.                           (* channel, function, complex number *)

(** json.isEmptyValue: false, 0, a nil pointer, a nil interface value, and any
    empty array, slice, map, or string.  A struct is never empty. *)
Definition isEmptyValue (v : GoValue) : bool :=
  match v with
  | GoString s => (String.length s =? 0)%nat
  | GoInt n => n =? 0
  | GoFloat64 bits => bits mod 2 ^ 63 =? 0
  | GoBool b => negb b
  | GoNil => true
  | GoSlice l => (length l =? 0)%nat
  | GoMap m => (length m =? 0)%nat
  | GoRef _ | GoStruct _ | GoTime _ | GoLangsmithTime _ | GoUnsupported => false
  end.

(** NaN and the infinities: exponent bits all ones. *)
Definition float_is_finite (bits : Z) : bool := negb (bits / 2 ^ 52 mod 2 ^ 11 =? 2047).

Fixpoint insertKey {A} (k : string) (a : A) (l : list (string * A)) : list (string * A) :=
  match l with
  | [] => [(k, a)]
  | (k', a') :: l' => if String.leb k k' then (k, a) :: l else (k', a') :: insertKey k a l'
  end.

(** Map keys are written in sorted order. *)
Fixpoint sortKeys {A} (l : list (string * A)) : list (string * A) :=
  match l with
  | [] => []
  | (k, a) :: l' => insertKey k a (sortKeys l')
  end.

Fixpoint sequence {A} (l : list (string * outcome A)) : outcome (list (string * A)) :=
  match l with
  | [] => Ok []
  | (k, o) :: l' => do a <- o; do r <- sequence l'; Ok ((k, a) :: r)
  end.

Definition marshalerError {A} (o : outcome A) : outcome A :=
  match o with
  | Err (errors_New msg) => Err (json_MarshalerError msg)
  | _ => o
  end.

(** json.Marshal(v) *)
Fixpoint json_Marshal (v : GoValue) : outcome JSON :=
  match v with
  | GoString s => Ok (JString s)
  | GoInt n => Ok (JInt n)
  | GoFloat64 bits => if float_is_finite bits then Ok (JFloat bits) else Err json_UnsupportedValueError
  | GoBool b => Ok (JBool b)
  | GoNil => Ok JNull
  | GoRef v' => json_Marshal v'
  | GoSlice l =>
      do js <- (fix elems (l : list GoValue) : outcome (list JSON) :=
                  match l with
                  | [] => Ok []
                  | x :: l' => do j <- json_Marshal x; do js <- elems l'; Ok (j :: js)
                  end) l;
      Ok (JArray js)
  | GoMap m =>
      do ms <- sequence (sortKeys
                 ((fix entries (m : list (string * GoValue)) : list (string * outcome JSON) :=
                     match m with
                     | [] => []
                     | (k, x) :: m' => (k, json_Marshal x) :: entries m'
                     end) m));
      Ok (JObject ms)
  | GoStruct fields =>
      do ms <- (fix members (fs : list (string * bool * GoValue)) : outcome (list (string * JSON)) :=
                  match fs with
                  | [] => Ok []
                  | (name, omitempty, x) :: fs' =>
                      if omitempty && isEmptyValue x then members fs'
                      else do j <- json_Marshal x; do ms <- members fs'; Ok ((name, j) :: ms)
                  end) fields;
      Ok (JObject ms)
  | GoTime t => do b <- marshalerError (Time_MarshalJSON t); Ok (JRaw b)
  | GoLangsmithTime t => do b <- marshalerError (LangsmithTime_MarshalJSON t); Ok (JRaw b)
  | GoUnsupported => Err json_UnsupportedTypeError
  end.

(** Reflection of the Go types the records below are built from. *)
Definition field (name : string) (v : GoValue) : string * bool * GoValue := (name, false, v).
Definition field_omitempty (name : string) (v : GoValue) : string * bool * GoValue := (name, true, v).

(** [*T]: [None] is the nil pointer. *)
Definition pointer {A} (f : A -> GoValue) (p : option A) : GoValue :=
  match p with
  | Some a => GoRef (f a)
  | None => GoNil
  end.

(** [[]T]: [None] is the nil slice. *)
Definition slice (A : Type) : Type := option (list A).
Definition elements {A} (s : slice A) : list A :=
  match s with
  | Some l => l
  | None => []
  end.
Definition reflect_slice {A} (f : A -> GoValue) (s : slice A) : GoValue :=
  match s with
  | Some l => GoSlice (map f l)
  | None => GoNil
  end.

(** [any]: [None] is the nil interface value. *)
Definition any : Type := option GoValue.
Definition reflect_any (x : any) : GoValue := pointer (fun v => v) x.

(** [map[string]any]: [None] is the nil map; a nil entry is [GoNil]. *)
Definition map_string_any : Type := option (list (string * GoValue)).
Definition reflect_map (m : map_string_any) : GoValue :=
  match m with
  | Some l => GoMap l
  | None => GoNil
  end.

(** ** contracts.go: the data model *)

Definition BASE_URL : string := "https://api.smith.langchain.com/api/v1".

Record Response := { Detail : string }.

Record Event := {
  Event_EventName : string;
  Event_Reason : string;
  Event_Value : string }.

Definition reflect_Event (e : Event) : GoValue :=
  GoStruct [
    field "event_name" (GoString (Event_EventName e));
    field_omitempty "reason" (GoString (Event_Reason e));
    field_omitempty "value" (GoString (Event_Value e)) ].

Definition RunType : Type := string.
Definition Tool : RunType := "tool".
Definition Chain : RunType := "chain".
Definition LLM : RunType := "llm".
Definition Retriever : RunType := "retriever".
Definition Embedding : RunType := "embedding".
Definition Prompt : RunType := "prompt".
Definition Parser : RunType := "parser".

Record RunPayload := {
  RunPayload_RunID : string;
  RunPayload_Name : string;
  RunPayload_RunType : RunType;
  RunPayload_StartTime : time_Time;
  RunPayload_Inputs : map_string_any;
  RunPayload_ParentID : string;
  RunPayload_SessionID : string;
  RunPayload_SessionName : string;
  RunPayload_Tags : slice string;
  RunPayload_Outputs : map_string_any;
  RunPayload_EndTime : time_Time;
  RunPayload_Extras : map_string_any;
  RunPayload_Events : slice Event;
  RunPayload_Error : string;
  RunPayload_ReferenceExampleID : string }.

Definition reflect_RunPayload (r : RunPayload) : GoValue :=
  GoStruct [
    field "id" (GoString (RunPayload_RunID r));
    field "name" (GoString (RunPayload_Name r));
    field "run_type" (GoString (RunPayload_RunType r));
    field "start_time" (GoTime (RunPayload_StartTime r));
    field "inputs" (reflect_map (RunPayload_Inputs r));
    field_omitempty "parent_run_id" (GoString (RunPayload_ParentID r));
    field_omitempty "session_id" (GoString (RunPayload_SessionID r));
    field_omitempty "session_name" (GoString (RunPayload_SessionName r));
    field_omitempty "tags" (reflect_slice GoString (RunPayload_Tags r));
    field_omitempty "outputs" (reflect_map (RunPayload_Outputs r));
    field_omitempty "end_time" (GoTime (RunPayload_EndTime r));
    field_omitempty "extra" (reflect_map (RunPayload_Extras r));
    field_omitempty "events" (reflect_slice reflect_Event (RunPayload_Events r));
    field_omitempty "error" (GoString (RunPayload_Error r));
    field_omitempty "reference_example_id" (GoString (RunPayload_ReferenceExampleID r)) ].

Record baseClient := {
  APIKey : string;    (* API key for LangSmith *)
  baseUrl : string }. (* base url for the LangSmith API *)





Record PatchPayload := {
  PatchPayload_Outputs : map_string_any;
  PatchPayload_EndTime : time_Time;
  PatchPayload_Events : slice Event;
  PatchPayload_Extras : map_string_any;
  PatchPayload_Error : string;
  PatchPayload_SessionID : string }.

Definition reflect_PatchPayload (r : PatchPayload) : GoValue :=
  GoStruct [
    field "outputs" (reflect_map (PatchPayload_Outputs r));
    field "end_time" (GoTime (PatchPayload_EndTime r));
    field_omitempty "events" (reflect_slice reflect_Event (PatchPayload_Events r));
    field_omitempty "extra" (reflect_map (PatchPayload_Extras r));
    field_omitempty "error" (GoString (PatchPayload_Error r));
    field_omitempty "session_id" (GoString (PatchPayload_SessionID r)) ].

Definition DatasetTransformationType : Type := string.
Definition RemoveSystemMessages : DatasetTransformationType := "remove_system_messages".
Definition ConvertToOpenAIMessage : DatasetTransformationType := "convert_to_openai_message".
Definition ConvertToOpenAITool : DatasetTransformationType := "convert_to_openai_tool".
Definition RemoveExtraFields : DatasetTransformationType := "remove_extra_fields".
Definition ExtractToolsFromRun : DatasetTransformationType := "extract_tools_from_run".

Record DatasetTransformation := {
  DatasetTransformation_Path : slice string;
  DatasetTransformation_TransformationType : DatasetTransformationType }.

Definition reflect_DatasetTransformation (x : DatasetTransformation) : GoValue :=
  GoStruct [
    field "path" (reflect_slice GoString (DatasetTransformation_Path x));
    field "transformation_type" (GoString (DatasetTransformation_TransformationType x)) ].

Definition DataType : Type := string.
Definition DataTypeKV : DataType := "kv".
Definition DataTypeLLM : DataType := "llm".
Definition DataTypeCSV : DataType := "csv".

(** Dataset represents the Dataset schema *)
Record Dataset := {
  Dataset_ID : string;
  Dataset_Name : string;
  Dataset_Description : option string;
  Dataset_CreatedAt : time_Time;
  Dataset_InputsSchemaDefinition : map_string_any;
  Dataset_OutputsSchemaDefinition : map_string_any;
  Dataset_ExternallyManaged : option bool;
  Dataset_Transformations : slice DatasetTransformation;
  Dataset_DataType : option DataType;
  Dataset_TenantID : string;
  Dataset_ExampleCount : Z;
  Dataset_SessionCount : Z;
  Dataset_ModifiedAt : time_Time;
  Dataset_LastSessionStartTime : option time_Time }.

Definition reflect_Dataset (d : Dataset) : GoValue :=
  GoStruct [
    field "id" (GoString (Dataset_ID d));
    field "name" (GoString (Dataset_Name d));
    field_omitempty "description" (pointer GoString (Dataset_Description d));
    field "created_at" (GoTime (Dataset_CreatedAt d));
    field_omitempty "inputs_schema_definition" (reflect_map (Dataset_InputsSchemaDefinition d));
    field_omitempty "outputs_schema_definition" (reflect_map (Dataset_OutputsSchemaDefinition d));
    field_omitempty "externally_managed" (pointer GoBool (Dataset_ExternallyManaged d));
    field_omitempty "transformations"
      (reflect_slice reflect_DatasetTransformation (Dataset_Transformations d));
    field_omitempty "data_type" (pointer GoString (Dataset_DataType d));
    field "tenant_id" (GoString (Dataset_TenantID d));
    field "example_count" (GoInt (Dataset_ExampleCount d));
    field "session_count" (GoInt (Dataset_SessionCount d));
    field "modified_at" (GoTime (Dataset_ModifiedAt d));
    field_omitempty "last_session_start_time" (pointer GoTime (Dataset_LastSessionStartTime d)) ].

Record DatasetCSV := {
  DatasetCSV_File : string;
  DatasetCSV_InputKeys : slice string;
  DatasetCSV_Name : string;
  DatasetCSV_DataType : DataType;
  DatasetCSV_OutputKeys : slice string;
  DatasetCSV_Description : string }.

(** *** package mime/multipart: the writer *)

(** One part of a form: the [name] (and, for a file, the [filename]) of its
    Content-Disposition header, and its content. *)
Record Part := {
  Part_name : string;
  Part_filename : option string;
  Part_data : string }.

(** A multipart.Writer over a buffer: the parts written so far, in order. *)
Record multipart_Writer := {
  Writer_boundary : string;
  Writer_parts : list Part }.

(** The finished body: the parts between boundary lines, in order. *)
Record Form := {
  Form_boundary : string;
  Form_parts : list Part }.

Definition multipart_NewWriter (boundary : string) : multipart_Writer :=
  {| Writer_boundary := boundary; Writer_parts := [] |}.

(** mw.CreateFormFile(fieldname, filename): a new, empty file part.  Writing
    to a buffer does not fail. *)
Definition CreateFormFile (mw : multipart_Writer) (fieldname filename : string)
  : outcome multipart_Writer :=
  Ok {| Writer_boundary := Writer_boundary mw;
        Writer_parts := Writer_parts mw ++
          [ {| Part_name := fieldname; Part_filename := Some filename; Part_data := "" |} ] |}.

Fixpoint write_last (parts : list Part) (p : string) : list Part :=
  match parts with
  | [] => []
  | [x] => [ {| Part_name := Part_name x; Part_filename := Part_filename x;
                Part_data := Part_data x +:+ p |} ]
  | x :: parts' => x :: write_last parts' p
  end.

(** Write on the writer of the part created last. *)
Definition Part_Write (mw : multipart_Writer) (p : string) : outcome multipart_Writer :=
  Ok {| Writer_boundary := Writer_boundary mw; Writer_parts := write_last (Writer_parts mw) p |}.

(** mw.WriteField(fieldname, value) *)
Definition WriteField (mw : multipart_Writer) (fieldname value : string) : outcome multipart_Writer :=
  Ok {| Writer_boundary := Writer_boundary mw;
        Writer_parts := Writer_parts mw ++
          [ {| Part_name := fieldname; Part_filename := None; Part_data := value |} ] |}.

(** mw.Close() *)
Definition Writer_Close (mw : multipart_Writer) : outcome Form :=
  Ok {| Form_boundary := Writer_boundary mw; Form_parts := Writer_parts mw |}.

(** mw.FormDataContentType(), for a boundary that needs no quoting (the
    random boundary is made of hexadecimal digits). *)
Definition FormDataContentType (mw : multipart_Writer) : string :=
  "multipart/form-data; boundary=" +:+ Writer_boundary mw.

(** [for _, key := range keys { err := mw.WriteField(name, key); ... }] *)
Fixpoint WriteFields (mw : multipart_Writer) (name : string) (keys : list string)
  : outcome multipart_Writer :=
  match keys with
  | [] => Ok mw
  | key :: keys' => do mw' <- WriteField mw name key; WriteFields mw' name keys'
  end.

(** [func (d *DatasetCSV) ToMultiPart() (io.Reader, string, error)]; the
    boundary is the one multipart.NewWriter draws at random. *)
Definition DatasetCSV_ToMultiPart (boundary : string) (d : option DatasetCSV)
  : outcome (Form * string) :=
  match d with
  | None => Panic nil_pointer_dereference
  | Some d =>
      let mw := multipart_NewWriter boundary in
      do mw <- (if negb (DatasetCSV_File d =? "")%string then
                  do fileWriter <- CreateFormFile mw "file" "dataset.csv";
                  Part_Write fileWriter (DatasetCSV_File d)
                else Ok mw);
      do mw <- WriteFields mw "input_keys" (elements (DatasetCSV_InputKeys d));
      do mw <- (if negb (DatasetCSV_Name d =? "")%string
                then WriteField mw "name" (DatasetCSV_Name d) else Ok mw);
      do mw <- WriteField mw "data_type" (DatasetCSV_DataType d);
      do mw <- WriteFields mw "output_keys" (elements (DatasetCSV_OutputKeys d));
      do mw <- (if negb (DatasetCSV_Description d =? "")%string
                then WriteField mw "description" (DatasetCSV_Description d) else Ok mw);
      do b <- Writer_Close mw;
      Ok (b, FormDataContentType mw)
  end.

(** *** Experiments, examples, runs, feedback, sessions *)

Record FeedbackSource := {
  FeedbackSource_Type : string;
  FeedbackSource_Metadata : map_string_any }.

Definition reflect_FeedbackSource (x : FeedbackSource) : GoValue :=
  GoStruct [
    field "type" (GoString (FeedbackSource_Type x));
    field "metadata" (reflect_map (FeedbackSource_Metadata x)) ].

Definition FeedbackType : Type := string.
Definition FeedbackTypeContinuous : FeedbackType := "continuous".
Definition FeedbackTypeCategorical : FeedbackType := "categorical".
Definition FeedbackTypeFreeform : FeedbackType := "freeform".

Record FeedbackCategory := {
  FeedbackCategory_Value : Z;     (* float64 bits *)
  FeedbackCategory_Label : string }.

Definition reflect_FeedbackCategory (x : FeedbackCategory) : GoValue :=
  GoStruct [
    field "value" (GoFloat64 (FeedbackCategory_Value x));
    field "label" (GoString (FeedbackCategory_Label x)) ].

Record FeedbackConfig := {
  FeedbackConfig_Type : FeedbackType;
  FeedbackConfig_Min : Z;         (* float64 bits *)
  FeedbackConfig_Max : Z;         (* float64 bits *)
  FeedbackConfig_Categories : slice FeedbackCategory }.

Definition reflect_FeedbackConfig (x : FeedbackConfig) : GoValue :=
  GoStruct [
    field "type" (GoString (FeedbackConfig_Type x));
    field "min" (GoFloat64 (FeedbackConfig_Min x));
    field "max" (GoFloat64 (FeedbackConfig_Max x));
    field "categories" (reflect_slice reflect_FeedbackCategory (FeedbackConfig_Categories x)) ].

Record ExperimentScore := {
  ExperimentScore_CreatedAt : LangsmithTime;
  ExperimentScore_ModifiedAt : LangsmithTime;
  ExperimentScore_Key : string;
  ExperimentScore_Score : Z;      (* float64 bits *)
  ExperimentScore_Value : Z;      (* float64 bits *)
  ExperimentScore_Comment : string;
  ExperimentScore_Correction : map_string_any;
  ExperimentScore_FeedbackGroupID : string;
  ExperimentScore_ComparativeExperimentID : string;
  ExperimentScore_ID : string;
  ExperimentScore_FeedbackSource : option FeedbackSource;
  ExperimentScore_FeedbackConfig : option FeedbackConfig;
  ExperimentScore_Extra : map_string_any }.

Definition reflect_ExperimentScore (x : ExperimentScore) : GoValue :=
  GoStruct [
    field_omitempty "created_at" (GoLangsmithTime (ExperimentScore_CreatedAt x));
    field_omitempty "modified_at" (GoLangsmithTime (ExperimentScore_ModifiedAt x));
    field "key" (GoString (ExperimentScore_Key x));
    field_omitempty "score" (GoFloat64 (ExperimentScore_Score x));
    field_omitempty "value" (GoFloat64 (ExperimentScore_Value x));
    field_omitempty "comment" (GoString (ExperimentScore_Comment x));
    field_omitempty "correction" (reflect_map (ExperimentScore_Correction x));
    field_omitempty "feedback_group_id" (GoString (ExperimentScore_FeedbackGroupID x));
    field_omitempty "comparative_experiment_id"
      (GoString (ExperimentScore_ComparativeExperimentID x));
    field_omitempty "id" (GoString (ExperimentScore_ID x));
    field_omitempty "feedback_source"
      (pointer reflect_FeedbackSource (ExperimentScore_FeedbackSource x));
    field_omitempty "feedback_config"
      (pointer reflect_FeedbackConfig (ExperimentScore_FeedbackConfig x));
    field_omitempty "extra" (reflect_map (ExperimentScore_Extra x)) ].

Record Result := {
  Result_RowID : string;
  Result_Inputs : map_string_any;
  Result_ExpectedOutputs : map_string_any;
  Result_ActualOutputs : map_string_any;
  Result_EvaluationScores : slice (option ExperimentScore);
  Result_StartTime : LangsmithTime;
  Result_EndTime : LangsmithTime;
  Result_RunName : string;
  Result_Error : string;
  Result_RunMetadata : map_string_any }.

Definition reflect_Result (x : Result) : GoValue :=
  GoStruct [
    field_omitempty "row_id" (GoString (Result_RowID x));
    field "inputs" (reflect_map (Result_Inputs x));
    field_omitempty "expected_outputs" (reflect_map (Result_ExpectedOutputs x));
    field_omitempty "actual_outputs" (reflect_map (Result_ActualOutputs x));
    field_omitempty "evaluation_scores"
      (reflect_slice (pointer reflect_ExperimentScore) (Result_EvaluationScores x));
    field "start_time" (GoLangsmithTime (Result_StartTime x));
    field "end_time" (GoLangsmithTime (Result_EndTime x));
    field_omitempty "run_name" (GoString (Result_RunName x));
    field_omitempty "error" (GoString (Result_Error x));
    field_omitempty "run_metadata" (reflect_map (Result_RunMetadata x)) ].

Record Experiment := {
  Experiment_ExperimentName : string;
  Experiment_ExperimentDescription : string;
  Experiment_DatasetID : string;
  Experiment_DatasetName : string;
  Experiment_DatasetDescription : string;
  Experiment_SummaryExperimentScores : slice (option ExperimentScore);
  Experiment_Results : slice (option Result);
  Experiment_ExperimentStartTime : LangsmithTime;
  Experiment_ExperimentEndTime : LangsmithTime;
  Experiment_ExperimentMetadata : map_string_any }.

Definition reflect_Experiment (x : Experiment) : GoValue :=
  GoStruct [
    field "experiment_name" (GoString (Experiment_ExperimentName x));
    field_omitempty "experiment_description" (GoString (Experiment_ExperimentDescription x));
    field_omitempty "dataset_id" (GoString (Experiment_DatasetID x));
    field_omitempty "dataset_name" (GoString (Experiment_DatasetName x));
    field_omitempty "dataset_description" (GoString (Experiment_DatasetDescription x));
    field_omitempty "summary_experiment_scores"
      (reflect_slice (pointer reflect_ExperimentScore) (Experiment_SummaryExperimentScores x));
    field "results" (reflect_slice (pointer reflect_Result) (Experiment_Results x));
    field "experiment_start_time" (GoLangsmithTime (Experiment_ExperimentStartTime x));
    field "experiment_end_time" (GoLangsmithTime (Experiment_ExperimentEndTime x));
    field_omitempty "experiment_metadata" (reflect_map (Experiment_ExperimentMetadata x)) ].

Record Run := {
  Run_Name : string;
  Run_Inputs : map_string_any;
  Run_InputsPreview : string;
  Run_RunType : RunType;
  Run_StartTime : option LangsmithTime;
  Run_EndTime : option LangsmithTime;
  Run_Extra : map_string_any;
  Run_Error : string;
  Run_ExecutionOrder : Z;
  Run_Serialized : map_string_any;
  Run_Outputs : map_string_any;
  Run_OutputsPreview : string;
  Run_ParentRunID : string;
  Run_ManifestID : string;
  Run_ManifestS3ID : string;
  Run_Events : slice Event;
  Run_Tags : slice string;
  Run_InputsS3URLs : map_string_any;
  Run_OutputsS3URLs : map_string_any;
  Run_S3URLs : map_string_any;
  Run_TraceID : string;
  Run_DottedOrder : string;
  Run_ID : string;
  Run_SessionID : string;
  Run_ReferenceExampleID : string;
  Run_TotalTokens : Z;
  Run_PromptTokens : Z;
  Run_CompletionTokens : Z;
  Run_TotalCost : string;
  Run_PromptCost : string;
  Run_CompletionCost : string;
  Run_Status : string;
  Run_FeedbackStats : map_string_any;
  Run_AppPath : string }.

Definition reflect_Run (r : Run) : GoValue :=
  GoStruct [
    field "name" (GoString (Run_Name r));
    field_omitempty "inputs" (reflect_map (Run_Inputs r));
    field_omitempty "inputs_preview" (GoString (Run_InputsPreview r));
    field "run_type" (GoString (Run_RunType r));
    field_omitempty "start_time" (pointer GoLangsmithTime (Run_StartTime r));
    field_omitempty "end_time" (pointer GoLangsmithTime (Run_EndTime r));
    field_omitempty "extra" (reflect_map (Run_Extra r));
    field_omitempty "error" (GoString (Run_Error r));
    field_omitempty "execution_order" (GoInt (Run_ExecutionOrder r));
    field_omitempty "serialized" (reflect_map (Run_Serialized r));
    field_omitempty "outputs" (reflect_map (Run_Outputs r));
    field_omitempty "outputs_preview" (GoString (Run_OutputsPreview r));
    field_omitempty "parent_run_id" (GoString (Run_ParentRunID r));
    field_omitempty "manifest_id" (GoString (Run_ManifestID r));
    field_omitempty "manifest_s3_id" (GoString (Run_ManifestS3ID r));
    field_omitempty "events" (reflect_slice reflect_Event (Run_Events r));
    field_omitempty "tags" (reflect_slice GoString (Run_Tags r));
    field_omitempty "inputs_s3_urls" (reflect_map (Run_InputsS3URLs r));
    field_omitempty "outputs_s3_urls" (reflect_map (Run_OutputsS3URLs r));
    field_omitempty "s3_urls" (reflect_map (Run_S3URLs r));
    field "trace_id" (GoString (Run_TraceID r));
    field_omitempty "dotted_order" (GoString (Run_DottedOrder r));
    field "id" (GoString (Run_ID r));
    field "session_id" (GoString (Run_SessionID r));
    field_omitempty "reference_example_id" (GoString (Run_ReferenceExampleID r));
    field_omitempty "total_tokens" (GoInt (Run_TotalTokens r));
    field_omitempty "prompt_tokens" (GoInt (Run_PromptTokens r));
    field_omitempty "completion_tokens" (GoInt (Run_CompletionTokens r));
    field_omitempty "total_cost" (GoString (Run_TotalCost r));
    field_omitempty "prompt_cost" (GoString (Run_PromptCost r));
    field_omitempty "completion_cost" (GoString (Run_CompletionCost r));
    field "status" (GoString (Run_Status r));
    field_omitempty "feedback_stats" (reflect_map (Run_FeedbackStats r));
    field_omitempty "app_path" (GoString (Run_AppPath r)) ].

Record Example := {
  Example_ID : string;
  Example_CreatedAt : option LangsmithTime;
  Example_ModifiedAt : string;
  Example_Name : string;
  Example_DatasetID : string;
  Example_SourceRunID : string;
  Example_Metadata : map_string_any;
  Example_Inputs : map_string_any;
  Example_Outputs : map_string_any;
  Example_AttachmentURLs : map_string_any;
  Example_Runs : slice Run }.

Definition reflect_Example (e : Example) : GoValue :=
  GoStruct [
    field "id" (GoString (Example_ID e));
    field_omitempty "created_at" (pointer GoLangsmithTime (Example_CreatedAt e));
    field_omitempty "modified_at" (GoString (Example_ModifiedAt e));
    field_omitempty "name" (GoString (Example_Name e));
    field "dataset_id" (GoString (Example_DatasetID e));
    field_omitempty "source_run_id" (GoString (Example_SourceRunID e));
    field_omitempty "metadata" (reflect_map (Example_Metadata e));
    field "inputs" (reflect_map (Example_Inputs e));
    field_omitempty "outputs" (reflect_map (Example_Outputs e));
    field_omitempty "attachment_urls" (reflect_map (Example_AttachmentURLs e));
    field_omitempty "runs" (reflect_slice reflect_Run (Example_Runs e)) ].

(** QueryParams represents the query parameters for the API. *)
Record QueryParams := {
  QueryParams_ID : slice string;
  QueryParams_AsOf : string;
  QueryParams_Metadata : map_string_any;
  QueryParams_FullTextContains : slice string;
  QueryParams_Splits : slice string;
  QueryParams_Dataset : string;
  QueryParams_Offset : Z;
  QueryParams_Limit : Z;
  QueryParams_Order : string;
  QueryParams_RandomSeed : option Z;   (* *float64 *)
  QueryParams_Select : slice string;
  QueryParams_Filter : string }.

Record ComparativeExperimentRequest := {
  ComparativeExperimentRequest_ID : string;
  ComparativeExperimentRequest_ExperimentIDs : slice string;
  ComparativeExperimentRequest_Name : option string;
  ComparativeExperimentRequest_Description : option string;
  ComparativeExperimentRequest_ReferenceDatasetId : string;
  ComparativeExperimentRequest_CreatedAt : LangsmithTime;
  ComparativeExperimentRequest_ModifiedAt : LangsmithTime;
  ComparativeExperimentRequest_Extra : map_string_any }.

Definition reflect_ComparativeExperimentRequest (x : ComparativeExperimentRequest) : GoValue :=
  GoStruct [
    field_omitempty "id" (GoString (ComparativeExperimentRequest_ID x));
    field "experiment_ids" (reflect_slice GoString (ComparativeExperimentRequest_ExperimentIDs x));
    field_omitempty "name" (pointer GoString (ComparativeExperimentRequest_Name x));
    field_omitempty "description" (pointer GoString (ComparativeExperimentRequest_Description x));
    field "reference_dataset_id" (GoString (ComparativeExperimentRequest_ReferenceDatasetId x));
    field "created_at" (GoLangsmithTime (ComparativeExperimentRequest_CreatedAt x));
    field "modified_at" (GoLangsmithTime (ComparativeExperimentRequest_ModifiedAt x));
    field_omitempty "extra" (reflect_map (ComparativeExperimentRequest_Extra x)) ].

Record ExperimentInfo := {
  ExperimentInfo_ID : string;
  ExperimentInfo_Name : string }.

Record ComparativeExperiment := {
  ComparativeExperiment_ID : string;
  ComparativeExperiment_Name : option string;
  ComparativeExperiment_Description : option string;
  ComparativeExperiment_ReferenceDatasetId : string;
  ComparativeExperiment_CreatedAt : LangsmithTime;
  ComparativeExperiment_ModifiedAt : LangsmithTime;
  ComparativeExperiment_Extra : map_string_any;
  ComparativeExperiment_ExperimentsInfo : slice (option ExperimentInfo);
  ComparativeExperiment_FeedbackStats : map_string_any }.



Record Feedback := {
  Feedback_ID : string;
  Feedback_CreatedAt : LangsmithTime;
  Feedback_ModifiedAt : LangsmithTime;
  Feedback_Key : string;
  Feedback_Score : any;
  Feedback_Value : any;
  Feedback_Comment : string;
  Feedback_Correction : any;
  Feedback_FeedbackGroupID : string;
  Feedback_ComparativeExperimentID : string;
  Feedback_RunID : string;
  Feedback_SessionID : string;
  Feedback_TraceID : string;
  Feedback_FeedbackSource : option FeedbackSource;
  Feedback_FeedbackConfig : option FeedbackConfig }.

Definition reflect_Feedback (x : Feedback) : GoValue :=
  GoStruct [
    field_omitempty "id" (GoString (Feedback_ID x));
    field_omitempty "created_at" (GoLangsmithTime (Feedback_CreatedAt x));
    field_omitempty "modified_at" (GoLangsmithTime (Feedback_ModifiedAt x));
    field "key" (GoString (Feedback_Key x));
    field_omitempty "score" (reflect_any (Feedback_Score x));
    field_omitempty "value" (reflect_any (Feedback_Value x));
    field_omitempty "comment" (GoString (Feedback_Comment x));
    field_omitempty "correction" (reflect_any (Feedback_Correction x));
    field_omitempty "feedback_group_id" (GoString (Feedback_FeedbackGroupID x));
    field_omitempty "comparative_experiment_id" (GoString (Feedback_ComparativeExperimentID x));
    field_omitempty "run_id" (GoString (Feedback_RunID x));
    field_omitempty "session_id" (GoString (Feedback_SessionID x));
    field_omitempty "trace_id" (GoString (Feedback_TraceID x));
    field_omitempty "feedback_source" (pointer reflect_FeedbackSource (Feedback_FeedbackSource x));
    field_omitempty "feedback_config" (pointer reflect_FeedbackConfig (Feedback_FeedbackConfig x)) ].

Record RunsResponse := {
  RunsResponse_Runs : slice Run;
  RunsResponse_Cursors : map_string_any;
  RunsResponse_ParsedQuery : option string }.

Record TracerSessionRequest := {
  TracerSessionRequest_ID : string;
  TracerSessionRequest_StartTime : LangsmithTime;
  TracerSessionRequest_EndTime : LangsmithTime;
  TracerSessionRequest_Extra : map_string_any;
  TracerSessionRequest_Name : string;
  TracerSessionRequest_Description : string;
  TracerSessionRequest_DefaultDatasetID : string;
  TracerSessionRequest_ReferenceDatasetID : string;
  TracerSessionRequest_TraceTier : string }.

Definition reflect_TracerSessionRequest (x : TracerSessionRequest) : GoValue :=
  GoStruct [
    field_omitempty "id" (GoString (TracerSessionRequest_ID x));
    field_omitempty "start_time" (GoLangsmithTime (TracerSessionRequest_StartTime x));
    field_omitempty "end_time" (GoLangsmithTime (TracerSessionRequest_EndTime x));
    field_omitempty "extra" (reflect_map (TracerSessionRequest_Extra x));
    field_omitempty "name" (GoString (TracerSessionRequest_Name x));
    field_omitempty "description" (GoString (TracerSessionRequest_Description x));
    field_omitempty "default_dataset_id" (GoString (TracerSessionRequest_DefaultDatasetID x));
    field_omitempty "reference_dataset_id" (GoString (TracerSessionRequest_ReferenceDatasetID x));
    field_omitempty "trace_tier" (GoString (TracerSessionRequest_TraceTier x)) ].

Record TracerSessionUpdate := {
  TracerSessionUpdate_EndTime : LangsmithTime;
  TracerSessionUpdate_Extra : map_string_any;
  TracerSessionUpdate_Name : string;
  TracerSessionUpdate_Description : string;
  TracerSessionUpdate_DefaultDatasetID : string;
  TracerSessionUpdate_TraceTier : string }.

Definition reflect_TracerSessionUpdate (x : TracerSessionUpdate) : GoValue :=
  GoStruct [
    field_omitempty "end_time" (GoLangsmithTime (TracerSessionUpdate_EndTime x));
    field_omitempty "extra" (reflect_map (TracerSessionUpdate_Extra x));
    field_omitempty "name" (GoString (TracerSessionUpdate_Name x));
    field_omitempty "description" (GoString (TracerSessionUpdate_Description x));
    field_omitempty "default_dataset_id" (GoString (TracerSessionUpdate_DefaultDatasetID x));
    field_omitempty "trace_tier" (GoString (TracerSessionUpdate_TraceTier x)) ].

(** *** The timestamp fields of the data model *)












(** The members of a JSON object with the given name, in order. *)
Definition members_named (name : string) (ms : list (string * JSON)) : list (string * JSON) :=
  List.filter (fun m => (fst m =? name)%string) ms.

(** The fields of a struct with the given json name, in order. *)
Definition fields_named (name : string) (fs : list (string * bool * GoValue))
  : list (string * bool * GoValue) :=
  List.filter (fun f => (fst (fst f) =? name)%string) fs.




(** ** The world outside the program *)

(** The bytes of a request body, by what they encode. *)
Inductive payload :=
| JSONData (j : JSON)
| FormData (f : Form).

Record http_Request := {
  Method : string;
  URL : string;
  Header : gmap string (list string);
  Body : option payload }.

Record http_Response := {
  StatusCode : Z;
  Status : string;
  Response_Body : string }.

(** What the program writes to standard output. *)
Inductive printed :=
| Println_Request (req : http_Request)
| Println_string (data : JSON).

(** What an operation does that can be observed from outside. *)
Inductive event :=
| Send (req : http_Request)
| Stdout (p : printed).

(** Everything the operations use and do not define: whether net/http accepts
    a method and URL, what the network answers, the boundary multipart draws,
    and encoding/json's decoding of the typed responses. *)
Record Host := {
  NewRequest_accepts : string -> string -> bool;
  RoundTrip : http_Request -> outcome http_Response;
  randomBoundary : string;
  Unmarshal_Response : string -> outcome Response;
  Unmarshal_Examples : string -> outcome (slice Example);
  Unmarshal_ComparativeExperiments : string -> outcome (slice ComparativeExperiment);
  Unmarshal_RunsResponse : string -> outcome RunsResponse }.

(** A computation with observable events: the events in order, then the
    outcome.  After an error or a panic nothing more happens. *)
Definition IO (A : Type) : Type := list event * outcome A.

Definition io_bind {A B} (m : IO A) (k : A -> IO B) : IO B :=
  match snd m with
  | Ok a => (fst m ++ fst (k a), snd (k a))
  | Err e => (fst m, Err e)
  | Panic p => (fst m, Panic p)
  end.

Definition lift {A} (o : outcome A) : IO A := ([], o).

Notation "'run' x <- e1 ; e2" := (io_bind e1 (fun x => e2))
  (at level 10, x binder, e1 at level 100, e2 at level 200).

Definition events {A} (m : IO A) : list event := fst m.
Definition returned {A} (m : IO A) : outcome A := snd m.

(** The requests among the events. *)
Fixpoint requests (es : list event) : list http_Request :=
  match es with
  | [] => []
  | Send r :: es' => r :: requests es'
  | Stdout _ :: es' => requests es'
  end.

(** The standard output among the events. *)
Fixpoint output (es : list event) : list printed :=
  match es with
  | [] => []
  | Send _ :: es' => output es'
  | Stdout p :: es' => p :: output es'
  end.

(** os.Getenv on the process environment: the empty string when unset. *)
Definition os_Getenv (env : gmap string string) (key : string) : string :=
  default "" (env !! key).

Definition toUpper (c : ascii) : ascii :=
  if in_range 97 (byte_val c) 123 then byte_of (byte_val c - 32) else c.
Definition toLower (c : ascii) : ascii :=
  if in_range 65 (byte_val c) 91 then byte_of (byte_val c + 32) else c.

(** textproto.CanonicalMIMEHeaderKey for a key that is a valid token. *)
Fixpoint canonicalKey (upper : bool) (s : string) : string :=
  match s with
  | EmptyString => EmptyString
  | String c s' => String (if upper then toUpper c else toLower c) (canonicalKey (c =? "-")%char s')
  end.

(** req.Header.Set(key, value) *)
Definition Header_Set (req : http_Request) (key value : string) : http_Request :=
  {| Method := Method req; URL := URL req;
     Header := <[canonicalKey true key := [value]]> (Header req);
     Body := Body req |}.

Definition io_ReadAll (body : string) : outcome string := Ok body.

(** fmt's verb [%d] *)
Definition Itoa (n : Z) : string := appendInt n 0.

(** ** dataset.go *)

Record DatasetClient := { DatasetClient_baseClient : baseClient }.

Record Client := {
  Client_baseClient : baseClient;
  projectName : string }. (* project name in LangSmith *)

(** NewDatasetClient creates a new LangSmith client.  The client requires an
    API key to authenticate requests. *)
Definition NewDatasetClient (env : gmap string string) : outcome DatasetClient :=
  if (os_Getenv env "LANGSMITH_API_KEY" =? "")%string then
    Err (errors_New "langsmith api key is required")
  else
    let url := os_Getenv env "LANGSMITH_URL" in
    let url := if (url =? "")%string then BASE_URL else url in
    Ok {| DatasetClient_baseClient :=
            {| APIKey := os_Getenv env "LANGSMITH_API_KEY";
               baseUrl := url +:+ "/datasets" |} |}.

Section Operations.

Variable h : Host.

(** http.NewRequest(method, url, body) *)
Definition http_NewRequest (method url : string) (body : option payload) : outcome http_Request :=
  if NewRequest_accepts h method url
  then Ok {| Method := method; URL := url; Header := ∅; Body := body |}
  else Err url_Error.

(** [client := &http.Client{}; resp, err := client.Do(req)] *)
Definition client_Do (req : http_Request) : IO http_Response := ([Send req], RoundTrip h req).

Definition fmt_Println (p : printed) : IO unit := ([Stdout p], Ok tt).

(** Modelled from the spec: handleResponse is called here and defined in a
    file of the repository that is not at hand.  A status from 200 to 299 is
    success whatever the body; otherwise the body is decoded as an object
    with a [detail] string and the error carries that string, or the status
    line when the body does not parse. *)
Definition handleResponse (resp : http_Response) : outcome unit :=
  if in_range 200 (StatusCode resp) 300 then Ok tt
  else
    match Unmarshal_Response h (Response_Body resp) with
    | Ok r => Err (remote_Error (Detail r))
    | _ => Err (remote_Error (Status resp))
    end.

(** Modelled from the spec: Do, the transport layer's send, is called here and
    defined in a file of the repository that is not at hand.  It builds a
    request with the given method and JSON body to the URL it is handed (the
    callers pass base URL and path already joined), sets the header that
    carries the API key, sends it once and classifies the response. *)
Definition Do (c : baseClient) (url method : string) (jsonData : JSON) : IO unit :=
  run req <- lift (http_NewRequest method url (Some (JSONData jsonData)));
  let req := Header_Set req "x-api-key" (APIKey c) in
  run resp <- client_Do req;
  lift (handleResponse resp).

(** Modelled from the spec: PostForm, the transport layer's sendForm, is called
    here and defined in a file of the repository that is not at hand.  The
    same as Do for a body encoded beforehand, with the content type the caller
    supplies. *)
Definition PostForm (c : baseClient) (url : string) (body : Form) (contentType : string) : IO unit :=
  run req <- lift (http_NewRequest "POST" url (Some (FormData body)));
  let req := Header_Set req "Content-Type" contentType in
  let req := Header_Set req "x-api-key" (APIKey c) in
  run resp <- client_Do req;
  lift (handleResponse resp).

Definition CreateDataset (d : DatasetClient) (input : option Dataset) : IO unit :=
  run jsonData <- lift (json_Marshal (pointer reflect_Dataset input));
  Do (DatasetClient_baseClient d) (baseUrl (DatasetClient_baseClient d)) "POST" jsonData.

Definition UploadCSV (d : DatasetClient) (input : option DatasetCSV) : IO unit :=
  run r <- lift (DatasetCSV_ToMultiPart (randomBoundary h) input);
  let body := fst r in
  let contentType := snd r in
  run b <- lift (Ok body);  (* io.Copy(&b, body) *)
  PostForm (DatasetClient_baseClient d) (baseUrl (DatasetClient_baseClient d) +:+ "/upload")
    b contentType.

Definition UploadExperiment (d : DatasetClient) (input : option Experiment) : IO unit :=
  run jsonData <- lift (json_Marshal (pointer reflect_Experiment input));
  Do (DatasetClient_baseClient d) (baseUrl (DatasetClient_baseClient d) +:+ "/upload-experiment")
    "POST" jsonData.

Definition ReadDataset (d : DatasetClient) (id : string) : IO string :=
  run req <- lift (http_NewRequest "GET"
                     (baseUrl (DatasetClient_baseClient d) +:+ "/" +:+ id) None);
  (* Set the necessary headers *)
  let req := Header_Set req "x-api-key" (APIKey (DatasetClient_baseClient d)) in
  (* Create an HTTP client and send the request *)
  run resp <- client_Do req;
  run _ <- lift (handleResponse resp);
  run b <- lift (io_ReadAll (Response_Body resp));
  lift (Ok b).

Definition DownloadDatasetCsv (d : DatasetClient) (id : string) : IO string :=
  run req <- lift (http_NewRequest "GET"
                     (baseUrl (DatasetClient_baseClient d) +:+ "/" +:+ id +:+ "/csv") None);
  (* Set the necessary headers *)
  let req := Header_Set req "x-api-key" (APIKey (DatasetClient_baseClient d)) in
  run _ <- fmt_Println (Println_Request req);
  (* Create an HTTP client and send the request *)
  run resp <- client_Do req;
  run _ <- lift (handleResponse resp);
  run b <- lift (io_ReadAll (Response_Body resp));  (* io.Copy(&b, resp.Body) *)
  lift (Ok b).

Definition GetExamples (d : DatasetClient) (datasetId : string) (offset : Z)
  : IO (slice Example) :=
  run req <- lift (http_NewRequest "GET"
                     (BASE_URL +:+ "/examples?dataset=" +:+ datasetId +:+ "&offset=" +:+ Itoa offset)
                     None);
  (* Set the necessary headers *)
  let req := Header_Set req "x-api-key" (APIKey (DatasetClient_baseClient d)) in
  (* Create an HTTP client and send the request *)
  run resp <- client_Do req;
  run _ <- lift (handleResponse resp);
  run b <- lift (io_ReadAll (Response_Body resp));
  run examples <- lift (Unmarshal_Examples h b);
  lift (Ok examples).

Definition CreateExample (d : DatasetClient) (example : Example) : IO unit :=
  run jsonData <- lift (json_Marshal (reflect_Example example));
  run _ <- fmt_Println (Println_string jsonData);
  Do (DatasetClient_baseClient d) (BASE_URL +:+ "/examples") "POST" jsonData.

Definition CreateExamples (d : DatasetClient) (examples : slice Example) : IO unit :=
  run jsonData <- lift (json_Marshal (reflect_slice reflect_Example examples));
  Do (DatasetClient_baseClient d) (BASE_URL +:+ "/examples/bulk") "POST" jsonData.

Definition GetExamplesWithRuns (d : DatasetClient) (datasetId : string) : IO (slice Example) :=
  let body := GoMap [ ("session_ids", GoSlice [GoString "58a7c5a2-c14e-42dc-936a-3af8e84777fa"]) ] in
  run data <- lift (json_Marshal body);
  run req <- lift (http_NewRequest "POST"
                     (baseUrl (DatasetClient_baseClient d) +:+ "/" +:+ datasetId +:+ "/runs")
                     (Some (JSONData data)));
  (* Set the necessary headers *)
  let req := Header_Set req "x-api-key" (APIKey (DatasetClient_baseClient d)) in
  (* Create an HTTP client and send the request *)
  run resp <- client_Do req;
  run _ <- lift (handleResponse resp);
  run b <- lift (io_ReadAll (Response_Body resp));
  run examples <- lift (Unmarshal_Examples h b);
  lift (Ok examples).

Definition CreateComparativeExperiment (d : DatasetClient)
  (input : option ComparativeExperimentRequest) : IO unit :=
  run jsonData <- lift (json_Marshal (pointer reflect_ComparativeExperimentRequest input));
  Do (DatasetClient_baseClient d) (baseUrl (DatasetClient_baseClient d) +:+ "/comparative")
    "POST" jsonData.

Definition ReadComparitiveExperiment (d : DatasetClient) (datasetId experimentId : string)
  : IO (slice ComparativeExperiment) :=
  run req <- lift (http_NewRequest "GET"
                     (baseUrl (DatasetClient_baseClient d) +:+ "/" +:+ datasetId
                        +:+ "/comparative?id=" +:+ experimentId) None);
  (* Set the necessary headers *)
  let req := Header_Set req "x-api-key" (APIKey (DatasetClient_baseClient d)) in
  (* Create an HTTP client and send the request *)
  run resp <- client_Do req;
  run _ <- lift (handleResponse resp);
  run b <- lift (io_ReadAll (Response_Body resp));
  run experiments <- lift (Unmarshal_ComparativeExperiments h b);
  lift (Ok experiments).

(** The map literal reads [queryParams.Select]: a nil [queryParams] panics. *)
Definition QueryRuns_body (experimentIds : slice string) (isRoot : bool)
  (queryParams : option QueryParams) : outcome GoValue :=
  match queryParams with
  | None => Panic nil_pointer_dereference
  | Some q =>
      Ok (GoMap [ ("session", reflect_slice GoString experimentIds);
                  ("root", GoBool isRoot);
                  ("select", reflect_slice GoString (QueryParams_Select q));
                  ("filter", GoString (QueryParams_Filter q)) ])
  end.

Definition QueryRuns (d : DatasetClient) (experimentIds : slice string) (isRoot : bool)
  (queryParams : option QueryParams) : IO RunsResponse :=
  run body <- lift (QueryRuns_body experimentIds isRoot queryParams);
  run data <- lift (json_Marshal body);
  run req <- lift (http_NewRequest "POST" (BASE_URL +:+ "/runs/query") (Some (JSONData data)));
  (* Set the necessary headers *)
  let req := Header_Set req "x-api-key" (APIKey (DatasetClient_baseClient d)) in
  (* Create an HTTP client and send the request *)
  run resp <- client_Do req;
  run _ <- lift (handleResponse resp);
  run b <- lift (io_ReadAll (Response_Body resp));
  run runsResponse <- lift (Unmarshal_RunsResponse h b);
  lift (Ok runsResponse).

Definition CreateFeedback (d : DatasetClient) (input : option Feedback) : IO unit :=
  run jsonData <- lift (json_Marshal (pointer reflect_Feedback input));
  Do (DatasetClient_baseClient d) (BASE_URL +:+ "/feedback") "POST" jsonData.

Definition CreateTracerSession (d : DatasetClient) (input : option TracerSessionRequest) : IO unit :=
  run jsonData <- lift (json_Marshal (pointer reflect_TracerSessionRequest input));
  Do (DatasetClient_baseClient d) (BASE_URL +:+ "/sessions") "POST" jsonData.

Definition UpdateTracerSession (d : DatasetClient) (sessionId : string)
  (input : option TracerSessionUpdate) : IO unit :=
  run jsonData <- lift (json_Marshal (pointer reflect_TracerSessionUpdate input));
  Do (DatasetClient_baseClient d) (BASE_URL +:+ "/sessions/" +:+ sessionId) "PATCH" jsonData.

End Operations.

(** ** The public operations, as one type *)

(** A call of one of the client's methods with its arguments. *)
Inductive Call :=
| call_CreateDataset (input : option Dataset)
| call_UploadCSV (input : option DatasetCSV)
| call_UploadExperiment (input : option Experiment)
| call_ReadDataset (id : string)
| call_DownloadDatasetCsv (id : string)
| call_GetExamples (datasetId : string) (offset : Z)
| call_CreateExample (example : Example)
| call_CreateExamples (examples : slice Example)
| call_GetExamplesWithRuns (datasetId : string)
| call_CreateComparativeExperiment (input : option ComparativeExperimentRequest)
| call_ReadComparitiveExperiment (datasetId experimentId : string)
| call_QueryRuns (experimentIds : slice string) (isRoot : bool) (queryParams : option QueryParams)
| call_CreateFeedback (input : option Feedback)
| call_CreateTracerSession (input : option TracerSessionRequest)
| call_UpdateTracerSession (sessionId : string) (input : option TracerSessionUpdate).

(** What a call returns beside the error. *)
Inductive Returned :=
| nothing
| bytes (b : string)
| examples (l : slice Example)
| comparativeExperiments (l : slice ComparativeExperiment)
| runsResponse (r : RunsResponse).

Definition io_map {A B} (f : A -> B) (m : IO A) : IO B :=
  (fst m, match snd m with
          | Ok a => Ok (f a)
          | Err e => Err e
          | Panic p => Panic p
          end).

Definition perform (h : Host) (d : DatasetClient) (c : Call) : IO Returned :=
  match c with
  | call_CreateDataset input => io_map (fun _ => nothing) (CreateDataset h d input)
  | call_UploadCSV input => io_map (fun _ => nothing) (UploadCSV h d input)
  | call_UploadExperiment input => io_map (fun _ => nothing) (UploadExperiment h d input)
  | call_ReadDataset id => io_map bytes (ReadDataset h d id)
  | call_DownloadDatasetCsv id => io_map bytes (DownloadDatasetCsv h d id)
  | call_GetExamples datasetId offset => io_map examples (GetExamples h d datasetId offset)
  | call_CreateExample example => io_map (fun _ => nothing) (CreateExample h d example)
  | call_CreateExamples l => io_map (fun _ => nothing) (CreateExamples h d l)
  | call_GetExamplesWithRuns datasetId => io_map examples (GetExamplesWithRuns h d datasetId)
  | call_CreateComparativeExperiment input =>
      io_map (fun _ => nothing) (CreateComparativeExperiment h d input)
  | call_ReadComparitiveExperiment datasetId experimentId =>
      io_map comparativeExperiments (ReadComparitiveExperiment h d datasetId experimentId)
  | call_QueryRuns experimentIds isRoot queryParams =>
      io_map runsResponse (QueryRuns h d experimentIds isRoot queryParams)
  | call_CreateFeedback input => io_map (fun _ => nothing) (CreateFeedback h d input)
  | call_CreateTracerSession input => io_map (fun _ => nothing) (CreateTracerSession h d input)
  | call_UpdateTracerSession sessionId input =>
      io_map (fun _ => nothing) (UpdateTracerSession h d sessionId input)
  end.

(** The serialization of the request body a call starts with, for the calls
    that have one: json.Marshal of the request object, or ToMultiPart. *)
Definition serialization (h : Host) (c : Call) : option (outcome payload) :=
  let json (v : GoValue) := Some (do j <- json_Marshal v; Ok (JSONData j)) in
  match c with
  | call_CreateDataset input => json (pointer reflect_Dataset input)
  | call_UploadCSV input =>
      Some (do r <- DatasetCSV_ToMultiPart (randomBoundary h) input; Ok (FormData (fst r)))
  | call_UploadExperiment input => json (pointer reflect_Experiment input)
  | call_CreateExample example => json (reflect_Example example)
  | call_CreateExamples l => json (reflect_slice reflect_Example l)
  | call_GetExamplesWithRuns _ =>
      json (GoMap [ ("session_ids", GoSlice [GoString "58a7c5a2-c14e-42dc-936a-3af8e84777fa"]) ])
  | call_CreateComparativeExperiment input => json (pointer reflect_ComparativeExperimentRequest input)
  | call_QueryRuns experimentIds isRoot queryParams =>
      Some (do body <- QueryRuns_body experimentIds isRoot queryParams;
            do j <- json_Marshal body; Ok (JSONData j))
  | call_CreateFeedback input => json (pointer reflect_Feedback input)
  | call_CreateTracerSession input => json (pointer reflect_TracerSessionRequest input)
  | call_UpdateTracerSession _ input => json (pointer reflect_TracerSessionUpdate input)
  | call_ReadDataset _ | call_DownloadDatasetCsv _ | call_GetExamples _ _
  | call_ReadComparitiveExperiment _ _ => None
  end.

(** ** Values to run the model on *)

(** A transport that answers every request with the given status and body, in
    a world where net/http accepts every URL. *)
Definition mock_Host (status : Z) (body : string) : Host :=
  {| NewRequest_accepts := fun _ _ => true;
     RoundTrip := fun _ => Ok {| StatusCode := status; Status := Itoa status; Response_Body := body |};
     randomBoundary := "0123456789abcdef";
     Unmarshal_Response := fun _ => Err json_SyntaxError;
     Unmarshal_Examples := fun _ => Ok (Some []);
     Unmarshal_ComparativeExperiments := fun _ => Ok (Some []);
     Unmarshal_RunsResponse := fun _ => Err json_SyntaxError |}.

(** LANGSMITH_API_KEY alone. *)
Definition env_key : gmap string string := {[ "LANGSMITH_API_KEY" := "key" ]}.

(** LANGSMITH_API_KEY and a LANGSMITH_URL that overrides the endpoint. *)
Definition env_override : gmap string string :=
  <[ "LANGSMITH_URL" := "http://localhost:1984/api/v1" ]> env_key.

Definition client_override : DatasetClient :=
  {| DatasetClient_baseClient :=
       {| APIKey := "key"; baseUrl := "http://localhost:1984/api/v1/datasets" |} |}.

(** 2023-11-14 22:13:20 UTC *)
Definition t_utc : time_Time := {| unix := 1700000000; nsec := 0; offset := UTC |}.

(** The same instant with half a second more, in a zone one hour east. *)
Definition t_cet : time_Time := {| unix := 1700000000; nsec := 500000000; offset := 3600 |}.

(** 10000-01-01 00:00:00 UTC *)
Definition t_year10000 : time_Time := {| unix := 253402300800; nsec := 0; offset := UTC |}.

Definition zero_LangsmithTime : LangsmithTime := mkLangsmithTime zero_Time.

(** [Feedback{Key: k}]: every other field has its zero value. *)
Definition feedback_key_only : Feedback :=
  {| Feedback_ID := ""; Feedback_CreatedAt := zero_LangsmithTime;
     Feedback_ModifiedAt := zero_LangsmithTime; Feedback_Key := "k";
     Feedback_Score := None; Feedback_Value := None; Feedback_Comment := "";
     Feedback_Correction := None; Feedback_FeedbackGroupID := "";
     Feedback_ComparativeExperimentID := ""; Feedback_RunID := ""; Feedback_SessionID := "";
     Feedback_TraceID := ""; Feedback_FeedbackSource := None; Feedback_FeedbackConfig := None |}.

(** A feedback whose score is a value json cannot encode (a channel, say). *)
Definition feedback_unsupported : Feedback :=
  {| Feedback_ID := ""; Feedback_CreatedAt := zero_LangsmithTime;
     Feedback_ModifiedAt := zero_LangsmithTime; Feedback_Key := "k";
     Feedback_Score := Some GoUnsupported; Feedback_Value := None; Feedback_Comment := "";
     Feedback_Correction := None; Feedback_FeedbackGroupID := "";
     Feedback_ComparativeExperimentID := ""; Feedback_RunID := ""; Feedback_SessionID := "";
     Feedback_TraceID := ""; Feedback_FeedbackSource := None; Feedback_FeedbackConfig := None |}.

(** A dataset created at [t]: every field the claim is not about is empty. *)
Definition dataset_at (t : time_Time) : Dataset :=
  {| Dataset_ID := "ds-1"; Dataset_Name := "n"; Dataset_Description := None;
     Dataset_CreatedAt := t; Dataset_InputsSchemaDefinition := None;
     Dataset_OutputsSchemaDefinition := None; Dataset_ExternallyManaged := None;
     Dataset_Transformations := None; Dataset_DataType := None; Dataset_TenantID := "t-1";
     Dataset_ExampleCount := 0; Dataset_SessionCount := 0; Dataset_ModifiedAt := t;
     Dataset_LastSessionStartTime := None |}.

(** [TracerSessionRequest{Name: n}]: every other field has its zero value. *)
Definition session_name_only : TracerSessionRequest :=
  {| TracerSessionRequest_ID := ""; TracerSessionRequest_StartTime := zero_LangsmithTime;
     TracerSessionRequest_EndTime := zero_LangsmithTime; TracerSessionRequest_Extra := None;
     TracerSessionRequest_Name := "n"; TracerSessionRequest_Description := "";
     TracerSessionRequest_DefaultDatasetID := ""; TracerSessionRequest_ReferenceDatasetID := "";
     TracerSessionRequest_TraceTier := "" |}.

(** A query that selects and filters nothing. *)
Definition query_empty : QueryParams :=
  {| QueryParams_ID := None; QueryParams_AsOf := ""; QueryParams_Metadata := None;
     QueryParams_FullTextContains := None; QueryParams_Splits := None; QueryParams_Dataset := "";
     QueryParams_Offset := 0; QueryParams_Limit := 0; QueryParams_Order := "";
     QueryParams_RandomSeed := None; QueryParams_Select := None; QueryParams_Filter := "" |}.

(** An example with an id, a dataset and nothing else. *)
Definition example_ids_only : Example :=
  {| Example_ID := "ex-1"; Example_CreatedAt := None; Example_ModifiedAt := "";
     Example_Name := ""; Example_DatasetID := "ds-1"; Example_SourceRunID := "";
     Example_Metadata := None; Example_Inputs := None; Example_Outputs := None;
     Example_AttachmentURLs := None; Example_Runs := None |}.

(** The body GetExamplesWithRuns sends. *)
Definition session_ids_body : JSON :=
  JObject [ ("session_ids", JArray [JString "58a7c5a2-c14e-42dc-936a-3af8e84777fa"]) ].

(** The values of the form fields with the given name, in the order of the body. *)
Definition field_values (name : string) (body : Form) : list string :=
  map Part_data (List.filter (fun p => (Part_name p =? name)%string) (Form_parts body)).

(** A form field that is not a file. *)
Definition form_field (name value : string) : Part :=
  {| Part_name := name; Part_filename := None; Part_data := value |}.

(** The parts ToMultiPart writes, in order. *)
Definition DatasetCSV_parts (d : DatasetCSV) : list Part :=
  (if negb (DatasetCSV_File d =? "")%string
   then [ {| Part_name := "file"; Part_filename := Some "dataset.csv";
             Part_data := DatasetCSV_File d |} ]
   else []) ++
  map (form_field "input_keys") (elements (DatasetCSV_InputKeys d)) ++
  (if negb (DatasetCSV_Name d =? "")%string then [ form_field "name" (DatasetCSV_Name d) ] else []) ++
  [ form_field "data_type" (DatasetCSV_DataType d) ] ++
  map (form_field "output_keys") (elements (DatasetCSV_OutputKeys d)) ++
  (if negb (DatasetCSV_Description d =? "")%string
   then [ form_field "description" (DatasetCSV_Description d) ] else []).

(** A CSV upload with two input keys, the second one twice. *)
Definition csv_two_keys : DatasetCSV :=
  {| DatasetCSV_File := "q,a"; DatasetCSV_InputKeys := Some ["q"; "input_keys"; "q"];
     DatasetCSV_Name := "n"; DatasetCSV_DataType := DataTypeKV;
     DatasetCSV_OutputKeys := Some ["a"]; DatasetCSV_Description := "" |}.

(** ** Vocabulary of the proofs *)

(** [P] holds of the [n] integers from [z] on. *)
Fixpoint forall_range (n : nat) (z : Z) (P : Z -> bool) : bool :=
  match n with
  | O => true
  | S n' => P z && forall_range n' (z + 1) P
  end.

(** The date of a day number is a date of the calendar and converts back. *)
Definition civil_ok (z : Z) : bool :=
  let '(y, m, d) := civil_from_days z in
  in_range 1 m 13 && in_range 1 d (daysIn m y + 1) && (days_from_civil y m d =? z).

Definition two_digits (x : Z) (rest : string) : string :=
  String (digit (x / 10)) (String (digit (x mod 10)) rest).

Definition four_digits (x : Z) (rest : string) : string :=
  String (digit (x / 1000)) (String (digit (x / 100 mod 10)) (two_digits (x mod 100) rest)).

(** The text Format produces for a year of four digits. *)
Definition wire_text (t : time_Time) : string :=
  four_digits (Year t)
    (String "-" (two_digits (Month t)
       (String "-" (two_digits (Day t)
          (String "T" (two_digits (Hour t)
             (String ":" (two_digits (Minute t)
                (String ":" (two_digits (Second t) "")))))))))).

(** The time in UTC whose date and clock are those [t] shows in its own
    Location, to the second. *)
Definition wall_clock_UTC (t : time_Time) : time_Time :=
  {| unix := unix t + offset t; nsec := 0; offset := UTC |}.

(** Bytes that stand for themselves inside a JSON string literal. *)
Definition plain (c : ascii) : bool :=
  in_range 32 (byte_val c) 128 && negb (c =? quote)%char && negb (c =? backslash)%char.

Fixpoint all_plain (s : string) : bool :=
  match s with
  | EmptyString => true
  | String c s' => plain c && all_plain s'
  end.

(** Method and URL of the request a call sends (when it sends one). *)
Definition target (d : DatasetClient) (c : Call) : string * string :=
  let base := baseUrl (DatasetClient_baseClient d) in
  match c with
  | call_CreateDataset _ => ("POST", base)
  | call_UploadCSV _ => ("POST", base +:+ "/upload")
  | call_UploadExperiment _ => ("POST", base +:+ "/upload-experiment")
  | call_ReadDataset id => ("GET", base +:+ "/" +:+ id)
  | call_DownloadDatasetCsv id => ("GET", base +:+ "/" +:+ id +:+ "/csv")
  | call_GetExamples datasetId offset =>
      ("GET", BASE_URL +:+ "/examples?dataset=" +:+ datasetId +:+ "&offset=" +:+ Itoa offset)
  | call_CreateExample _ => ("POST", BASE_URL +:+ "/examples")
  | call_CreateExamples _ => ("POST", BASE_URL +:+ "/examples/bulk")
  | call_GetExamplesWithRuns datasetId => ("POST", base +:+ "/" +:+ datasetId +:+ "/runs")
  | call_CreateComparativeExperiment _ => ("POST", base +:+ "/comparative")
  | call_ReadComparitiveExperiment datasetId experimentId =>
      ("GET", base +:+ "/" +:+ datasetId +:+ "/comparative?id=" +:+ experimentId)
  | call_QueryRuns _ _ _ => ("POST", BASE_URL +:+ "/runs/query")
  | call_CreateFeedback _ => ("POST", BASE_URL +:+ "/feedback")
  | call_CreateTracerSession _ => ("POST", BASE_URL +:+ "/sessions")
  | call_UpdateTracerSession sessionId _ => ("PATCH", BASE_URL +:+ "/sessions/" +:+ sessionId)
  end.

(** The calls that write to standard output. *)
Definition prints (c : Call) : bool :=
  match c with
  | call_DownloadDatasetCsv _ | call_CreateExample _ => true
  | _ => false
  end.

(** ** Vocabulary of the further properties *)

(** A date of the calendar converts to its day number and back. *)
Definition date_ok (y m d : Z) : bool :=
  implb (d <=? daysIn m y)
    (let '(y', m', d') := civil_from_days (days_from_civil y m d) in
     (y' =? y) && (m' =? m) && (d' =? d)).

(** The 19 bytes YYYY-MM-DDTHH:MM:SS of the given fields. *)
Definition wire_of_fields (y m d h mi s : Z) : string :=
  four_digits y
    (String "-" (two_digits m
       (String "-" (two_digits d
          (String "T" (two_digits h
             (String ":" (two_digits mi
                (String ":" (two_digits s "")))))))))).

(** Decimal digits only. *)
Fixpoint all_digits (s : string) : bool :=
  match s with
  | EmptyString => true
  | String c s' => isDigit c && all_digits s'
  end.

(** What Format writes after the year. *)
Definition wire_tail (t : time_Time) : string :=
  String "-" (two_digits (Month t)
    (String "-" (two_digits (Day t)
       (String "T" (two_digits (Hour t)
          (String ":" (two_digits (Minute t)
             (String ":" (two_digits (Second t) ""))))))))).

(** The members json.Marshal writes for the fields of a struct, in order. *)
Fixpoint struct_members (fs : list (string * bool * GoValue)) : outcome (list (string * JSON)) :=
  match fs with
  | [] => Ok []
  | (name, omitempty, x) :: fs' =>
      if omitempty && isEmptyValue x then struct_members fs'
      else do j <- json_Marshal x; do ms <- struct_members fs'; Ok ((name, j) :: ms)
  end.

(** The text a LangsmithTime is encoded to. *)
Definition LangsmithTime_json (t : LangsmithTime) : JSON :=
  JRaw (quoted (Format (as_Time t) langsmithTimeFormat)).

(** [TracerSessionUpdate{}] with only an end time. *)
Definition session_update_at (t : time_Time) : TracerSessionUpdate :=
  {| TracerSessionUpdate_EndTime := mkLangsmithTime t; TracerSessionUpdate_Extra := None;
     TracerSessionUpdate_Name := ""; TracerSessionUpdate_Description := "";
     TracerSessionUpdate_DefaultDatasetID := ""; TracerSessionUpdate_TraceTier := "" |}.

(** A run with its identifiers and, possibly, a start time. *)
Definition run_started (start : option LangsmithTime) : Run :=
  {| Run_Name := "r"; Run_Inputs := None; Run_InputsPreview := ""; Run_RunType := Chain;
     Run_StartTime := start; Run_EndTime := None; Run_Extra := None; Run_Error := "";
     Run_ExecutionOrder := 0; Run_Serialized := None; Run_Outputs := None;
     Run_OutputsPreview := ""; Run_ParentRunID := ""; Run_ManifestID := "";
     Run_ManifestS3ID := ""; Run_Events := None; Run_Tags := None; Run_InputsS3URLs := None;
     Run_OutputsS3URLs := None; Run_S3URLs := None; Run_TraceID := "tr-1";
     Run_DottedOrder := ""; Run_ID := "run-1"; Run_SessionID := "s-1";
     Run_ReferenceExampleID := ""; Run_TotalTokens := 0; Run_PromptTokens := 0;
     Run_CompletionTokens := 0; Run_TotalCost := ""; Run_PromptCost := "";
     Run_CompletionCost := ""; Run_Status := "success"; Run_FeedbackStats := None;
     Run_AppPath := "" |}.

(** The JSON for a [[]string]: null for the nil slice. *)
Definition strings_json (s : slice string) : JSON :=
  match s with
  | Some l => JArray (map JString l)
  | None => JNull
  end.

(** The text time.Time's own MarshalJSON gives. *)
Definition Time_json (t : time_Time) : JSON := JRaw (quoted (Format_RFC3339Nano t)).

(** A run that starts at [t] and has not ended: EndTime is the zero time. *)
Definition run_payload_at (t : time_Time) : RunPayload :=
  {| RunPayload_RunID := "run-1"; RunPayload_Name := "r"; RunPayload_RunType := Chain;
     RunPayload_StartTime := t; RunPayload_Inputs := None; RunPayload_ParentID := "";
     RunPayload_SessionID := ""; RunPayload_SessionName := ""; RunPayload_Tags := None;
     RunPayload_Outputs := None; RunPayload_EndTime := zero_Time; RunPayload_Extras := None;
     RunPayload_Events := None; RunPayload_Error := ""; RunPayload_ReferenceExampleID := "" |}.

(** The end of a run at [t], with nothing else. *)
Definition patch_payload_at (t : time_Time) : PatchPayload :=
  {| PatchPayload_Outputs := None; PatchPayload_EndTime := t; PatchPayload_Events := None;
     PatchPayload_Extras := None; PatchPayload_Error := ""; PatchPayload_SessionID := "" |}.

(** The calls that build and send their request themselves; the others hand
    the body to Do or to PostForm. *)
Definition builds_request (c : Call) : bool :=
  match c with
  | call_ReadDataset _ | call_DownloadDatasetCsv _ | call_GetExamples _ _
  | call_GetExamplesWithRuns _ | call_ReadComparitiveExperiment _ _
  | call_QueryRuns _ _ _ => true
  | _ => false
  end.

(** A transport that fails on every request. *)
Definition offline_Host : Host :=
  {| NewRequest_accepts := fun _ _ => true;
     RoundTrip := fun _ => Err url_Error;
     randomBoundary := "0123456789abcdef";
     Unmarshal_Response := fun _ => Err json_SyntaxError;
     Unmarshal_Examples := fun _ => Ok (Some []);
     Unmarshal_ComparativeExperiments := fun _ => Ok (Some []);
     Unmarshal_RunsResponse := fun _ => Err json_SyntaxError |}.

(** * Theorems *)

(** ** The calendar *)


Lemma forall_range_spec n : forall z P,
  forall_range n z P = true -> forall k, z <= k < z + Z.of_nat n -> P k = true.
Proof.
  induction n as [|n IH]; intros z P H k Hk.
  - simpl in Hk. lia.
  - simpl in H. apply andb_prop in H as [Hz Hrest].
    destruct (Z.eq_dec k z) as [->|Hne]; [exact Hz|].
    apply (IH (z + 1) P Hrest). lia.
Qed.

Lemma civil_ok_first_era z : -719468 <= z < -719468 + 146097 -> civil_ok z = true.
Proof.
  assert (H : forall_range (Z.to_nat 146097) (-719468) civil_ok = true)
    by (vm_compute; reflexivity).
  intros Hz. apply (forall_range_spec _ _ _ H). lia.
Qed.

Ltac div_mod_lia := Z.div_mod_to_equations; lia.

Lemma isLeap_shift y e : isLeap (y + 400 * e) = isLeap y.
Proof.
  unfold isLeap.
  replace ((y + 400 * e) mod 4) with (y mod 4) by div_mod_lia.
  replace ((y + 400 * e) mod 100) with (y mod 100) by div_mod_lia.
  replace ((y + 400 * e) mod 400) with (y mod 400) by div_mod_lia.
  reflexivity.
Qed.

Lemma daysIn_shift m y e : daysIn m (y + 400 * e) = daysIn m y.
Proof. unfold daysIn. rewrite isLeap_shift. reflexivity. Qed.

Lemma days_from_civil_shift y m d e :
  days_from_civil (y + 400 * e) m d = days_from_civil y m d + 146097 * e.
Proof.
  unfold days_from_civil.
  destruct (m <=? 2); destruct (2 <? m); div_mod_lia.
Qed.

Lemma civil_from_days_shift z e :
  civil_from_days (z + 146097 * e) =
  (fst (fst (civil_from_days z)) + 400 * e, snd (fst (civil_from_days z)), snd (civil_from_days z)).
Proof.
  unfold civil_from_days.
  replace ((z + 146097 * e + 719468) / 146097) with ((z + 719468) / 146097 + e) by div_mod_lia.
  set (era := (z + 719468) / 146097).
  replace (z + 146097 * e + 719468 - (era + e) * 146097) with (z + 719468 - era * 146097) by lia.
  set (doe := z + 719468 - era * 146097).
  set (yoe := (doe - doe / 1460 + doe / 36524 - doe / 146096) / 365).
  set (doy := doe - (365 * yoe + yoe / 4 - yoe / 100)).
  set (mp := (5 * doy + 2) / 153).
  cbn [fst snd].
  destruct (_ <=? 2); f_equal; f_equal; lia.
Qed.

Lemma civil_ok_all z : civil_ok z = true.
Proof.
  set (e := (z + 719468) / 146097).
  set (z0 := z - 146097 * e).
  assert (Hz0 : -719468 <= z0 < -719468 + 146097) by (subst z0 e; div_mod_lia).
  pose proof (civil_ok_first_era z0 Hz0) as H0.
  replace z with (z0 + 146097 * e) by (subst z0; lia).
  unfold civil_ok in *. rewrite civil_from_days_shift.
  destruct (civil_from_days z0) as [[y m] d]. cbn [fst snd].
  rewrite daysIn_shift, days_from_civil_shift.
  apply andb_prop in H0 as [H0 H3]. apply andb_prop in H0 as [H1 H2].
  rewrite H1, H2. apply Z.eqb_eq in H3. apply Z.eqb_eq. lia.
Qed.

Lemma civil_from_days_valid z :
  in_range 1 (snd (fst (civil_from_days z))) 13 = true /\
  in_range 1 (snd (civil_from_days z))
    (daysIn (snd (fst (civil_from_days z))) (fst (fst (civil_from_days z))) + 1) = true /\
  days_from_civil (fst (fst (civil_from_days z))) (snd (fst (civil_from_days z)))
    (snd (civil_from_days z)) = z.
Proof.
  pose proof (civil_ok_all z) as H. unfold civil_ok in H.
  destruct (civil_from_days z) as [[y m] d]. cbn [fst snd].
  apply andb_prop in H as [H H3]. apply andb_prop in H as [H1 H2].
  apply Z.eqb_eq in H3. auto.
Qed.

(** *** Digits *)

Lemma digit_cases n : 0 <= n <= 9 -> In n [0; 1; 2; 3; 4; 5; 6; 7; 8; 9].
Proof. intros H. cbn [In]. lia. Qed.

Ltac each_digit H :=
  apply digit_cases in H; cbn [In] in H;
  repeat (destruct H as [H|H]; [subst; reflexivity|]); contradiction H.

Lemma isDigit_digit n : 0 <= n <= 9 -> isDigit (digit n) = true.
Proof. intros H. each_digit H. Qed.

Lemma digit_val_digit n : 0 <= n <= 9 -> digit_val (digit n) = n.
Proof. intros H. each_digit H. Qed.

Lemma isDigit_range c : isDigit c = true -> 0 <= digit_val c <= 9.
Proof. unfold isDigit, digit_val. intros H. apply andb_prop in H as [H1 H2]. lia. Qed.

Lemma appendInt_2 x : 0 <= x < 100 -> appendInt x 2 = two_digits x "".
Proof.
  assert (H : forall_range 100 0 (fun x => (appendInt x 2 =? two_digits x "")%string) = true)
    by (vm_compute; reflexivity).
  intros Hx. apply String.eqb_eq. apply (forall_range_spec _ _ _ H). lia.
Qed.

Lemma appendInt_4 x : 0 <= x < 10000 -> appendInt x 4 = four_digits x "".
Proof.
  assert (H : forall_range (Z.to_nat 10000) 0
                (fun x => (appendInt x 4 =? four_digits x "")%string) = true)
    by (vm_compute; reflexivity).
  intros Hx. apply String.eqb_eq. apply (forall_range_spec _ _ _ H). lia.
Qed.

(** *** Format *)

Lemma nextStdChunks_langsmithTimeFormat :
  nextStdChunks langsmithTimeFormat =
  [ Std stdLongYear; Literal "-"; Std stdZeroMonth; Literal "-"; Std stdZeroDay; Literal "T";
    Std stdHour; Literal ":"; Std stdZeroMinute; Literal ":"; Std stdZeroSecond ].
Proof. reflexivity. Qed.

Lemma clock_ranges t :
  0 <= Hour t < 24 /\ 0 <= Minute t < 60 /\ 0 <= Second t < 60.
Proof. unfold Hour, Minute, Second. repeat split; div_mod_lia. Qed.

Lemma date_ranges t :
  1 <= Month t <= 12 /\ 1 <= Day t <= 31 /\
  in_range 1 (Day t) (daysIn (Month t) (Year t) + 1) = true.
Proof.
  unfold Month, Day, Year.
  destruct (civil_from_days_valid (abs t / 86400)) as (Hm & Hd & _).
  set (c := civil_from_days (abs t / 86400)) in *.
  unfold in_range in *.
  apply andb_prop in Hm as [Hm1 Hm2]. apply andb_prop in Hd as [Hd1 Hd2].
  assert (Hm' : 1 <= snd (fst c) <= 12) by lia.
  assert (Hle : daysIn (snd (fst c)) (fst (fst c)) <= 31).
  { unfold daysIn. destruct (_ && _); [lia|].
    assert (Hc : snd (fst c) = 1 \/ snd (fst c) = 2 \/ snd (fst c) = 3 \/ snd (fst c) = 4 \/
                 snd (fst c) = 5 \/ snd (fst c) = 6 \/ snd (fst c) = 7 \/ snd (fst c) = 8 \/
                 snd (fst c) = 9 \/ snd (fst c) = 10 \/ snd (fst c) = 11 \/ snd (fst c) = 12) by lia.
    repeat (destruct Hc as [Hc|Hc]); rewrite Hc; simpl; lia. }
  split; [lia|]. split; [lia|].
  rewrite Hd1, Hd2. reflexivity.
Qed.

Lemma Format_langsmithTimeFormat t :
  0 <= Year t <= 9999 -> Format t langsmithTimeFormat = wire_text t.
Proof.
  intros Hy. unfold Format. rewrite nextStdChunks_langsmithTimeFormat.
  destruct (clock_ranges t) as (Hh & Hmi & Hs).
  destruct (date_ranges t) as (Hm & Hd & _).
  cbn [formatChunks formatStd].
  rewrite appendInt_4 by lia. rewrite !appendInt_2 by lia.
  reflexivity.
Qed.

(** *** Parse *)

Lemma getnum_two_digits x rest fixed :
  0 <= x < 100 -> getnum (two_digits x rest) fixed = Some (x, rest).
Proof.
  intros Hx. unfold two_digits, getnum.
  rewrite !isDigit_digit, !digit_val_digit by div_mod_lia.
  f_equal. f_equal. div_mod_lia.
Qed.

Lemma parseStd_year p x rest :
  0 <= x < 10000 ->
  parseStd stdLongYear p (four_digits x rest) =
  Ok (mkParsed x (p_month p) (p_day p) (p_hour p) (p_min p) (p_sec p) (p_nsec p), rest).
Proof.
  intros Hx. unfold four_digits, two_digits.
  assert (H1 : 0 <= x / 1000 <= 9) by div_mod_lia.
  assert (H2 : 0 <= x / 100 mod 10 <= 9) by div_mod_lia.
  assert (H3 : 0 <= x mod 100 / 10 <= 9) by div_mod_lia.
  assert (H4 : 0 <= x mod 100 mod 10 <= 9) by div_mod_lia.
  cbn [parseStd take drop atoi_digits].
  rewrite !isDigit_digit, !digit_val_digit by assumption.
  replace (4 <=? len _) with true by (symmetry; apply Z.leb_le; unfold len; cbn [String.length]; lia).
  cbn [andb]. do 2 f_equal. f_equal. div_mod_lia.
Qed.

Lemma parseStd_month p x rest :
  1 <= x <= 12 ->
  parseStd stdZeroMonth p (two_digits x rest) =
  Ok (mkParsed (p_year p) x (p_day p) (p_hour p) (p_min p) (p_sec p) (p_nsec p), rest).
Proof.
  intros Hx. cbn [parseStd]. rewrite getnum_two_digits by lia.
  unfold in_range. replace (1 <=? x) with true by lia. replace (x <? 13) with true by lia.
  reflexivity.
Qed.

Lemma parseStd_day p x rest :
  0 <= x < 100 ->
  parseStd stdZeroDay p (two_digits x rest) =
  Ok (mkParsed (p_year p) (p_month p) x (p_hour p) (p_min p) (p_sec p) (p_nsec p), rest).
Proof. intros Hx. cbn [parseStd]. rewrite getnum_two_digits by lia. reflexivity. Qed.

Lemma parseStd_hour p x rest :
  0 <= x < 24 ->
  parseStd stdHour p (two_digits x rest) =
  Ok (mkParsed (p_year p) (p_month p) (p_day p) x (p_min p) (p_sec p) (p_nsec p), rest).
Proof.
  intros Hx. cbn [parseStd]. rewrite getnum_two_digits by lia.
  unfold in_range. replace (0 <=? x) with true by lia. replace (x <? 24) with true by lia.
  reflexivity.
Qed.

Lemma parseStd_minute p x rest :
  0 <= x < 60 ->
  parseStd stdZeroMinute p (two_digits x rest) =
  Ok (mkParsed (p_year p) (p_month p) (p_day p) (p_hour p) x (p_sec p) (p_nsec p), rest).
Proof.
  intros Hx. cbn [parseStd]. rewrite getnum_two_digits by lia.
  unfold in_range. replace (0 <=? x) with true by lia. replace (x <? 60) with true by lia.
  reflexivity.
Qed.

Lemma parseStd_second_end p x :
  0 <= x < 60 ->
  parseStd stdZeroSecond p (two_digits x "") =
  Ok (mkParsed (p_year p) (p_month p) (p_day p) (p_hour p) (p_min p) x (p_nsec p), "").
Proof.
  intros Hx. cbn [parseStd]. rewrite getnum_two_digits by lia.
  unfold in_range. replace (0 <=? x) with true by lia. replace (x <? 60) with true by lia.
  reflexivity.
Qed.

Lemma parseChunks_Std s cs p value :
  parseChunks (Std s :: cs) p value =
  (do r <- parseStd s p value; parseChunks cs (fst r) (snd r)).
Proof. reflexivity. Qed.

Lemma parseChunks_Literal c cs p value :
  parseChunks (Literal c :: cs) p (String c value) = parseChunks cs p value.
Proof. cbn [parseChunks]. rewrite Ascii.eqb_refl. reflexivity. Qed.

Lemma Date_of_fields t :
  time_Date (Year t) (Month t) (Day t) (Hour t) (Minute t) (Second t) 0 UTC = wall_clock_UTC t.
Proof.
  unfold time_Date, wall_clock_UTC, Year, Month, Day, Hour, Minute, Second, UTC.
  destruct (civil_from_days_valid (abs t / 86400)) as (_ & _ & ->).
  unfold abs. f_equal. div_mod_lia.
Qed.

Lemma Parse_wire_text t :
  0 <= Year t <= 9999 -> Parse langsmithTimeFormat (wire_text t) = Ok (wall_clock_UTC t).
Proof.
  intros Hy. unfold Parse. rewrite nextStdChunks_langsmithTimeFormat.
  destruct (clock_ranges t) as (Hh & Hmi & Hs).
  destruct (date_ranges t) as (Hm & Hd & Hdm).
  unfold wire_text.
  rewrite parseChunks_Std, parseStd_year by lia. cbn [obind fst snd].
  rewrite parseChunks_Literal, parseChunks_Std, parseStd_month by lia. cbn [obind fst snd].
  rewrite parseChunks_Literal, parseChunks_Std, parseStd_day by lia. cbn [obind fst snd].
  rewrite parseChunks_Literal, parseChunks_Std, parseStd_hour by lia. cbn [obind fst snd].
  rewrite parseChunks_Literal, parseChunks_Std, parseStd_minute by lia. cbn [obind fst snd].
  rewrite parseChunks_Literal, parseChunks_Std, parseStd_second_end by lia.
  cbn [obind fst snd parseChunks p_year p_month p_day p_hour p_min p_sec p_nsec parsed0].
  replace (Month t <? 0) with false by lia. replace (Day t <? 0) with false by lia.
  unfold in_range in Hdm. apply andb_prop in Hdm as [Hd1 Hd2].
  replace (Day t <? 1) with false by lia.
  replace (daysIn (Month t) (Year t) <? Day t) with false by lia.
  cbn [orb]. rewrite Date_of_fields. reflexivity.
Qed.

(** *** JSON strings without escapes *)

Lemma plain_digit n : 0 <= n <= 9 -> plain (digit n) = true.
Proof. intros H. each_digit H. Qed.

Lemma plain_not_space c : plain c = true -> (c =? quote)%char = false /\ (c =? backslash)%char = false.
Proof.
  unfold plain. intros H. apply andb_prop in H as [H H2]. apply andb_prop in H as [_ H1].
  split; apply negb_true_iff; assumption.
Qed.

Lemma append_String c (s t : string) : String c s +:+ t = String c (s +:+ t).
Proof. reflexivity. Qed.

Lemma append_Empty (t : string) : "" +:+ t = t.
Proof. reflexivity. Qed.

Lemma length_append (s t : string) :
  String.length (s +:+ t) = (String.length s + String.length t)%nat.
Proof. induction s as [|c s IH]; [reflexivity|]. rewrite append_String. cbn [String.length]. rewrite IH. reflexivity. Qed.


Lemma unquote_plain s : forall fuel rest,
  all_plain s = true -> (String.length s < fuel)%nat ->
  unquote fuel (s +:+ String quote rest) = Some (s, rest).
Proof.
  induction s as [|c s IH]; intros fuel rest Hp Hf.
  - destruct fuel as [|fuel]; [inversion Hf|]. reflexivity.
  - destruct fuel as [|fuel]; [inversion Hf|].
    cbn [all_plain] in Hp. apply andb_prop in Hp as [Hc Hs].
    destruct (plain_not_space c Hc) as [Hq Hb].
    rewrite append_String. cbn [unquote]. rewrite Hq, Hb.
    unfold plain, in_range in Hc.
    apply andb_prop in Hc as [Hc _]. apply andb_prop in Hc as [Hc _].
    apply andb_prop in Hc as [Hlo Hhi].
    replace (byte_val c <? 32) with false by lia. rewrite Hhi.
    rewrite IH by (cbn [String.length] in Hf; auto with arith). reflexivity.
Qed.

Lemma json_Unmarshal_string_quoted s :
  all_plain s = true -> json_Unmarshal_string (quoted s) = Ok s.
Proof.
  intros Hp. unfold json_Unmarshal_string, quoted.
  cbn [skipSpace]. change (isSpace quote) with false. cbv iota.
  change ((quote =? quote)%char) with true. cbv iota.
  rewrite unquote_plain; [reflexivity|assumption|].
  rewrite length_append. cbn [String.length]. lia.
Qed.

Lemma all_plain_wire_text t : 0 <= Year t <= 9999 -> all_plain (wire_text t) = true.
Proof.
  intros Hy.
  destruct (clock_ranges t) as (Hh & Hmi & Hs).
  destruct (date_ranges t) as (Hm & Hd & _).
  unfold wire_text, four_digits, two_digits. cbn [all_plain].
  rewrite !plain_digit by div_mod_lia. reflexivity.
Qed.


Lemma length_wire_text t : String.length (wire_text t) = 19%nat.
Proof. reflexivity. Qed.

Lemma take_19_wire_text t : take 19 (wire_text t) = wire_text t.
Proof. reflexivity. Qed.

(** Encoding, then decoding, a time whose year has four digits gives the time
    in UTC that shows the same date and clock. *)
Lemma LangsmithTime_roundtrip_wall_clock t :
  0 <= Year (as_Time t) <= 9999 ->
  LangsmithTime_MarshalJSON t = Ok (quoted (wire_text (as_Time t))) /\
  LangsmithTime_UnmarshalJSON (quoted (wire_text (as_Time t))) =
  Ok (mkLangsmithTime (wall_clock_UTC (as_Time t))).
Proof.
  intros Hy. split.
  - unfold LangsmithTime_MarshalJSON. rewrite Format_langsmithTimeFormat by assumption. reflexivity.
  - unfold LangsmithTime_UnmarshalJSON.
    rewrite json_Unmarshal_string_quoted by (apply all_plain_wire_text; assumption).
    cbn [obind]. unfold len. rewrite length_wire_text. cbn [Z.of_nat Z.ltb Z.compare Pos.compare Pos.compare_cont Pos.of_succ_nat Pos.succ].
    rewrite take_19_wire_text, Parse_wire_text by assumption. reflexivity.
Qed.

(** *** What Parse accepts *)

Lemma obind_Ok {A B} (x : outcome A) (k : A -> outcome B) b :
  obind x k = Ok b -> exists a, x = Ok a /\ k a = Ok b.
Proof. destruct x; cbn [obind]; intros H; try discriminate H. eauto. Qed.

Ltac split_ifs H :=
  repeat match type of H with
         | context [if ?b then _ else _] =>
             let E := fresh "E" in destruct b eqn:E; try discriminate H
         | context [match ?o with Some _ => _ | None => _ end] =>
             let E := fresh "E" in destruct o eqn:E; try discriminate H
         end.

Lemma getnum_fixed_inv a b rest r :
  getnum (String a (String b rest)) true = Some r ->
  isDigit a = true /\ isDigit b = true /\ snd r = rest.
Proof.
  cbn [getnum]. intros H. split_ifs H. injection H as <-. auto.
Qed.




(** The hour may have one digit. *)
Lemma parseStd_hour_inv p a b rest r :
  parseStd stdHour p (String a (String b rest)) = Ok r ->
  isDigit a = true /\
  ((isDigit b = true /\ snd r = rest) \/ (isDigit b = false /\ snd r = String b rest)).
Proof.
  cbn [parseStd getnum]. intros H. split_ifs H; injection H as <-; auto.
Qed.

Lemma parseStd_minute_inv p a b rest r :
  parseStd stdZeroMinute p (String a (String b rest)) = Ok r ->
  isDigit a = true /\ isDigit b = true /\ snd r = rest.
Proof.
  unfold parseStd. intros H.
  destruct (getnum _ true) as [[m rest']|] eqn:E; [|discriminate H].
  apply getnum_fixed_inv in E as (Ha & Hb & E). cbn [snd] in E. subst rest'.
  split_ifs H. injection H as <-. auto.
Qed.

(** With fewer than two bytes after the seconds there is no fraction. *)
Lemma parseStd_second_inv p a b rest r :
  (String.length rest < 2)%nat ->
  parseStd stdZeroSecond p (String a (String b rest)) = Ok r ->
  isDigit a = true /\ isDigit b = true /\ snd r = rest.
Proof.
  unfold parseStd. intros Hl H.
  destruct (getnum _ true) as [[m rest']|] eqn:E; [|discriminate H].
  apply getnum_fixed_inv in E as (Ha & Hb & E). cbn [snd] in E. subst rest'.
  destruct (in_range 0 m 60); [|discriminate H].
  destruct rest as [|c0 [|c1 rest]].
  - injection H as <-. auto.
  - injection H as <-. auto.
  - cbn [String.length] in Hl. lia.
Qed.

Lemma parseChunks_Literal_inv c cs p c' value p' :
  parseChunks (Literal c :: cs) p (String c' value) = Ok p' ->
  (c' =? c)%char = true /\ parseChunks cs p value = Ok p'.
Proof. cbn [parseChunks]. destruct (c' =? c)%char; [auto|discriminate]. Qed.

Lemma parseChunks_Std_inv s cs p value p' :
  parseChunks (Std s :: cs) p value = Ok p' ->
  exists r, parseStd s p value = Ok r /\ parseChunks cs (fst r) (snd r) = Ok p'.
Proof. rewrite parseChunks_Std. apply obind_Ok. Qed.


(** *** Decoding a LangsmithTime *)

Lemma length_take n : forall s, (n <= String.length s)%nat -> String.length (take n s) = n.
Proof.
  induction n as [|n IH]; intros s Hl; [reflexivity|].
  destruct s as [|c s]; cbn [String.length] in Hl; [lia|].
  cbn [take String.length]. rewrite IH by lia. reflexivity.
Qed.

(** The decoder parses the first 19 bytes of the string, and nothing else. *)
Lemma UnmarshalJSON_truncates b s :
  json_Unmarshal_string b = Ok s -> 19 <= len s ->
  LangsmithTime_UnmarshalJSON b =
  (do t2 <- Parse langsmithTimeFormat (take 19 s); Ok (mkLangsmithTime t2)).
Proof.
  intros Hs Hl. unfold LangsmithTime_UnmarshalJSON. rewrite Hs. cbn [obind].
  replace (len s <? 19) with false by lia. reflexivity.
Qed.



(** *** RFC 3339 text is longer than the wire format *)




Lemma Time_MarshalJSON_Ok t b :
  Time_MarshalJSON t = Ok b -> b = quoted (Format_RFC3339Nano t).
Proof.
  unfold Time_MarshalJSON. intros H.
  destruct (negb _); [discriminate H|]. destruct (24 <=? _); [discriminate H|].
  injection H as <-. reflexivity.
Qed.



(** *** The members of a struct *)

Lemma json_Marshal_GoStruct fs :
  json_Marshal (GoStruct fs) = (do ms <- struct_members fs; Ok (JObject ms)).
Proof. reflexivity. Qed.

Lemma struct_members_cons name omitempty x fs :
  struct_members ((name, omitempty, x) :: fs) =
  if omitempty && isEmptyValue x then struct_members fs
  else do j <- json_Marshal x; do ms <- struct_members fs; Ok ((name, j) :: ms).
Proof. reflexivity. Qed.

Lemma json_Marshal_struct_Ok fs j :
  json_Marshal (GoStruct fs) = Ok j -> exists ms, struct_members fs = Ok ms /\ j = JObject ms.
Proof.
  rewrite json_Marshal_GoStruct. destruct (struct_members fs) as [ms| |]; cbn [obind]; intros H;
    [|discriminate H..].
  exists ms. split; [reflexivity|]. injection H as <-. reflexivity.
Qed.

(** A member that is written comes from a field that is not left out. *)
Lemma struct_members_from_field fs : forall ms name j,
  struct_members fs = Ok ms -> In (name, j) ms ->
  exists omitempty x,
    In (name, omitempty, x) fs /\ omitempty && isEmptyValue x = false /\ json_Marshal x = Ok j.
Proof.
  induction fs as [|[[n o] x] fs IH]; intros ms name j Hms Hin.
  - injection Hms as <-. destruct Hin.
  - rewrite struct_members_cons in Hms.
    destruct (o && isEmptyValue x) eqn:E.
    + destruct (IH ms name j Hms Hin) as (o' & x' & Hf & He & Hj).
      exists o', x'. split; [right; assumption|]. split; assumption.
    + destruct (json_Marshal x) as [jx| |] eqn:Ex; cbn [obind] in Hms; [|discriminate Hms..].
      destruct (struct_members fs) as [ms'| |]; cbn [obind] in Hms; [|discriminate Hms..].
      injection Hms as <-. destruct Hin as [Hin|Hin].
      * injection Hin as -> ->. exists o, x. split; [left; reflexivity|]. split; assumption.
      * destruct (IH ms' name j eq_refl Hin) as (o' & x' & Hf & He & Hj).
        exists o', x'. split; [right; assumption|]. split; assumption.
Qed.

(** A field that is not left out is written, when the struct is. *)
Lemma struct_members_of_field fs : forall ms name omitempty x,
  struct_members fs = Ok ms -> In (name, omitempty, x) fs ->
  omitempty && isEmptyValue x = false ->
  exists j, json_Marshal x = Ok j /\ In (name, j) ms.
Proof.
  induction fs as [|[[n o] y] fs IH]; intros ms name omitempty x Hms Hin He.
  - destruct Hin.
  - rewrite struct_members_cons in Hms.
    destruct Hin as [Hin|Hin].
    + injection Hin as -> -> ->. rewrite He in Hms.
      destruct (json_Marshal x) as [jx| |]; cbn [obind] in Hms; [|discriminate Hms..].
      destruct (struct_members fs) as [ms'| |]; cbn [obind] in Hms; [|discriminate Hms..].
      injection Hms as <-. exists jx. split; [reflexivity|left; reflexivity].
    + destruct (o && isEmptyValue y).
      * apply (IH ms name omitempty x Hms Hin He).
      * destruct (json_Marshal y) as [jy| |]; cbn [obind] in Hms; [|discriminate Hms..].
        destruct (struct_members fs) as [ms'| |] eqn:E; cbn [obind] in Hms; [|discriminate Hms..].
        injection Hms as <-.
        destruct (IH ms' name omitempty x eq_refl Hin He) as (j & Hj & Hm).
        exists j. split; [assumption|right; assumption].
Qed.

Lemma json_Marshal_LangsmithTime t : json_Marshal (GoLangsmithTime t) = Ok (LangsmithTime_json t).
Proof. reflexivity. Qed.

(** A LangsmithTime field is written whatever its value and its tag. *)
Lemma LangsmithTime_field_written fs name omitempty t j :
  json_Marshal (GoStruct fs) = Ok j -> In (name, omitempty, GoLangsmithTime t) fs ->
  exists ms, j = JObject ms /\ In (name, LangsmithTime_json t) ms.
Proof.
  intros Hj Hin. apply json_Marshal_struct_Ok in Hj as (ms & Hms & ->).
  exists ms. split; [reflexivity|].
  destruct (struct_members_of_field fs ms name omitempty (GoLangsmithTime t) Hms Hin)
    as (j & Hj & Hm).
  - cbn [isEmptyValue]. apply andb_false_r.
  - rewrite json_Marshal_LangsmithTime in Hj. injection Hj as <-. assumption.
Qed.

(** *** The members with one name *)

Lemma struct_members_named name fs : forall ms,
  struct_members fs = Ok ms ->
  struct_members (fields_named name fs) = Ok (members_named name ms).
Proof.
  induction fs as [|[[n o] x] fs IH]; intros ms Hms.
  - injection Hms as <-. reflexivity.
  - rewrite struct_members_cons in Hms. unfold fields_named. cbn [List.filter fst].
    fold (fields_named name fs).
    destruct (o && isEmptyValue x) eqn:E.
    + destruct (n =? name)%string; [rewrite struct_members_cons, E|]; apply IH; assumption.
    + destruct (json_Marshal x) as [jx| |] eqn:Ex; cbn [obind] in Hms; [|discriminate Hms..].
      destruct (struct_members fs) as [ms'| |]; cbn [obind] in Hms; [|discriminate Hms..].
      injection Hms as <-. unfold members_named. cbn [List.filter fst].
      fold (members_named name ms').
      destruct (n =? name)%string.
      * rewrite struct_members_cons, E, Ex. cbn [obind]. rewrite (IH ms' eq_refl). reflexivity.
      * apply IH. reflexivity.
Qed.

(** The one field with a name gives the one member with that name. *)
Lemma member_of_field fs name omitempty v j :
  json_Marshal (GoStruct fs) = Ok j ->
  fields_named name fs = [(name, omitempty, v)] ->
  omitempty && isEmptyValue v = false ->
  exists ms jv, j = JObject ms /\ json_Marshal v = Ok jv /\ members_named name ms = [(name, jv)].
Proof.
  intros Hj Hf He. apply json_Marshal_struct_Ok in Hj as (ms & Hms & ->).
  apply (struct_members_named name) in Hms. rewrite Hf, struct_members_cons, He in Hms.
  destruct (json_Marshal v) as [jv| |]; cbn [obind struct_members] in Hms; [|discriminate Hms..].
  injection Hms as Hms. exists ms, jv. auto.
Qed.

(** A field left out gives no member. *)
Lemma no_member_of_field fs name omitempty v j :
  json_Marshal (GoStruct fs) = Ok j ->
  fields_named name fs = [(name, omitempty, v)] ->
  omitempty && isEmptyValue v = true ->
  exists ms, j = JObject ms /\ members_named name ms = [].
Proof.
  intros Hj Hf He. apply json_Marshal_struct_Ok in Hj as (ms & Hms & ->).
  apply (struct_members_named name) in Hms. rewrite Hf, struct_members_cons, He in Hms.
  injection Hms as Hms. exists ms. auto.
Qed.

Lemma In_members_named name v ms : In (name, v) ms <-> In (name, v) (members_named name ms).
Proof.
  unfold members_named. rewrite List.filter_In. cbn [fst]. rewrite String.eqb_refl. tauto.
Qed.








(** * The claims *)




(** C3, as the spec states it, fails for a time that is not in UTC: the wire
    format has no zone, the decoder reads the text as UTC, and the decoded
    instant is off by the zone's offset. *)
Lemma C3_counterexample :
  LangsmithTime_MarshalJSON (mkLangsmithTime t_cet) = Ok (quoted "2023-11-14T23:13:20") /\
  LangsmithTime_UnmarshalJSON (quoted "2023-11-14T23:13:20") =
    Ok (mkLangsmithTime {| unix := 1700003600; nsec := 0; offset := UTC |}) /\
  Equal {| unix := 1700003600; nsec := 0; offset := UTC |} (Truncate_Second t_cet) = false /\
  ~ (exists b, LangsmithTime_MarshalJSON (mkLangsmithTime t_cet) = Ok b /\
               LangsmithTime_UnmarshalJSON b = Ok (mkLangsmithTime (Truncate_Second t_cet))).
Proof.
  split; [reflexivity|]. split; [reflexivity|]. split; [reflexivity|].
  intros (b & Hb & Hd).
  change (LangsmithTime_MarshalJSON (mkLangsmithTime t_cet))
    with (@Ok string (quoted "2023-11-14T23:13:20")) in Hb.
  injection Hb as <-.
  change (LangsmithTime_UnmarshalJSON (quoted "2023-11-14T23:13:20"))
    with (Ok (mkLangsmithTime {| unix := 1700003600; nsec := 0; offset := UTC |})) in Hd.
  discriminate Hd.
Qed.

(** C3, amended: for every time value in UTC whose year is between 0 and
    9999, JSON-encoding it as a LangsmithTime and then JSON-decoding the bytes
    produced succeeds and returns the original value truncated to second
    precision. *)
Theorem C3_roundtrip_truncates (t : LangsmithTime) :
  offset (as_Time t) = UTC ->
  0 <= Year (as_Time t) <= 9999 ->
  exists b, LangsmithTime_MarshalJSON t = Ok b /\
            LangsmithTime_UnmarshalJSON b = Ok (mkLangsmithTime (Truncate_Second (as_Time t))).
Proof.
  intros Hutc Hy.
  destruct (LangsmithTime_roundtrip_wall_clock t Hy) as [Henc Hdec].
  eexists. split; [exact Henc|]. rewrite Hdec.
  unfold wall_clock_UTC, Truncate_Second. rewrite Hutc. unfold UTC.
  rewrite Z.add_0_r. reflexivity.
Qed.

Lemma C3_roundtrip_truncates_witness :
  offset t_utc = UTC /\ 0 <= Year t_utc <= 9999 /\
  exists b, LangsmithTime_MarshalJSON (mkLangsmithTime t_utc) = Ok b /\
            LangsmithTime_UnmarshalJSON b = Ok (mkLangsmithTime (Truncate_Second t_utc)).
Proof.
  assert (Hy : 0 <= Year t_utc <= 9999) by (vm_compute; split; discriminate).
  split; [reflexivity|]. split; [exact Hy|].
  exact (C3_roundtrip_truncates (mkLangsmithTime t_utc) eq_refl Hy).
Defined.

(** C4: the decoder does cut the string to its first 19 bytes, and a string
    of at least 19 bytes gives a value or an error; but on the JSON string
    ["2024-01-02"], shorter than 19 bytes, the slice expression panics
    instead of returning an error. *)
Theorem C4_short_string_panics :
  json_Unmarshal_string (quoted "2024-01-02") = Ok "2024-01-02" /\
  LangsmithTime_UnmarshalJSON (quoted "2024-01-02") = Panic (slice_bounds_out_of_range 19 10).
Proof. split; reflexivity. Qed.

(** *** Operations *)

Lemma events_lift_bind {A B} (o : outcome A) (k : A -> IO B) :
  io_bind (lift o) k =
  match o with
  | Ok a => k a
  | Err e => ([], Err e)
  | Panic p => ([], Panic p)
  end.
Proof. destruct o; unfold io_bind, lift; cbn [fst snd app]; [destruct (k a)|..]; reflexivity. Qed.

(** C2: with LANGSMITH_URL set, the client is built on the override, and
    yet GetExamples and QueryRuns send their request to the default public
    endpoint: they build the URL from the constant BASE_URL. *)
Theorem C2_override_ignored :
  NewDatasetClient env_override = Ok client_override /\
  map URL (requests (events (GetExamples (mock_Host 200 "[]") client_override "ds-1" 0))) =
    [ "https://api.smith.langchain.com/api/v1/examples?dataset=ds-1&offset=0" ] /\
  map URL (requests (events (QueryRuns (mock_Host 200 "{}") client_override None true
                               (Some query_empty)))) =
    [ "https://api.smith.langchain.com/api/v1/runs/query" ] /\
  map URL (requests (events (ReadDataset (mock_Host 200 "{}") client_override "ds-1"))) =
    [ "http://localhost:1984/api/v1/datasets/ds-1" ].
Proof. repeat split; vm_compute; reflexivity. Qed.

(** C5: omitempty does not omit a struct, and a LangsmithTime is one: a
    Feedback or a TracerSessionRequest whose timestamps are left at their
    zero value is encoded with them, as year 1. *)
Theorem C5_zero_timestamps_encoded :
  json_Marshal (reflect_Feedback feedback_key_only) =
    Ok (JObject [ ("created_at", JRaw (quoted "0001-01-01T00:00:00"));
                  ("modified_at", JRaw (quoted "0001-01-01T00:00:00"));
                  ("key", JString "k") ]) /\
  json_Marshal (reflect_TracerSessionRequest session_name_only) =
    Ok (JObject [ ("start_time", JRaw (quoted "0001-01-01T00:00:00"));
                  ("end_time", JRaw (quoted "0001-01-01T00:00:00"));
                  ("name", JString "n") ]).
Proof. split; reflexivity. Qed.

(** C6: DownloadDatasetCsv prints the request it is about to send, and
    CreateExample the body it is about to send, on standard output. *)
Theorem C6_operations_print (h : Host) (d : DatasetClient) (id : string) (example : Example) :
  output (events (DownloadDatasetCsv h d id)) =
    (if NewRequest_accepts h "GET" (baseUrl (DatasetClient_baseClient d) +:+ "/" +:+ id +:+ "/csv")
     then [ Println_Request
              {| Method := "GET";
                 URL := baseUrl (DatasetClient_baseClient d) +:+ "/" +:+ id +:+ "/csv";
                 Header := {[ "X-Api-Key" := [APIKey (DatasetClient_baseClient d)] ]};
                 Body := None |} ]
     else []) /\
  output (events (CreateExample h d example)) =
    match json_Marshal (reflect_Example example) with
    | Ok jsonData => [ Println_string jsonData ]
    | _ => []
    end /\
  output (events (CreateExample (mock_Host 201 "") client_override example_ids_only)) =
    [ Println_string (JObject [ ("id", JString "ex-1"); ("dataset_id", JString "ds-1");
                                ("inputs", JNull) ]) ].
Proof.
  split; [|split].
  - unfold DownloadDatasetCsv, http_NewRequest.
    destruct (NewRequest_accepts h _ _); [|reflexivity].
    rewrite events_lift_bind. unfold io_bind, fmt_Println, client_Do, lift, events.
    cbn [fst snd app output].
    destruct (RoundTrip h _) as [resp| |]; [|reflexivity..].
    destruct (handleResponse h resp); reflexivity.
  - unfold CreateExample. rewrite events_lift_bind.
    destruct (json_Marshal _) as [j| |]; [|reflexivity..].
    unfold Do, http_NewRequest.
    destruct (NewRequest_accepts h _ _).
    + unfold io_bind, fmt_Println, client_Do, lift, events. cbn [fst snd app output].
      destruct (RoundTrip h _) as [resp| |]; [|reflexivity..].
      destruct (handleResponse h resp); reflexivity.
    + reflexivity.
  - reflexivity.
Qed.

(** C7, as the spec states it, fails in its last part: the base URL the
    client keeps is not the override itself. *)
Lemma C7_counterexample :
  os_Getenv env_override "LANGSMITH_URL" = "http://localhost:1984/api/v1" /\
  NewDatasetClient env_override =
    Ok {| DatasetClient_baseClient :=
            {| APIKey := "key"; baseUrl := "http://localhost:1984/api/v1/datasets" |} |} /\
  ~ (exists d, NewDatasetClient env_override = Ok d /\
               baseUrl (DatasetClient_baseClient d) = os_Getenv env_override "LANGSMITH_URL").
Proof.
  split; [reflexivity|]. split; [reflexivity|].
  intros (d & Hd & Hu).
  change (NewDatasetClient env_override) with (Ok client_override) in Hd.
  injection Hd as <-. vm_compute in Hu. discriminate Hu.
Qed.

(** C7, amended: constructing the client when LANGSMITH_API_KEY is unset or
    empty returns an error and no client; when it is set to a non-empty key,
    construction succeeds, the client holds that key, and its base URL is the
    LANGSMITH_URL override (when that is set and not empty, otherwise the
    default endpoint) followed by [/datasets]. *)
Theorem C7_NewDatasetClient (env : gmap string string) :
  (env !! "LANGSMITH_API_KEY" = None \/ env !! "LANGSMITH_API_KEY" = Some "" ->
     NewDatasetClient env = Err (errors_New "langsmith api key is required")) /\
  (forall key, env !! "LANGSMITH_API_KEY" = Some key -> key <> "" ->
     (forall url, env !! "LANGSMITH_URL" = Some url -> url <> "" ->
        NewDatasetClient env =
        Ok {| DatasetClient_baseClient := {| APIKey := key; baseUrl := url +:+ "/datasets" |} |}) /\
     (env !! "LANGSMITH_URL" = None \/ env !! "LANGSMITH_URL" = Some "" ->
        NewDatasetClient env =
        Ok {| DatasetClient_baseClient :=
                {| APIKey := key; baseUrl := BASE_URL +:+ "/datasets" |} |})).
Proof.
  unfold NewDatasetClient, os_Getenv. split.
  - intros [-> | ->]; reflexivity.
  - intros key -> Hkey. cbn [default from_option id].
    apply String.eqb_neq in Hkey. rewrite Hkey. split.
    + intros url -> Hurl. cbn [default from_option id]. apply String.eqb_neq in Hurl. rewrite Hurl. reflexivity.
    + intros [-> | ->]; reflexivity.
Qed.

Lemma C7_NewDatasetClient_witness :
  NewDatasetClient ∅ = Err (errors_New "langsmith api key is required") /\
  NewDatasetClient env_override =
    Ok {| DatasetClient_baseClient :=
            {| APIKey := "key"; baseUrl := "http://localhost:1984/api/v1/datasets" |} |} /\
  NewDatasetClient env_key =
    Ok {| DatasetClient_baseClient :=
            {| APIKey := "key"; baseUrl := "https://api.smith.langchain.com/api/v1/datasets" |} |}.
Proof.
  split; [|split].
  - apply (proj1 (C7_NewDatasetClient ∅)). left. reflexivity.
  - apply (proj1 (proj2 (C7_NewDatasetClient env_override) "key" eq_refl ltac:(discriminate))
             "http://localhost:1984/api/v1" eq_refl ltac:(discriminate)).
  - apply (proj2 (proj2 (C7_NewDatasetClient env_key) "key" eq_refl ltac:(discriminate))).
    left. reflexivity.
Defined.

Lemma obind_Err {A B} (x : outcome A) (k : A -> outcome B) e :
  obind x k = Err e -> x = Err e \/ exists a, x = Ok a /\ k a = Err e.
Proof.
  destruct x as [a|e'|p]; cbn [obind]; intros H.
  - right. exists a. split; [reflexivity|assumption].
  - left. injection H as ->. reflexivity.
  - discriminate H.
Qed.

Lemma obind_wrap_Err {A B} (x : outcome A) (f : A -> B) e :
  obind x (fun a => Ok (f a)) = Err e -> x = Err e.
Proof. intros H. apply obind_Err in H as [H|(a & _ & H)]; [assumption|discriminate H]. Qed.

(** C8: for every operation that serializes a request body, if the
    serialization fails, that error is what the operation returns, and
    nothing was sent or printed. *)
Theorem C8_serialization_error_sends_nothing (h : Host) (d : DatasetClient) (c : Call) (e : error) :
  serialization h c = Some (Err e) ->
  perform h d c = ([], Err e).
Proof.
  destruct c; unfold serialization, perform; cbv beta iota zeta; intros H;
    try discriminate H;
    apply (f_equal (fun o => match o with Some x => x | None => Ok (JSONData JNull) end)) in H;
    cbv beta iota in H.
  - apply obind_wrap_Err in H. unfold CreateDataset. rewrite H. reflexivity.
  - apply obind_wrap_Err in H. unfold UploadCSV. rewrite H. reflexivity.
  - apply obind_wrap_Err in H. unfold UploadExperiment. rewrite H. reflexivity.
  - apply obind_wrap_Err in H. unfold CreateExample. rewrite H. reflexivity.
  - apply obind_wrap_Err in H. unfold CreateExamples. rewrite H. reflexivity.
  - apply obind_wrap_Err in H. unfold CreateComparativeExperiment. rewrite H. reflexivity.
  - unfold QueryRuns. apply obind_Err in H as [H|(body & Hb & H)].
    + rewrite H. reflexivity.
    + apply obind_wrap_Err in H. rewrite Hb, events_lift_bind, H. reflexivity.
  - apply obind_wrap_Err in H. unfold CreateFeedback. rewrite H. reflexivity.
  - apply obind_wrap_Err in H. unfold CreateTracerSession. rewrite H. reflexivity.
  - apply obind_wrap_Err in H. unfold UpdateTracerSession. rewrite H. reflexivity.
Qed.

Lemma C8_serialization_error_sends_nothing_witness :
  serialization (mock_Host 201 "") (call_CreateFeedback (Some feedback_unsupported)) =
    Some (Err json_UnsupportedTypeError) /\
  perform (mock_Host 201 "") client_override (call_CreateFeedback (Some feedback_unsupported)) =
    ([], Err json_UnsupportedTypeError).
Proof.
  split; [reflexivity|].
  apply (C8_serialization_error_sends_nothing (mock_Host 201 "") client_override
           (call_CreateFeedback (Some feedback_unsupported)) json_UnsupportedTypeError).
  reflexivity.
Defined.

(** *** The multipart body *)

Lemma WriteFields_parts name keys : forall mw,
  WriteFields mw name keys =
  Ok {| Writer_boundary := Writer_boundary mw;
        Writer_parts := Writer_parts mw ++ map (form_field name) keys |}.
Proof.
  induction keys as [|key keys IH]; intros mw; cbn [WriteFields map].
  - rewrite app_nil_r. destruct mw; reflexivity.
  - unfold WriteField. cbn [obind]. rewrite IH. cbn [Writer_boundary Writer_parts].
    rewrite <- app_assoc. reflexivity.
Qed.

Lemma ToMultiPart_parts boundary d :
  DatasetCSV_ToMultiPart boundary (Some d) =
  Ok ({| Form_boundary := boundary; Form_parts := DatasetCSV_parts d |},
      "multipart/form-data; boundary=" +:+ boundary).
Proof.
  unfold DatasetCSV_ToMultiPart, DatasetCSV_parts, multipart_NewWriter.
  destruct (negb (DatasetCSV_File d =? "")%string);
    destruct (negb (DatasetCSV_Name d =? "")%string);
    destruct (negb (DatasetCSV_Description d =? "")%string);
    unfold CreateFormFile, Part_Write, WriteField, Writer_Close, FormDataContentType;
    cbn [obind Writer_boundary Writer_parts app write_last];
    rewrite !WriteFields_parts;
    cbn [obind Writer_boundary Writer_parts app];
    rewrite ?WriteFields_parts;
    cbn [obind Writer_boundary Writer_parts app];
    rewrite <- ?app_assoc; cbn [app]; rewrite ?app_nil_r; reflexivity.
Qed.

Lemma filter_form_field_same name keys :
  List.filter (fun p => (Part_name p =? name)%string) (map (form_field name) keys) =
  map (form_field name) keys.
Proof.
  induction keys as [|k keys IH]; [reflexivity|].
  cbn [map List.filter form_field Part_name]. rewrite String.eqb_refl, IH. reflexivity.
Qed.

Lemma filter_form_field_other name name' keys :
  (name' =? name)%string = false ->
  List.filter (fun p => (Part_name p =? name)%string) (map (form_field name') keys) = [].
Proof.
  intros Hne. induction keys as [|k keys IH]; [reflexivity|].
  cbn [map List.filter form_field Part_name]. rewrite Hne, IH. reflexivity.
Qed.

Lemma map_data_form_field name keys : map Part_data (map (form_field name) keys) = keys.
Proof. induction keys as [|k keys IH]; [reflexivity|]. cbn [map form_field Part_data]. rewrite IH. reflexivity. Qed.

Lemma input_keys_of_parts d :
  map Part_data (List.filter (fun p => (Part_name p =? "input_keys")%string) (DatasetCSV_parts d)) =
  elements (DatasetCSV_InputKeys d).
Proof.
  unfold DatasetCSV_parts. rewrite !List.filter_app.
  rewrite filter_form_field_same.
  rewrite (filter_form_field_other "input_keys" "output_keys") by reflexivity.
  destruct (negb (DatasetCSV_File d =? "")%string);
    destruct (negb (DatasetCSV_Name d =? "")%string);
    destruct (negb (DatasetCSV_Description d =? "")%string);
    cbn [List.filter form_field Part_name String.eqb Ascii.eqb Bool.eqb app];
    rewrite ?app_nil_r; apply map_data_form_field.
Qed.

(** C9: the multipart body ToMultiPart produces contains exactly one
    [input_keys] field per entry of InputKeys, in the order of the list, and
    that body is the one UploadCSV posts. *)
Theorem C9_input_keys_in_order (h : Host) (c : DatasetClient) (d : DatasetCSV) :
  exists body contentType,
    DatasetCSV_ToMultiPart (randomBoundary h) (Some d) = Ok (body, contentType) /\
    field_values "input_keys" body = elements (DatasetCSV_InputKeys d) /\
    map Body (requests (events (UploadCSV h c (Some d)))) =
      (if NewRequest_accepts h "POST" (baseUrl (DatasetClient_baseClient c) +:+ "/upload")
       then [ Some (FormData body) ] else []).
Proof.
  eexists. eexists. split; [apply ToMultiPart_parts|]. split.
  - unfold field_values. cbn [Form_parts]. apply input_keys_of_parts.
  - unfold UploadCSV. rewrite ToMultiPart_parts. rewrite !events_lift_bind. cbn [fst snd].
    unfold PostForm, http_NewRequest.
    destruct (NewRequest_accepts h _ _); [|reflexivity].
    rewrite events_lift_bind. unfold io_bind, client_Do, lift, events. cbn [fst snd].
    destruct (RoundTrip h _); reflexivity.
Qed.

(** C10: whatever the dataset id, the one request GetExamplesWithRuns sends
    has the same body, the list [session_ids] with the one hard-coded id. *)
Theorem C10_session_ids_hardcoded (h : Host) (d : DatasetClient) (datasetId : string) :
  map Body (requests (events (GetExamplesWithRuns h d datasetId))) =
    (if NewRequest_accepts h "POST"
          (baseUrl (DatasetClient_baseClient d) +:+ "/" +:+ datasetId +:+ "/runs")
     then [ Some (JSONData
                    (JObject [ ("session_ids",
                                JArray [JString "58a7c5a2-c14e-42dc-936a-3af8e84777fa"]) ])) ]
     else []).
Proof.
  unfold GetExamplesWithRuns.
  change (json_Marshal (GoMap _)) with (Ok session_ids_body).
  rewrite events_lift_bind. unfold http_NewRequest.
  destruct (NewRequest_accepts h _ _); [|reflexivity].
  rewrite events_lift_bind. unfold io_bind, client_Do, lift, events. cbn [fst snd].
  destruct (RoundTrip h _) as [resp| |]; [|reflexivity..].
  cbn [fst snd app].
  destruct (handleResponse h resp); [|reflexivity..].
  cbn [fst snd app]. unfold io_ReadAll. cbn [fst snd app].
  destruct (Unmarshal_Examples h _); reflexivity.
Qed.

(** *** Every operation: at most one request, to its own URL *)

Ltac io_cases :=
  unfold Do, PostForm, http_NewRequest, client_Do, fmt_Println, io_ReadAll,
    io_bind, io_map, lift, events;
  cbn [fst snd app requests output map];
  repeat (match goal with
          | |- context [if ?b then _ else _] => destruct b
          | |- context [match ?x with Ok _ => _ | Err _ => _ | Panic _ => _ end] => destruct x
          end;
          cbn [fst snd app requests output map Method URL Header_Set]).

Lemma perform_requests h d c :
  requests (events (perform h d c)) = [] \/
  map (fun r => (Method r, URL r)) (requests (events (perform h d c))) = [target d c].
Proof.
  destruct c; unfold perform, target;
    match goal with
    | |- context [io_map _ (?op _ _ _)] => unfold op
    | |- context [io_map _ (?op _ _ _ _)] => unfold op
    | |- context [io_map _ (?op _ _ _ _ _)] => unfold op
    | |- context [io_map _ (?op _ _ _ _ _ _)] => unfold op
    end.
  all: io_cases; auto.
Qed.

Lemma perform_single_request h d c : (length (requests (events (perform h d c))) <= 1)%nat.
Proof.
  destruct (perform_requests h d c) as [-> | H]; [cbn; lia|].
  apply (f_equal (@length _)) in H. rewrite length_map in H. cbn [length] in H. lia.
Qed.

(** The operations other than DownloadDatasetCsv and CreateExample print
    nothing. *)
Lemma perform_silent h d c : prints c = false -> output (events (perform h d c)) = [].
Proof.
  destruct c; cbn [prints]; intros Hp; try discriminate Hp; unfold perform;
    match goal with
    | |- context [io_map _ (?op _ _ _)] => unfold op
    | |- context [io_map _ (?op _ _ _ _)] => unfold op
    | |- context [io_map _ (?op _ _ _ _ _)] => unfold op
    | |- context [io_map _ (?op _ _ _ _ _ _)] => unfold op
    end.
  all: io_cases; reflexivity.
Qed.

(** ** The model on concrete inputs *)

Example Format_t_cet : Format t_cet langsmithTimeFormat = "2023-11-14T23:13:20".
Proof. reflexivity. Qed.

Example Format_zero_Time : Format zero_Time langsmithTimeFormat = "0001-01-01T00:00:00".
Proof. reflexivity. Qed.

Example Format_year_10000 : Format t_year10000 langsmithTimeFormat = "10000-01-01T00:00:00".
Proof. reflexivity. Qed.

Example Format_leap_day :
  Format {| unix := 951782400; nsec := 0; offset := UTC |} langsmithTimeFormat = "2000-02-29T00:00:00".
Proof. reflexivity. Qed.

Example Parse_leap_day :
  Parse langsmithTimeFormat "2024-02-29T22:13:20" = Ok {| unix := 1709244800; nsec := 0; offset := UTC |}.
Proof. reflexivity. Qed.

Example Parse_no_leap_day :
  Parse langsmithTimeFormat "2023-02-29T22:13:20" = Err (time_ParseError (OutOfRange "day")).
Proof. reflexivity. Qed.

Example Parse_zone_suffix :
  Parse langsmithTimeFormat "2023-11-14T22:13:20Z" = Err (time_ParseError (ExtraText "Z")).
Proof. reflexivity. Qed.

Example Parse_fraction :
  Parse langsmithTimeFormat "2023-11-14T22:13:20.5" =
  Ok {| unix := 1700000000; nsec := 500000000; offset := UTC |}.
Proof. reflexivity. Qed.

Example Parse_one_digit_hour :
  Parse langsmithTimeFormat "2023-11-14T2:13:20" = Ok {| unix := 1699928000; nsec := 0; offset := UTC |}.
Proof. reflexivity. Qed.

Example UnmarshalJSON_cuts_zone :
  LangsmithTime_UnmarshalJSON (quoted "2023-11-14T22:13:20.123456+01:00") =
  Ok (mkLangsmithTime t_utc).
Proof. reflexivity. Qed.

Example UnmarshalJSON_year_10000 :
  LangsmithTime_UnmarshalJSON (quoted "10000-01-01T00:00:00") = Err (time_ParseError BadValue).
Proof. reflexivity. Qed.

Example UnmarshalJSON_null :
  LangsmithTime_UnmarshalJSON "null" = Panic (slice_bounds_out_of_range 19 0).
Proof. reflexivity. Qed.

Example UnmarshalJSON_number : LangsmithTime_UnmarshalJSON "12" = Err json_NotAString.
Proof. reflexivity. Qed.

Example Time_MarshalJSON_t_cet :
  Time_MarshalJSON t_cet = Ok (quoted "2023-11-14T23:13:20.5+01:00").
Proof. reflexivity. Qed.

Example json_Marshal_sorts_keys :
  json_Marshal (GoMap [ ("b", GoInt 1); ("a", GoSlice [GoString "x"; GoNil]) ]) =
  Ok (JObject [ ("a", JArray [JString "x"; JNull]); ("b", JInt 1) ]).
Proof. reflexivity. Qed.

Example json_Marshal_omitempty :
  json_Marshal (GoStruct [ field "x" (GoInt 0); field_omitempty "y" (GoInt 0);
                           field_omitempty "z" (GoString ""); field_omitempty "p" GoNil;
                           field_omitempty "q" (GoRef (GoInt 0)) ]) =
  Ok (JObject [ ("x", JInt 0); ("q", JInt 0) ]).
Proof. reflexivity. Qed.

Example ToMultiPart_csv_two_keys :
  DatasetCSV_ToMultiPart "b" (Some csv_two_keys) =
  Ok ({| Form_boundary := "b";
         Form_parts :=
           [ {| Part_name := "file"; Part_filename := Some "dataset.csv"; Part_data := "q,a" |};
             form_field "input_keys" "q"; form_field "input_keys" "input_keys";
             form_field "input_keys" "q"; form_field "name" "n"; form_field "data_type" "kv";
             form_field "output_keys" "a" ] |},
      "multipart/form-data; boundary=b").
Proof. reflexivity. Qed.

Example CreateDataset_not_found :
  returned (CreateDataset (mock_Host 404 "") client_override (Some (dataset_at t_utc))) =
  Err (remote_Error "404").
Proof. reflexivity. Qed.

Example CreateDataset_year_10000 :
  CreateDataset (mock_Host 201 "") client_override (Some (dataset_at t_year10000)) =
  ([], Err (json_MarshalerError "Time.MarshalJSON: year outside of range [0,9999]")).
Proof. reflexivity. Qed.

Example QueryRuns_nil_params :
  QueryRuns (mock_Host 200 "") client_override None true None = ([], Panic nil_pointer_dereference).
Proof. reflexivity. Qed.

(** * Further properties *)

(** ** LangsmithTime *)

(** *** From a date to its day number and back *)

Lemma forall_range3_spec (P : Z -> Z -> Z -> bool) n1 z1 n2 z2 n3 z3 :
  forall_range n1 z1 (fun a => forall_range n2 z2 (fun b => forall_range n3 z3 (P a b))) = true ->
  forall a b c,
    z1 <= a < z1 + Z.of_nat n1 -> z2 <= b < z2 + Z.of_nat n2 -> z3 <= c < z3 + Z.of_nat n3 ->
    P a b c = true.
Proof.
  intros H a b c Ha Hb Hc.
  apply (forall_range_spec n3 z3 (P a b)); [|exact Hc].
  apply (forall_range_spec n2 z2 (fun b => forall_range n3 z3 (P a b))); [|exact Hb].
  apply (forall_range_spec n1 z1
           (fun a => forall_range n2 z2 (fun b => forall_range n3 z3 (P a b)))); assumption.
Qed.

Lemma dates_ok_first_era :
  forall_range 400 0 (fun y => forall_range 12 1 (fun m => forall_range 31 1 (date_ok y m))) = true.
Proof. vm_compute. reflexivity. Qed.

Lemma date_ok_first_era y m d :
  0 <= y < 400 -> 1 <= m <= 12 -> 1 <= d <= 31 -> date_ok y m d = true.
Proof.
  intros Hy Hm Hd.
  apply (forall_range3_spec date_ok 400 0 12 1 31 1 dates_ok_first_era); cbn [Z.of_nat]; lia.
Qed.

Lemma daysIn_le_31 m y : 1 <= m <= 12 -> 28 <= daysIn m y <= 31.
Proof.
  intros Hm. unfold daysIn. destruct (_ && _); [lia|].
  assert (Hc : In m [1; 2; 3; 4; 5; 6; 7; 8; 9; 10; 11; 12]) by (cbn [In]; lia).
  cbn [In] in Hc. repeat (destruct Hc as [Hc|Hc]; [subst m; simpl; lia|]). destruct Hc.
Qed.

(** The day number of a date of the calendar is the day number of that date
    alone: the conversion back returns it. *)
Lemma civil_from_days_from_civil y m d :
  1 <= m <= 12 -> 1 <= d <= daysIn m y ->
  civil_from_days (days_from_civil y m d) = (y, m, d).
Proof.
  intros Hm Hd.
  set (e := y / 400). set (y0 := y - 400 * e).
  assert (Hy0 : 0 <= y0 < 400) by (subst y0 e; div_mod_lia).
  replace y with (y0 + 400 * e) in * by (subst y0; lia).
  rewrite daysIn_shift in Hd.
  pose proof (daysIn_le_31 m y0 Hm) as H31.
  pose proof (date_ok_first_era y0 m d Hy0 Hm ltac:(lia)) as H.
  unfold date_ok in H. replace (d <=? daysIn m y0) with true in H by lia. cbn [implb] in H.
  rewrite days_from_civil_shift, civil_from_days_shift.
  destruct (civil_from_days (days_from_civil y0 m d)) as [[y' m'] d']. cbn [fst snd].
  apply andb_prop in H as [H H3]. apply andb_prop in H as [H1 H2].
  apply Z.eqb_eq in H1, H2, H3. subst. reflexivity.
Qed.

(** *** What Parse returns *)

Lemma digit_digit_val c : isDigit c = true -> digit (digit_val c) = c.
Proof.
  intros _. unfold digit, digit_val, byte_of, byte_val.
  replace (48 + (Z.of_N (N_of_ascii c) - 48)) with (Z.of_N (N_of_ascii c)) by lia.
  rewrite N2Z.id. apply ascii_N_embedding.
Qed.

Lemma two_digits_of_bytes a b rest :
  isDigit a = true -> isDigit b = true ->
  String a (String b rest) = two_digits (digit_val a * 10 + digit_val b) rest.
Proof.
  intros Ha Hb. pose proof (isDigit_range a Ha). pose proof (isDigit_range b Hb).
  unfold two_digits.
  replace ((digit_val a * 10 + digit_val b) / 10) with (digit_val a) by div_mod_lia.
  replace ((digit_val a * 10 + digit_val b) mod 10) with (digit_val b) by div_mod_lia.
  rewrite !digit_digit_val by assumption. reflexivity.
Qed.

Lemma four_digits_of_bytes a b c d rest :
  isDigit a = true -> isDigit b = true -> isDigit c = true -> isDigit d = true ->
  String a (String b (String c (String d rest))) =
  four_digits ((((0 * 10 + digit_val a) * 10 + digit_val b) * 10 + digit_val c) * 10 + digit_val d)
    rest.
Proof.
  intros Ha Hb Hc Hd.
  pose proof (isDigit_range a Ha). pose proof (isDigit_range b Hb).
  pose proof (isDigit_range c Hc). pose proof (isDigit_range d Hd).
  unfold four_digits.
  set (x := (((0 * 10 + digit_val a) * 10 + digit_val b) * 10 + digit_val c) * 10 + digit_val d).
  replace (x / 1000) with (digit_val a) by (subst x; div_mod_lia).
  replace (x / 100 mod 10) with (digit_val b) by (subst x; div_mod_lia).
  replace (x mod 100) with (digit_val c * 10 + digit_val d) by (subst x; div_mod_lia).
  rewrite <- two_digits_of_bytes by assumption.
  rewrite !digit_digit_val by assumption. reflexivity.
Qed.

Lemma getnum_fixed_val a b rest r :
  getnum (String a (String b rest)) true = Some r ->
  isDigit a = true /\ isDigit b = true /\ r = (digit_val a * 10 + digit_val b, rest).
Proof. cbn [getnum]. intros H. split_ifs H. injection H as <-. auto. Qed.

Lemma parseStd_year_val p a b c d rest r :
  parseStd stdLongYear p (String a (String b (String c (String d rest)))) = Ok r ->
  isDigit a = true /\ isDigit b = true /\ isDigit c = true /\ isDigit d = true /\
  r = (mkParsed ((((0 * 10 + digit_val a) * 10 + digit_val b) * 10 + digit_val c) * 10 + digit_val d)
         (p_month p) (p_day p) (p_hour p) (p_min p) (p_sec p) (p_nsec p), rest).
Proof.
  cbn [parseStd take drop atoi_digits]. intros H. split_ifs H.
  injection H as <-. auto.
Qed.

Lemma parseStd_month_val p a b rest r :
  parseStd stdZeroMonth p (String a (String b rest)) = Ok r ->
  isDigit a = true /\ isDigit b = true /\
  in_range 1 (digit_val a * 10 + digit_val b) 13 = true /\
  r = (mkParsed (p_year p) (digit_val a * 10 + digit_val b) (p_day p) (p_hour p) (p_min p)
         (p_sec p) (p_nsec p), rest).
Proof.
  unfold parseStd. intros H.
  destruct (getnum _ true) as [[m rest']|] eqn:E; [|discriminate H].
  apply getnum_fixed_val in E as (Ha & Hb & E). injection E as -> ->.
  destruct (in_range 1 _ 13) eqn:Er; [|discriminate H]. injection H as <-. auto.
Qed.

Lemma parseStd_day_val p a b rest r :
  parseStd stdZeroDay p (String a (String b rest)) = Ok r ->
  isDigit a = true /\ isDigit b = true /\
  r = (mkParsed (p_year p) (p_month p) (digit_val a * 10 + digit_val b) (p_hour p) (p_min p)
         (p_sec p) (p_nsec p), rest).
Proof.
  unfold parseStd. intros H.
  destruct (getnum _ true) as [[m rest']|] eqn:E; [|discriminate H].
  apply getnum_fixed_val in E as (Ha & Hb & E). injection E as -> ->.
  injection H as <-. auto.
Qed.

Lemma parseStd_hour_val p a b rest r :
  parseStd stdHour p (String a (String b rest)) = Ok r ->
  isDigit b = true ->
  isDigit a = true /\
  in_range 0 (digit_val a * 10 + digit_val b) 24 = true /\
  r = (mkParsed (p_year p) (p_month p) (p_day p) (digit_val a * 10 + digit_val b) (p_min p)
         (p_sec p) (p_nsec p), rest).
Proof.
  cbn [parseStd getnum]. intros H Hb. rewrite Hb in H.
  destruct (isDigit a); [|discriminate H].
  destruct (in_range 0 _ 24) eqn:Er; [|discriminate H]. injection H as <-. auto.
Qed.

Lemma parseStd_minute_val p a b rest r :
  parseStd stdZeroMinute p (String a (String b rest)) = Ok r ->
  isDigit a = true /\ isDigit b = true /\
  in_range 0 (digit_val a * 10 + digit_val b) 60 = true /\
  r = (mkParsed (p_year p) (p_month p) (p_day p) (p_hour p) (digit_val a * 10 + digit_val b)
         (p_sec p) (p_nsec p), rest).
Proof.
  unfold parseStd. intros H.
  destruct (getnum _ true) as [[m rest']|] eqn:E; [|discriminate H].
  apply getnum_fixed_val in E as (Ha & Hb & E). injection E as -> ->.
  destruct (in_range 0 _ 60) eqn:Er; [|discriminate H]. injection H as <-. auto.
Qed.

Lemma parseStd_second_val p a b r :
  parseStd stdZeroSecond p (String a (String b "")) = Ok r ->
  isDigit a = true /\ isDigit b = true /\
  in_range 0 (digit_val a * 10 + digit_val b) 60 = true /\
  r = (mkParsed (p_year p) (p_month p) (p_day p) (p_hour p) (p_min p)
         (digit_val a * 10 + digit_val b) (p_nsec p), "").
Proof.
  unfold parseStd. intros H.
  destruct (getnum _ true) as [[m rest']|] eqn:E; [|discriminate H].
  apply getnum_fixed_val in E as (Ha & Hb & E). injection E as -> ->.
  destruct (in_range 0 _ 60) eqn:Er; [|discriminate H]. injection H as <-. auto.
Qed.

(** Of a text of 19 bytes, Parse accepts exactly the dates of the calendar
    with a clock reading, and returns that date and clock in UTC. *)
Lemma Parse_19_fields s t :
  String.length s = 19%nat -> Parse langsmithTimeFormat s = Ok t ->
  exists y m d h mi sec,
    0 <= y <= 9999 /\ 1 <= m <= 12 /\ 1 <= d <= daysIn m y /\
    0 <= h < 24 /\ 0 <= mi < 60 /\ 0 <= sec < 60 /\
    s = wire_of_fields y m d h mi sec /\
    t = time_Date y m d h mi sec 0 UTC.
Proof.
  intros Hl H.
  do 19 (destruct s as [|? s]; [discriminate Hl|]).
  destruct s; [|discriminate Hl]. clear Hl.
  unfold Parse in H. rewrite nextStdChunks_langsmithTimeFormat in H.
  apply obind_Ok in H as (p & H & Hfin).
  apply parseChunks_Std_inv in H as (r & Hy & H).
  apply parseStd_year_val in Hy as (Hy1 & Hy2 & Hy3 & Hy4 & ->). cbn [fst snd] in H.
  apply parseChunks_Literal_inv in H as (Hl1 & H).
  apply parseChunks_Std_inv in H as (r1 & Hm & H).
  apply parseStd_month_val in Hm as (Hm1 & Hm2 & Hmr & ->). cbn [fst snd] in H.
  apply parseChunks_Literal_inv in H as (Hl2 & H).
  apply parseChunks_Std_inv in H as (r2 & Hd & H).
  apply parseStd_day_val in Hd as (Hd1 & Hd2 & ->). cbn [fst snd] in H.
  apply parseChunks_Literal_inv in H as (Hl3 & H).
  apply parseChunks_Std_inv in H as (r3 & Hh & H).
  pose proof Hh as Hh'.
  apply parseStd_hour_inv in Hh' as (Hh1 & [(Hh2 & _)|(Hh2 & Hr)]).
  - apply (fun E => parseStd_hour_val _ _ _ _ _ E Hh2) in Hh as (_ & Hhr & ->).
    cbn [fst snd] in H.
    apply parseChunks_Literal_inv in H as (Hl4 & H).
    apply parseChunks_Std_inv in H as (r4 & Hmi & H).
    apply parseStd_minute_val in Hmi as (Hmi1 & Hmi2 & Hmir & ->). cbn [fst snd] in H.
    apply parseChunks_Literal_inv in H as (Hl5 & H).
    apply parseChunks_Std_inv in H as (r5 & Hs & H).
    apply parseStd_second_val in Hs as (Hs1 & Hs2 & Hsr & ->). cbn [fst snd parseChunks] in H.
    injection H as <-.
    cbn [p_year p_month p_day p_hour p_min p_sec p_nsec parsed0] in Hfin.
    apply Ascii.eqb_eq in Hl1, Hl2, Hl3, Hl4, Hl5. subst.
    set (y := (((0 * 10 + digit_val a) * 10 + digit_val a0) * 10 + digit_val a1) * 10
              + digit_val a2) in *.
    set (m := digit_val a4 * 10 + digit_val a5) in *.
    set (d := digit_val a7 * 10 + digit_val a8) in *.
    set (hh := digit_val a10 * 10 + digit_val a11) in *.
    set (mi := digit_val a13 * 10 + digit_val a14) in *.
    set (sec := digit_val a16 * 10 + digit_val a17) in *.
    unfold in_range in Hmr, Hhr, Hmir, Hsr.
    apply andb_prop in Hmr as [? ?], Hhr as [? ?], Hmir as [? ?], Hsr as [? ?].
    replace (m <? 0) with false in Hfin by lia.
    destruct (d <? 0) eqn:Hd0.
    { replace (1 <? 1) with false in Hfin by reflexivity.
      pose proof (daysIn_le_31 m y ltac:(lia)).
      replace (daysIn m y <? 1) with false in Hfin by lia.
      pose proof (isDigit_range a7 Hd1). pose proof (isDigit_range a8 Hd2). subst d. lia. }
    destruct ((d <? 1) || (daysIn m y <? d)) eqn:Hdd; [discriminate Hfin|].
    apply orb_false_elim in Hdd as [? ?]. injection Hfin as <-.
    exists y, m, d, hh, mi, sec.
    assert (0 <= y <= 9999).
    { pose proof (isDigit_range a Hy1). pose proof (isDigit_range a0 Hy2).
      pose proof (isDigit_range a1 Hy3). pose proof (isDigit_range a2 Hy4). subst y. lia. }
    repeat (split; [lia|]). split; [|reflexivity].
    unfold wire_of_fields. subst y m d hh mi sec.
    rewrite <- !two_digits_of_bytes, <- four_digits_of_bytes by assumption. reflexivity.
  - rewrite Hr in H.
    apply parseChunks_Literal_inv in H as (? & H).
    apply parseChunks_Std_inv in H as (r4 & Hmi & H).
    apply parseStd_minute_inv in Hmi as (? & ? & Hr4). rewrite Hr4 in H.
    apply parseChunks_Literal_inv in H as (? & H).
    apply parseChunks_Std_inv in H as (r5 & Hs & H).
    apply parseStd_second_inv in Hs as (? & ? & Hr5); [|cbn; lia]. rewrite Hr5 in H.
    discriminate H.
Qed.

Lemma Date_fields y m d h mi sec :
  1 <= m <= 12 -> 1 <= d <= daysIn m y -> 0 <= h < 24 -> 0 <= mi < 60 -> 0 <= sec < 60 ->
  let t := time_Date y m d h mi sec 0 UTC in
  Year t = y /\ Month t = m /\ Day t = d /\ Hour t = h /\ Minute t = mi /\ Second t = sec.
Proof.
  intros Hm Hd Hh Hmi Hs t.
  assert (Habs : abs t = days_from_civil y m d * 86400 + (h * 3600 + mi * 60 + sec))
    by (subst t; unfold abs, time_Date, UTC; cbn [unix offset]; lia).
  assert (Hdays : abs t / 86400 = days_from_civil y m d) by (rewrite Habs; div_mod_lia).
  unfold Year, Month, Day, Hour, Minute, Second.
  rewrite Hdays, civil_from_days_from_civil by assumption. cbn [fst snd].
  rewrite Habs. repeat split; div_mod_lia.
Qed.

Lemma Format_Date y m d h mi sec :
  0 <= y <= 9999 -> 1 <= m <= 12 -> 1 <= d <= daysIn m y ->
  0 <= h < 24 -> 0 <= mi < 60 -> 0 <= sec < 60 ->
  Format (time_Date y m d h mi sec 0 UTC) langsmithTimeFormat = wire_of_fields y m d h mi sec.
Proof.
  intros Hy Hm Hd Hh Hmi Hs.
  destruct (Date_fields y m d h mi sec Hm Hd Hh Hmi Hs) as (Ey & Em & Ed & Eh & Emi & Es).
  rewrite Format_langsmithTimeFormat by (rewrite Ey; assumption).
  unfold wire_text. rewrite Ey, Em, Ed, Eh, Emi, Es. reflexivity.
Qed.

(** *** What the decoder returns *)

(** X1: a value the decoder returns is in UTC, has no fraction of a second,
    and encodes back to the first 19 bytes of the string that was decoded. *)
Theorem X1_decode_then_encode (b : string) (t : LangsmithTime) :
  LangsmithTime_UnmarshalJSON b = Ok t ->
  exists s,
    json_Unmarshal_string b = Ok s /\ 19 <= len s /\
    LangsmithTime_MarshalJSON t = Ok (quoted (take 19 s)) /\
    offset (as_Time t) = UTC /\ nsec (as_Time t) = 0.
Proof.
  unfold LangsmithTime_UnmarshalJSON. intros H.
  apply obind_Ok in H as (s & Hs & H). exists s. split; [assumption|].
  destruct (len s <? 19) eqn:Hl; [discriminate H|].
  apply obind_Ok in H as (t2 & Hp & H). injection H as <-.
  split; [apply Z.ltb_ge; assumption|].
  apply Parse_19_fields in Hp as (y & m & d & h & mi & sec & Hy & Hm & Hd & Hh & Hmi & Hsec & Hw & ->);
    [|apply length_take; unfold len in Hl; lia].
  unfold LangsmithTime_MarshalJSON. cbn [as_Time].
  rewrite Format_Date, Hw by assumption. repeat split.
Qed.

Lemma X1_decode_then_encode_witness :
  LangsmithTime_UnmarshalJSON (quoted "2023-11-14T22:13:20.123456+01:00") =
    Ok (mkLangsmithTime t_utc) /\
  exists s,
    json_Unmarshal_string (quoted "2023-11-14T22:13:20.123456+01:00") = Ok s /\ 19 <= len s /\
    LangsmithTime_MarshalJSON (mkLangsmithTime t_utc) = Ok (quoted (take 19 s)) /\
    offset t_utc = UTC /\ nsec t_utc = 0.
Proof.
  split; [reflexivity|].
  exact (X1_decode_then_encode (quoted "2023-11-14T22:13:20.123456+01:00")
           (mkLangsmithTime t_utc) eq_refl).
Defined.

(** X2: a value the decoder returns passes through encoding and decoding
    unchanged. *)
Theorem X2_decoded_value_is_stable (b : string) (t : LangsmithTime) :
  LangsmithTime_UnmarshalJSON b = Ok t ->
  exists b', LangsmithTime_MarshalJSON t = Ok b' /\ LangsmithTime_UnmarshalJSON b' = Ok t.
Proof.
  unfold LangsmithTime_UnmarshalJSON at 1. intros H.
  apply obind_Ok in H as (s & Hs & H).
  destruct (len s <? 19) eqn:Hl; [discriminate H|].
  apply obind_Ok in H as (t2 & Hp & H). injection H as <-.
  apply Parse_19_fields in Hp as (y & m & d & h & mi & sec & Hy & Hm & Hd & Hh & Hmi & Hsec & Hw & ->);
    [|apply length_take; unfold len in Hl; lia].
  destruct (Date_fields y m d h mi sec Hm Hd Hh Hmi Hsec) as (Ey & _).
  destruct (LangsmithTime_roundtrip_wall_clock
              (mkLangsmithTime (time_Date y m d h mi sec 0 UTC))
              ltac:(cbn [as_Time]; rewrite Ey; assumption)) as [Henc Hdec].
  eexists. split; [exact Henc|]. rewrite Hdec. cbn [as_Time].
  unfold wall_clock_UTC, time_Date, UTC. cbn [unix offset nsec].
  rewrite Z.add_0_r. reflexivity.
Qed.

Lemma X2_decoded_value_is_stable_witness :
  LangsmithTime_UnmarshalJSON (quoted "2024-02-29T23:59:59Z") =
    Ok (mkLangsmithTime {| unix := 1709251199; nsec := 0; offset := UTC |}) /\
  exists b', LangsmithTime_MarshalJSON
               (mkLangsmithTime {| unix := 1709251199; nsec := 0; offset := UTC |}) = Ok b' /\
             LangsmithTime_UnmarshalJSON b' =
               Ok (mkLangsmithTime {| unix := 1709251199; nsec := 0; offset := UTC |}).
Proof.
  split; [reflexivity|].
  exact (X2_decoded_value_is_stable (quoted "2024-02-29T23:59:59Z")
           (mkLangsmithTime {| unix := 1709251199; nsec := 0; offset := UTC |}) eq_refl).
Defined.

(** *** The decimal form of any number *)

Lemma all_plain_append s t : all_plain (s +:+ t) = all_plain s && all_plain t.
Proof.
  induction s as [|c s IH]; [reflexivity|].
  rewrite append_String. cbn [all_plain]. rewrite IH, andb_assoc. reflexivity.
Qed.

Lemma take_append w x : take (String.length w) (w +:+ x) = w.
Proof.
  induction w as [|c w IH]; [reflexivity|].
  rewrite append_String. cbn [String.length take]. rewrite IH. reflexivity.
Qed.

Lemma isDigit_plain c : isDigit c = true -> plain c = true.
Proof.
  intros H. rewrite <- (digit_digit_val c H). apply plain_digit. apply isDigit_range, H.
Qed.

Lemma all_digits_plain s : all_digits s = true -> all_plain s = true.
Proof.
  induction s as [|c s IH]; [reflexivity|]. cbn [all_digits all_plain]. intros H.
  apply andb_prop in H as [Hc Hs]. rewrite (isDigit_plain c Hc), (IH Hs). reflexivity.
Qed.

Lemma all_digits_append s t : all_digits (s +:+ t) = all_digits s && all_digits t.
Proof.
  induction s as [|c s IH]; [reflexivity|].
  rewrite append_String. cbn [all_digits]. rewrite IH, andb_assoc. reflexivity.
Qed.

Lemma all_digits_decimal fuel : forall u acc,
  all_digits acc = true -> all_digits (decimal fuel u acc) = true.
Proof.
  induction fuel as [|fuel IH]; intros u acc Hacc; cbn [decimal]; [assumption|].
  assert (Hd : all_digits (String (digit (u mod 10)) acc) = true).
  { cbn [all_digits]. rewrite isDigit_digit by div_mod_lia. assumption. }
  destruct (u / 10 =? 0); [assumption|]. apply IH, Hd.
Qed.

Lemma length_decimal_acc fuel : forall u acc,
  (String.length acc <= String.length (decimal fuel u acc))%nat.
Proof.
  induction fuel as [|fuel IH]; intros u acc; cbn [decimal]; [lia|].
  destruct (u / 10 =? 0); [cbn [String.length]; lia|].
  specialize (IH (u / 10) (String (digit (u mod 10)) acc)). cbn [String.length] in IH. lia.
Qed.

(** With fuel to spare, a number of at least [10 ^ k] has more than [k]
    digits. *)
Lemma length_decimal fuel : forall u acc (k : nat),
  0 <= u < 2 ^ Z.of_nat fuel -> 10 ^ Z.of_nat k <= u ->
  (k + 1 + String.length acc <= String.length (decimal fuel u acc))%nat.
Proof.
  induction fuel as [|fuel IH]; intros u acc k Hu Hk.
  - cbn in Hu. pose proof (Z.pow_pos_nonneg 10 (Z.of_nat k) ltac:(lia) ltac:(lia)). lia.
  - cbn [decimal]. destruct (u / 10 =? 0) eqn:E.
    + apply Z.eqb_eq in E. destruct k as [|k]; [cbn [String.length]; lia|].
      rewrite Nat2Z.inj_succ, Z.pow_succ_r in Hk by lia.
      pose proof (Z.pow_pos_nonneg 10 (Z.of_nat k) ltac:(lia) ltac:(lia)).
      assert (u < 10) by div_mod_lia. lia.
    + apply Z.eqb_neq in E. destruct k as [|k].
      * pose proof (length_decimal_acc fuel (u / 10) (String (digit (u mod 10)) acc)) as H.
        cbn [String.length] in H. lia.
      * rewrite Nat2Z.inj_succ, Z.pow_succ_r in Hk by lia.
        rewrite Nat2Z.inj_succ, Z.pow_succ_r in Hu by lia.
        specialize (IH (u / 10) (String (digit (u mod 10)) acc) k
                      ltac:(div_mod_lia) ltac:(div_mod_lia)).
        cbn [String.length] in IH. lia.
Qed.

Lemma all_digits_utoa u : all_digits (utoa u) = true.
Proof. unfold utoa. apply all_digits_decimal. reflexivity. Qed.

Lemma length_utoa u (k : nat) : 10 ^ Z.of_nat k <= u -> (k + 1 <= String.length (utoa u))%nat.
Proof.
  intros Hk. pose proof (Z.pow_pos_nonneg 10 (Z.of_nat k) ltac:(lia) ltac:(lia)) as Hpos.
  unfold utoa.
  pose proof (length_decimal (S (Z.to_nat (Z.log2 u))) u "" k) as H.
  cbn [String.length] in H. rewrite Nat.add_0_r in H. apply H; [|assumption].
  split; [lia|].
  rewrite Nat2Z.inj_succ, Z2Nat.id by apply Z.log2_nonneg.
  apply Z.log2_spec. lia.
Qed.

Lemma all_plain_zeros n : all_plain (zeros n) = true.
Proof. induction n as [|n IH]; [reflexivity|]. cbn [zeros all_plain]. rewrite IH. reflexivity. Qed.

Lemma all_plain_appendInt x width : all_plain (appendInt x width) = true.
Proof.
  unfold appendInt. rewrite !all_plain_append, all_plain_zeros.
  rewrite (all_digits_plain _ (all_digits_utoa _)). destruct (x <? 0); reflexivity.
Qed.

Lemma length_zeros n : String.length (zeros n) = n.
Proof. induction n as [|n IH]; [reflexivity|]. cbn [zeros String.length]. rewrite IH. reflexivity. Qed.

Lemma all_plain_trimZeros s : all_plain s = true -> all_plain (trimZeros s) = true.
Proof.
  induction s as [|c s IH]; [reflexivity|]. cbn [all_plain trimZeros]. intros H.
  apply andb_prop in H as [Hc Hs]. specialize (IH Hs).
  destruct (trimZeros s) as [|c' r].
  - destruct (c =? "0")%char; [reflexivity|]. cbn [all_plain]. rewrite Hc. reflexivity.
  - cbn [all_plain] in *. rewrite Hc, IH. reflexivity.
Qed.

Lemma all_plain_appendNano ns : all_plain (appendNano ns) = true.
Proof.
  unfold appendNano. destruct (ns =? 0); [reflexivity|].
  cbn [all_plain]. rewrite all_plain_trimZeros by apply all_plain_appendInt. reflexivity.
Qed.

Lemma all_plain_appendZone off : all_plain (appendZone off) = true.
Proof.
  unfold appendZone. destruct (off =? 0); [reflexivity|].
  rewrite !all_plain_append, !all_plain_appendInt. destruct (_ <? 0); reflexivity.
Qed.

(** *** A year that does not have four digits *)

Lemma Format_any_year t :
  Format t langsmithTimeFormat = appendInt (Year t) 4 +:+ wire_tail t.
Proof.
  unfold Format. rewrite nextStdChunks_langsmithTimeFormat.
  destruct (clock_ranges t) as (Hh & Hmi & Hs).
  destruct (date_ranges t) as (Hm & Hd & _).
  cbn [formatChunks formatStd]. rewrite !appendInt_2 by lia. reflexivity.
Qed.

Lemma all_plain_wire_tail t : all_plain (wire_tail t) = true.
Proof.
  destruct (clock_ranges t) as (Hh & Hmi & Hs).
  destruct (date_ranges t) as (Hm & Hd & _).
  unfold wire_tail, two_digits. cbn [all_plain].
  rewrite !plain_digit by div_mod_lia. reflexivity.
Qed.

Lemma isDigit_not_dash c : isDigit c = true -> (c =? "-")%char = false.
Proof.
  intros H. destruct (c =? "-")%char eqn:E; [|reflexivity].
  apply Ascii.eqb_eq in E. subst c. discriminate H.
Qed.

Lemma Parse_year_without_dash a b c d e rest :
  isDigit a = true -> isDigit b = true -> isDigit c = true -> isDigit d = true ->
  isDigit e = true ->
  Parse langsmithTimeFormat (String a (String b (String c (String d (String e rest))))) =
  Err (time_ParseError BadValue).
Proof.
  intros Ha Hb Hc Hd He. unfold Parse. rewrite nextStdChunks_langsmithTimeFormat.
  rewrite four_digits_of_bytes by assumption.
  pose proof (isDigit_range a Ha). pose proof (isDigit_range b Hb).
  pose proof (isDigit_range c Hc). pose proof (isDigit_range d Hd).
  rewrite parseChunks_Std, parseStd_year by lia. cbn [obind fst snd parseChunks].
  rewrite (isDigit_not_dash e He). reflexivity.
Qed.

Lemma Parse_leading_dash rest :
  Parse langsmithTimeFormat (String "-" rest) = Err (time_ParseError BadValue).
Proof.
  unfold Parse. rewrite nextStdChunks_langsmithTimeFormat.
  rewrite parseChunks_Std. cbn [parseStd]. change (isDigit "-") with false.
  rewrite andb_false_r. reflexivity.
Qed.

(** X3: for a time whose year is not between 0 and 9999 the encoder still
    returns bytes without an error, and the decoder rejects those bytes: such
    a value cannot be read back. *)
Theorem X3_year_out_of_range_not_read_back (t : LangsmithTime) :
  ~ (0 <= Year (as_Time t) <= 9999) ->
  exists b, LangsmithTime_MarshalJSON t = Ok b /\
            LangsmithTime_UnmarshalJSON b = Err (time_ParseError BadValue).
Proof.
  intros Hy. eexists. split; [reflexivity|].
  unfold LangsmithTime_UnmarshalJSON.
  rewrite Format_any_year.
  assert (Hplain : all_plain (appendInt (Year (as_Time t)) 4 +:+ wire_tail (as_Time t)) = true)
    by (rewrite all_plain_append, all_plain_appendInt, all_plain_wire_tail; reflexivity).
  rewrite json_Unmarshal_string_quoted by exact Hplain. cbn [obind].
  unfold appendInt in *.
  destruct (Year (as_Time t) <? 0) eqn:Hneg.
  - (* a negative year starts with the sign *)
    rewrite !append_String, append_Empty.
    replace (len _ <? 19) with false.
    + cbn [take]. rewrite Parse_leading_dash. reflexivity.
    + symmetry. apply Z.ltb_ge. unfold len. cbn [String.length].
      rewrite !length_append, length_zeros. change (String.length (wire_tail (as_Time t))) with 15%nat.
      lia.
  - (* a year from 10000 on has five digits or more *)
    apply Z.ltb_ge in Hneg.
    assert (Hbig : 10 ^ Z.of_nat 4 <= Z.abs (Year (as_Time t))) by (change (10 ^ Z.of_nat 4) with 10000; lia).
    pose proof (length_utoa _ 4 Hbig) as Hlen.
    pose proof (all_digits_utoa (Z.abs (Year (as_Time t)))) as Hdig.
    destruct (utoa (Z.abs (Year (as_Time t)))) as [|c1 [|c2 [|c3 [|c4 [|c5 ds]]]]];
      cbn [String.length] in Hlen; try lia.
    cbn [all_digits] in Hdig.
    apply andb_prop in Hdig as [H1 Hdig]. apply andb_prop in Hdig as [H2 Hdig].
    apply andb_prop in Hdig as [H3 Hdig]. apply andb_prop in Hdig as [H4 Hdig].
    apply andb_prop in Hdig as [H5 _].
    replace (4 - String.length _)%nat with 0%nat by (cbn [String.length]; lia).
    cbn [zeros]. rewrite !append_Empty, !append_String.
    replace (len _ <? 19) with false.
    + cbn [take]. rewrite Parse_year_without_dash by assumption. reflexivity.
    + symmetry. apply Z.ltb_ge. unfold len. cbn [String.length].
      rewrite !length_append. change (String.length (wire_tail (as_Time t))) with 15%nat. lia.
Qed.

Lemma X3_year_out_of_range_not_read_back_witness :
  ~ (0 <= Year t_year10000 <= 9999) /\
  exists b, LangsmithTime_MarshalJSON (mkLangsmithTime t_year10000) = Ok b /\
            LangsmithTime_UnmarshalJSON b = Err (time_ParseError BadValue).
Proof.
  assert (Hy : ~ (0 <= Year t_year10000 <= 9999)).
  { change (Year t_year10000) with 10000. lia. }
  split; [exact Hy|].
  exact (X3_year_out_of_range_not_read_back (mkLangsmithTime t_year10000) Hy).
Defined.

(** *** What the decoder does not look at *)

Lemma UnmarshalJSON_first_19 w x :
  String.length w = 19%nat -> all_plain w = true -> all_plain x = true ->
  LangsmithTime_UnmarshalJSON (quoted (w +:+ x)) =
  (do t2 <- Parse langsmithTimeFormat w; Ok (mkLangsmithTime t2)).
Proof.
  intros Hl Hw Hx.
  rewrite (UnmarshalJSON_truncates _ (w +:+ x)).
  - rewrite <- Hl, take_append. reflexivity.
  - apply json_Unmarshal_string_quoted. rewrite all_plain_append, Hw, Hx. reflexivity.
  - unfold len. rewrite length_append, Hl. lia.
Qed.

(** X4: the decoder looks at the first 19 bytes of the string the JSON text
    stands for, and at nothing else.  Two inputs whose strings have at least
    19 bytes and agree on the first 19 give the same result, whatever follows
    in either: a fraction of a second, a zone, bytes that are not ASCII,
    escape sequences, or anything else. *)
Theorem X4_bytes_after_the_19th_are_ignored (b b' s s' : string) :
  json_Unmarshal_string b = Ok s -> json_Unmarshal_string b' = Ok s' ->
  19 <= len s -> 19 <= len s' -> take 19 s = take 19 s' ->
  LangsmithTime_UnmarshalJSON b = LangsmithTime_UnmarshalJSON b'.
Proof.
  intros Hs Hs' Hl Hl' E.
  rewrite (UnmarshalJSON_truncates b s Hs Hl), (UnmarshalJSON_truncates b' s' Hs' Hl'), E.
  reflexivity.
Qed.

Lemma X4_bytes_after_the_19th_are_ignored_witness :
  let tail := String "195" (String "169" (String backslash "u00e9 is not a zone")) in
  json_Unmarshal_string (quoted ("2023-11-14T22:13:20" +:+ tail)) =
    Ok ("2023-11-14T22:13:20" +:+
        String "195" (String "169" (String "195" (String "169" " is not a zone")))) /\
  LangsmithTime_UnmarshalJSON (quoted ("2023-11-14T22:13:20" +:+ tail)) =
    LangsmithTime_UnmarshalJSON (quoted "2023-11-14T22:13:20") /\
  LangsmithTime_UnmarshalJSON (quoted "2023-11-14T22:13:20") = Ok (mkLangsmithTime t_utc).
Proof.
  intros tail. split; [reflexivity|]. split; [|reflexivity].
  apply (X4_bytes_after_the_19th_are_ignored
           (quoted ("2023-11-14T22:13:20" +:+ tail)) (quoted "2023-11-14T22:13:20")
           ("2023-11-14T22:13:20" +:+
            String "195" (String "169" (String "195" (String "169" " is not a zone"))))
           "2023-11-14T22:13:20").
  - reflexivity.
  - reflexivity.
  - vm_compute. discriminate.
  - vm_compute. discriminate.
  - reflexivity.
Defined.

(** X5: the JSON text time.Time's own encoder writes for a time (RFC 3339,
    with fraction and zone) is accepted by the LangsmithTime decoder, which
    returns the date and clock of the text as a time in UTC: the fraction is
    dropped and the zone is not applied. *)
Theorem X5_decodes_RFC3339_as_wall_clock (t : time_Time) (b : string) :
  Time_MarshalJSON t = Ok b ->
  LangsmithTime_UnmarshalJSON b = Ok (mkLangsmithTime (wall_clock_UTC t)).
Proof.
  intros Hb.
  assert (Hy : 0 <= Year t <= 9999).
  { unfold Time_MarshalJSON in Hb. destruct (in_range 0 (Year t) 10000) eqn:E;
      [|discriminate Hb]. unfold in_range in E. apply andb_prop in E as [? ?]. lia. }
  rewrite (Time_MarshalJSON_Ok t b Hb). unfold Format_RFC3339Nano.
  rewrite Format_langsmithTimeFormat by assumption.
  rewrite UnmarshalJSON_first_19.
  - rewrite Parse_wire_text by assumption. reflexivity.
  - apply length_wire_text.
  - apply all_plain_wire_text. assumption.
  - rewrite all_plain_append, all_plain_appendNano, all_plain_appendZone. reflexivity.
Qed.

Lemma X5_decodes_RFC3339_as_wall_clock_witness :
  Time_MarshalJSON t_cet = Ok (quoted "2023-11-14T23:13:20.5+01:00") /\
  LangsmithTime_UnmarshalJSON (quoted "2023-11-14T23:13:20.5+01:00") =
    Ok (mkLangsmithTime (wall_clock_UTC t_cet)) /\
  wall_clock_UTC t_cet = {| unix := 1700003600; nsec := 0; offset := UTC |}.
Proof.
  split; [reflexivity|]. split; [|reflexivity].
  exact (X5_decodes_RFC3339_as_wall_clock t_cet (quoted "2023-11-14T23:13:20.5+01:00") eq_refl).
Defined.



(** ** ToMultiPart: the other fields of the form *)

Lemma filter_field name name' value :
  List.filter (fun p => (Part_name p =? name)%string) [form_field name' value] =
  if (name' =? name)%string then [form_field name' value] else [].
Proof. cbn [List.filter form_field Part_name]. reflexivity. Qed.

Lemma field_values_parts boundary d name :
  field_values name {| Form_boundary := boundary; Form_parts := DatasetCSV_parts d |} =
  (if negb (DatasetCSV_File d =? "")%string && ("file" =? name)%string
   then [DatasetCSV_File d] else []) ++
  (if ("input_keys" =? name)%string then elements (DatasetCSV_InputKeys d) else []) ++
  (if negb (DatasetCSV_Name d =? "")%string && ("name" =? name)%string
   then [DatasetCSV_Name d] else []) ++
  (if ("data_type" =? name)%string then [DatasetCSV_DataType d] else []) ++
  (if ("output_keys" =? name)%string then elements (DatasetCSV_OutputKeys d) else []) ++
  (if negb (DatasetCSV_Description d =? "")%string && ("description" =? name)%string
   then [DatasetCSV_Description d] else []).
Proof.
  unfold field_values, DatasetCSV_parts. cbn [Form_parts].
  rewrite !List.filter_app, !map_app.
  repeat f_equal.
  - destruct (negb (DatasetCSV_File d =? "")%string); [|reflexivity].
    cbn [List.filter Part_name andb]. destruct ("file" =? name)%string; reflexivity.
  - destruct ("input_keys" =? name)%string eqn:E.
    + apply String.eqb_eq in E. subst name. rewrite filter_form_field_same.
      apply map_data_form_field.
    + rewrite filter_form_field_other by assumption. reflexivity.
  - destruct (negb (DatasetCSV_Name d =? "")%string); [|reflexivity].
    rewrite filter_field. cbn [andb]. destruct ("name" =? name)%string; reflexivity.
  - rewrite filter_field. destruct ("data_type" =? name)%string; reflexivity.
  - destruct ("output_keys" =? name)%string eqn:E.
    + apply String.eqb_eq in E. subst name. rewrite filter_form_field_same.
      apply map_data_form_field.
    + rewrite filter_form_field_other by assumption. reflexivity.
  - destruct (negb (DatasetCSV_Description d =? "")%string); [|reflexivity].
    rewrite filter_field. cbn [andb]. destruct ("description" =? name)%string; reflexivity.
Qed.

(** X7: the form has one [output_keys] field per entry of OutputKeys, in the
    order of the list, and exactly one [data_type] field, which is written
    also when DataType is the empty string. *)
Theorem X7_output_keys_and_data_type (boundary : string) (d : DatasetCSV) :
  exists body contentType,
    DatasetCSV_ToMultiPart boundary (Some d) = Ok (body, contentType) /\
    field_values "output_keys" body = elements (DatasetCSV_OutputKeys d) /\
    field_values "data_type" body = [DatasetCSV_DataType d].
Proof.
  eexists. eexists. split; [apply ToMultiPart_parts|].
  rewrite !field_values_parts.
  change ("file" =? "output_keys")%string with false.
  change ("file" =? "data_type")%string with false.
  rewrite !andb_false_r. cbn [String.eqb Ascii.eqb Bool.eqb app].
  rewrite app_nil_r. split; reflexivity.
Qed.

(** X8: [name] and [description] are written exactly when they are not the
    empty string, once, with their value; the CSV text is written exactly
    when it is not empty, as the one file part [file] with the file name
    [dataset.csv]; and the content type names the boundary of the body. *)
Theorem X8_empty_fields_left_out (boundary : string) (d : DatasetCSV) :
  exists body contentType,
    DatasetCSV_ToMultiPart boundary (Some d) = Ok (body, contentType) /\
    field_values "name" body =
      (if (DatasetCSV_Name d =? "")%string then [] else [DatasetCSV_Name d]) /\
    field_values "description" body =
      (if (DatasetCSV_Description d =? "")%string then [] else [DatasetCSV_Description d]) /\
    List.filter (fun p => match Part_filename p with Some _ => true | None => false end)
      (Form_parts body) =
      (if (DatasetCSV_File d =? "")%string then []
       else [ {| Part_name := "file"; Part_filename := Some "dataset.csv";
                 Part_data := DatasetCSV_File d |} ]) /\
    Form_boundary body = boundary /\
    contentType = "multipart/form-data; boundary=" +:+ boundary.
Proof.
  eexists. eexists. split; [apply ToMultiPart_parts|].
  rewrite !field_values_parts. cbn [Form_parts Form_boundary].
  repeat split.
  - cbn [String.eqb Ascii.eqb Bool.eqb app]. rewrite !andb_false_r, andb_true_r.
    destruct (DatasetCSV_Name d =? "")%string; reflexivity.
  - cbn [String.eqb Ascii.eqb Bool.eqb app]. rewrite !andb_false_r, andb_true_r.
    destruct (DatasetCSV_Description d =? "")%string; reflexivity.
  - unfold DatasetCSV_parts. rewrite !List.filter_app.
    assert (F : forall name keys,
      List.filter (fun p => match Part_filename p with Some _ => true | None => false end)
        (map (form_field name) keys) = []).
    { intros name keys. induction keys as [|k keys IH]; [reflexivity|]. cbn. exact IH. }
    rewrite !F.
    destruct (DatasetCSV_File d =? "")%string;
      destruct (DatasetCSV_Name d =? "")%string;
      destruct (DatasetCSV_Description d =? "")%string; reflexivity.
Qed.

(** ** Nil arguments *)

Lemma Do_Body h c url method j :
  map Body (requests (events (Do h c url method j))) =
  if NewRequest_accepts h method url then [Some (JSONData j)] else [].
Proof.
  unfold Do, http_NewRequest. destruct (NewRequest_accepts h method url); [|reflexivity].
  rewrite events_lift_bind. unfold io_bind, client_Do, lift, events. cbn [fst snd].
  destruct (RoundTrip h _); reflexivity.
Qed.

(** X9: the two operations that read a field of their argument before
    anything else, UploadCSV (in ToMultiPart) and QueryRuns, panic on a nil
    argument without sending or printing anything.  The operations that hand
    their argument to json.Marshal do not reject nil: CreateDataset,
    UploadExperiment, CreateComparativeExperiment, CreateFeedback,
    CreateTracerSession and UpdateTracerSession called with nil do what Do
    does with the body [null] at the operation's URL, and the request they
    send, when net/http accepts the URL, has the body [null]. *)
Theorem X9_nil_arguments (h : Host) (d : DatasetClient) :
  UploadCSV h d None = ([], Panic nil_pointer_dereference) /\
  (forall experimentIds isRoot,
     QueryRuns h d experimentIds isRoot None = ([], Panic nil_pointer_dereference)) /\
  (let c := DatasetClient_baseClient d in
   CreateDataset h d None = Do h c (baseUrl c) "POST" JNull /\
   UploadExperiment h d None = Do h c (baseUrl c +:+ "/upload-experiment") "POST" JNull /\
   CreateComparativeExperiment h d None = Do h c (baseUrl c +:+ "/comparative") "POST" JNull /\
   CreateFeedback h d None = Do h c (BASE_URL +:+ "/feedback") "POST" JNull /\
   CreateTracerSession h d None = Do h c (BASE_URL +:+ "/sessions") "POST" JNull /\
   forall sessionId,
     UpdateTracerSession h d sessionId None =
     Do h c (BASE_URL +:+ "/sessions/" +:+ sessionId) "PATCH" JNull) /\
  (forall c,
     In c [ call_CreateDataset None; call_UploadExperiment None;
            call_CreateComparativeExperiment None; call_CreateFeedback None;
            call_CreateTracerSession None ] \/
     (exists sessionId, c = call_UpdateTracerSession sessionId None) ->
     map Body (requests (events (perform h d c))) =
     if NewRequest_accepts h (fst (target d c)) (snd (target d c))
     then [Some (JSONData JNull)] else []).
Proof.
  assert (E : forall k : JSON -> IO unit, (run jsonData <- lift (Ok JNull); k jsonData) = k JNull).
  { intros k. apply events_lift_bind. }
  split; [reflexivity|]. split; [reflexivity|]. split.
  - cbv zeta. repeat split; try intros sessionId;
      unfold CreateDataset, UploadExperiment, CreateComparativeExperiment, CreateFeedback,
        CreateTracerSession, UpdateTracerSession; cbn [pointer json_Marshal]; apply E.
  - intros c [Hc|(sessionId & ->)].
    + cbn [In] in Hc.
      repeat (destruct Hc as [<-|Hc];
              [unfold perform, CreateDataset, UploadExperiment, CreateComparativeExperiment,
                 CreateFeedback, CreateTracerSession; cbn [pointer json_Marshal];
               rewrite E; unfold io_map, events; cbn [fst target snd];
               apply Do_Body|]).
      destruct Hc.
    + unfold perform, UpdateTracerSession. cbn [pointer json_Marshal].
      rewrite E. unfold io_map, events. cbn [fst target snd]. apply Do_Body.
Qed.

Lemma X9_nil_arguments_witness :
  map Body (requests (events (perform (mock_Host 200 "") client_override
                                (call_CreateFeedback None)))) =
    [Some (JSONData JNull)] /\
  map Body (requests (events (perform (mock_Host 200 "") client_override
                                (call_UpdateTracerSession "s-1" None)))) =
    [Some (JSONData JNull)].
Proof.
  split.
  - apply (proj2 (proj2 (proj2 (X9_nil_arguments (mock_Host 200 "") client_override)))
             (call_CreateFeedback None)).
    left. cbn [In]. do 3 right. left. reflexivity.
  - apply (proj2 (proj2 (proj2 (X9_nil_arguments (mock_Host 200 "") client_override)))
             (call_UpdateTracerSession "s-1" None)).
    right. exists "s-1". reflexivity.
Defined.

(** ** The timestamps of the request objects *)

(** X10: omitempty never leaves a LangsmithTime out.  Whenever a Feedback, a
    TracerSessionRequest or a TracerSessionUpdate is encoded, the object has
    its timestamp members, each the text MarshalJSON gives, whatever the
    values of the timestamps and of the other fields. *)
Theorem X10_LangsmithTime_members_always_written :
  (forall (x : Feedback) j, json_Marshal (reflect_Feedback x) = Ok j ->
     exists ms, j = JObject ms /\
       In ("created_at", LangsmithTime_json (Feedback_CreatedAt x)) ms /\
       In ("modified_at", LangsmithTime_json (Feedback_ModifiedAt x)) ms) /\
  (forall (x : TracerSessionRequest) j, json_Marshal (reflect_TracerSessionRequest x) = Ok j ->
     exists ms, j = JObject ms /\
       In ("start_time", LangsmithTime_json (TracerSessionRequest_StartTime x)) ms /\
       In ("end_time", LangsmithTime_json (TracerSessionRequest_EndTime x)) ms) /\
  (forall (x : TracerSessionUpdate) j, json_Marshal (reflect_TracerSessionUpdate x) = Ok j ->
     exists ms, j = JObject ms /\
       In ("end_time", LangsmithTime_json (TracerSessionUpdate_EndTime x)) ms).
Proof.
  split; [|split]; intros x j Hj.
  - destruct (LangsmithTime_field_written _ "created_at" true (Feedback_CreatedAt x) j Hj)
      as (ms & -> & H1); [right; left; reflexivity|].
    destruct (LangsmithTime_field_written _ "modified_at" true (Feedback_ModifiedAt x) _ Hj)
      as (ms' & E & H2); [right; right; left; reflexivity|].
    injection E as <-. exists ms. auto.
  - destruct (LangsmithTime_field_written _ "start_time" true
                (TracerSessionRequest_StartTime x) j Hj)
      as (ms & -> & H1); [right; left; reflexivity|].
    destruct (LangsmithTime_field_written _ "end_time" true
                (TracerSessionRequest_EndTime x) _ Hj)
      as (ms' & E & H2); [right; right; left; reflexivity|].
    injection E as <-. exists ms. auto.
  - destruct (LangsmithTime_field_written _ "end_time" true
                (TracerSessionUpdate_EndTime x) j Hj)
      as (ms & -> & H1); [left; reflexivity|].
    exists ms. auto.
Qed.

Lemma X10_LangsmithTime_members_always_written_witness :
  (exists ms,
     JObject [ ("created_at", JRaw (quoted "0001-01-01T00:00:00"));
               ("modified_at", JRaw (quoted "0001-01-01T00:00:00"));
               ("key", JString "k") ] = JObject ms /\
     In ("created_at", LangsmithTime_json zero_LangsmithTime) ms /\
     In ("modified_at", LangsmithTime_json zero_LangsmithTime) ms) /\
  (exists ms,
     JObject [ ("start_time", JRaw (quoted "0001-01-01T00:00:00"));
               ("end_time", JRaw (quoted "0001-01-01T00:00:00"));
               ("name", JString "n") ] = JObject ms /\
     In ("start_time", LangsmithTime_json zero_LangsmithTime) ms /\
     In ("end_time", LangsmithTime_json zero_LangsmithTime) ms) /\
  (exists ms,
     JObject [ ("end_time", JRaw (quoted "2023-11-14T22:13:20")) ] = JObject ms /\
     In ("end_time", LangsmithTime_json (mkLangsmithTime t_utc)) ms).
Proof.
  split; [|split].
  - exact (proj1 X10_LangsmithTime_members_always_written feedback_key_only _ eq_refl).
  - exact (proj1 (proj2 X10_LangsmithTime_members_always_written) session_name_only _ eq_refl).
  - exact (proj2 (proj2 X10_LangsmithTime_members_always_written) (session_update_at t_utc) _
             eq_refl).
Defined.

(** A pointer to a LangsmithTime, tagged omitempty, in the one field with
    its name: no member for the nil pointer, else one, the time's text. *)
Lemma pointer_member fs name (p : option LangsmithTime) j :
  json_Marshal (GoStruct fs) = Ok j ->
  fields_named name fs = [(name, true, pointer GoLangsmithTime p)] ->
  exists ms, j = JObject ms /\
    members_named name ms =
      match p with
      | Some t => [(name, LangsmithTime_json t)]
      | None => []
      end /\
    forall v, In (name, v) ms <-> exists t, p = Some t /\ v = LangsmithTime_json t.
Proof.
  intros Hj Hf.
  assert (H : exists ms, j = JObject ms /\
                members_named name ms =
                  match p with
                  | Some t => [(name, LangsmithTime_json t)]
                  | None => []
                  end).
  { destruct p as [t|].
    - destruct (member_of_field fs name true _ j Hj Hf eq_refl) as (ms & jv & -> & Hv & Hm).
      exists ms. split; [reflexivity|]. cbn [pointer] in Hv.
      change (json_Marshal (GoRef (GoLangsmithTime t))) with (Ok (LangsmithTime_json t)) in Hv.
      injection Hv as <-. exact Hm.
    - apply (no_member_of_field fs name true _ j Hj Hf eq_refl). }
  destruct H as (ms & -> & Hm). exists ms. split; [reflexivity|]. split; [exact Hm|].
  intros v. rewrite In_members_named, Hm. destruct p as [t|]; cbn [In]; split.
  - intros [H|[]]. injection H as <-. exists t. split; reflexivity.
  - intros (t' & H & ->). injection H as <-. left. reflexivity.
  - intros [].
  - intros (t' & H & _). discriminate H.
Qed.

(** X11: for the timestamps held by pointer ([created_at] of an Example,
    [start_time] and [end_time] of a Run) omitempty does work: whenever the
    value is encoded, the object has no member of that name when the pointer
    is nil, and otherwise exactly one, which is the text MarshalJSON gives
    for the time pointed to. *)
Theorem X11_nil_timestamps_left_out :
  (forall (e : Example) j, json_Marshal (reflect_Example e) = Ok j ->
     exists ms, j = JObject ms /\
       members_named "created_at" ms =
         match Example_CreatedAt e with
         | Some t => [("created_at", LangsmithTime_json t)]
         | None => []
         end /\
       forall v, In ("created_at", v) ms <->
                 exists t, Example_CreatedAt e = Some t /\ v = LangsmithTime_json t) /\
  (forall (r : Run) j, json_Marshal (reflect_Run r) = Ok j ->
     exists ms, j = JObject ms /\
       members_named "start_time" ms =
         match Run_StartTime r with
         | Some t => [("start_time", LangsmithTime_json t)]
         | None => []
         end /\
       members_named "end_time" ms =
         match Run_EndTime r with
         | Some t => [("end_time", LangsmithTime_json t)]
         | None => []
         end /\
       (forall v, In ("start_time", v) ms <->
                  exists t, Run_StartTime r = Some t /\ v = LangsmithTime_json t) /\
       (forall v, In ("end_time", v) ms <->
                  exists t, Run_EndTime r = Some t /\ v = LangsmithTime_json t)).
Proof.
  split.
  - intros e j Hj.
    apply (pointer_member _ "created_at" (Example_CreatedAt e) j Hj). reflexivity.
  - intros r j Hj.
    destruct (pointer_member _ "start_time" (Run_StartTime r) j Hj eq_refl)
      as (ms & -> & M1 & H1).
    destruct (pointer_member _ "end_time" (Run_EndTime r) _ Hj eq_refl)
      as (ms' & E & M2 & H2).
    injection E as <-. exists ms. auto.
Qed.

Lemma X11_nil_timestamps_left_out_witness :
  (exists ms,
     JObject [ ("id", JString "ex-1"); ("dataset_id", JString "ds-1"); ("inputs", JNull) ] =
       JObject ms /\
     members_named "created_at" ms = [] /\
     forall v, In ("created_at", v) ms <->
               exists t, @None LangsmithTime = Some t /\ v = LangsmithTime_json t) /\
  (exists ms,
     JObject [ ("name", JString "r"); ("run_type", JString "chain");
               ("start_time", JRaw (quoted "2023-11-14T22:13:20"));
               ("trace_id", JString "tr-1"); ("id", JString "run-1");
               ("session_id", JString "s-1"); ("status", JString "success") ] = JObject ms /\
     members_named "start_time" ms =
       [("start_time", LangsmithTime_json (mkLangsmithTime t_utc))] /\
     members_named "end_time" ms = [] /\
     (forall v, In ("start_time", v) ms <->
                exists t, Some (mkLangsmithTime t_utc) = Some t /\ v = LangsmithTime_json t) /\
     (forall v, In ("end_time", v) ms <->
                exists t, @None LangsmithTime = Some t /\ v = LangsmithTime_json t)).
Proof.
  split.
  - exact (proj1 X11_nil_timestamps_left_out example_ids_only _ eq_refl).
  - exact (proj2 X11_nil_timestamps_left_out (run_started (Some (mkLangsmithTime t_utc))) _
             eq_refl).
Defined.

(** ** Dataset: timestamps of type time.Time *)

Lemma json_Marshal_GoTime_year t j : json_Marshal (GoTime t) = Ok j -> 0 <= Year t <= 9999.
Proof.
  cbn [json_Marshal]. unfold Time_MarshalJSON.
  destruct (in_range 0 (Year t) 10000) eqn:E.
  - intros _. unfold in_range in E. apply andb_prop in E as [? ?]. lia.
  - cbn [negb marshalerError obind]. intros H. discriminate H.
Qed.

Lemma CreateDataset_sends h c input :
  requests (events (CreateDataset h c input)) <> [] ->
  exists j, json_Marshal (pointer reflect_Dataset input) = Ok j.
Proof.
  unfold CreateDataset. rewrite events_lift_bind.
  destruct (json_Marshal _) as [j| |]; intros H; [exists j; reflexivity|..];
    exfalso; apply H; reflexivity.
Qed.

(** X12: a Dataset is sent only with timestamps time.Time can encode.  When
    the year of CreatedAt is outside 0..9999, CreateDataset returns the
    encoder's error and sends nothing; and whenever CreateDataset sends a
    request, the years of CreatedAt, of ModifiedAt and of
    LastSessionStartTime (when it is set) are all within 0..9999. *)
Theorem X12_dataset_years_checked (h : Host) (c : DatasetClient) (d : Dataset) :
  (~ 0 <= Year (Dataset_CreatedAt d) <= 9999 ->
     CreateDataset h c (Some d) =
     ([], Err (json_MarshalerError "Time.MarshalJSON: year outside of range [0,9999]"))) /\
  (requests (events (CreateDataset h c (Some d))) <> [] ->
     0 <= Year (Dataset_CreatedAt d) <= 9999 /\
     0 <= Year (Dataset_ModifiedAt d) <= 9999 /\
     forall t, Dataset_LastSessionStartTime d = Some t -> 0 <= Year t <= 9999).
Proof.
  split.
  - intros Hy. unfold CreateDataset. cbn [pointer].
    change (json_Marshal (GoRef ?v)) with (json_Marshal v).
    unfold reflect_Dataset, field, field_omitempty.
    rewrite json_Marshal_GoStruct. do 4 rewrite struct_members_cons.
    assert (E : Time_MarshalJSON (Dataset_CreatedAt d) =
                Err (errors_New "Time.MarshalJSON: year outside of range [0,9999]")).
    { unfold Time_MarshalJSON. destruct (in_range 0 (Year (Dataset_CreatedAt d)) 10000) eqn:E;
        [|reflexivity].
      exfalso. apply Hy. unfold in_range in E. apply andb_prop in E as [? ?]. lia. }
    cbn [andb]. change (json_Marshal (GoTime ?t))
      with (do b <- marshalerError (Time_MarshalJSON t); Ok (JRaw b)).
    rewrite E.
    destruct (Dataset_Description d); reflexivity.
  - intros Hs. apply CreateDataset_sends in Hs as (j & Hj).
    cbn [pointer] in Hj. change (json_Marshal (GoRef ?v)) with (json_Marshal v) in Hj.
    apply json_Marshal_struct_Ok in Hj as (ms & Hms & _).
    split; [|split].
    + destruct (struct_members_of_field _ ms "created_at" false (GoTime (Dataset_CreatedAt d)) Hms)
        as (j' & Hj' & _); [do 3 right; left; reflexivity|reflexivity|].
      apply (json_Marshal_GoTime_year _ _ Hj').
    + destruct (struct_members_of_field _ ms "modified_at" false
                  (GoTime (Dataset_ModifiedAt d)) Hms)
        as (j' & Hj' & _); [do 12 right; left; reflexivity|reflexivity|].
      apply (json_Marshal_GoTime_year _ _ Hj').
    + intros t Ht.
      destruct (struct_members_of_field _ ms "last_session_start_time" true
                  (GoRef (GoTime t)) Hms)
        as (j' & Hj' & _); [do 13 right; left; rewrite Ht; reflexivity|reflexivity|].
      apply (json_Marshal_GoTime_year t j' Hj').
Qed.

Lemma X12_dataset_years_checked_witness :
  CreateDataset (mock_Host 200 "") client_override (Some (dataset_at t_year10000)) =
    ([], Err (json_MarshalerError "Time.MarshalJSON: year outside of range [0,9999]")) /\
  (0 <= Year (Dataset_CreatedAt (dataset_at t_utc)) <= 9999 /\
   0 <= Year (Dataset_ModifiedAt (dataset_at t_utc)) <= 9999 /\
   forall t, Dataset_LastSessionStartTime (dataset_at t_utc) = Some t -> 0 <= Year t <= 9999).
Proof.
  split.
  - apply (proj1 (X12_dataset_years_checked (mock_Host 200 "") client_override
                    (dataset_at t_year10000))).
    vm_compute. intros [_ H]. apply H. reflexivity.
  - apply (proj2 (X12_dataset_years_checked (mock_Host 200 "") client_override
                    (dataset_at t_utc))).
    vm_compute. discriminate.
Defined.

(** ** The run payloads: timestamps of type time.Time *)

(** A time.Time field is written whatever its value and its tag, and the
    struct is encoded only when the year of the time has at most four
    digits. *)
Lemma Time_field_written fs name omitempty t j :
  json_Marshal (GoStruct fs) = Ok j -> In (name, omitempty, GoTime t) fs ->
  exists ms, j = JObject ms /\ In (name, Time_json t) ms /\ 0 <= Year t <= 9999.
Proof.
  intros Hj Hin. apply json_Marshal_struct_Ok in Hj as (ms & Hms & ->).
  exists ms. split; [reflexivity|].
  destruct (struct_members_of_field fs ms name omitempty (GoTime t) Hms Hin) as (j & Hj & Hm).
  - cbn [isEmptyValue]. apply andb_false_r.
  - pose proof (json_Marshal_GoTime_year t j Hj) as Hy. split; [|assumption].
    cbn [json_Marshal] in Hj. apply obind_Ok in Hj as (b & Hb & Hj). injection Hj as <-.
    destruct (Time_MarshalJSON t) as [b'|[]|] eqn:E; cbn [marshalerError] in Hb;
      try discriminate Hb.
    injection Hb as ->. rewrite (Time_MarshalJSON_Ok t b E) in Hm. exact Hm.
Qed.

(** X13: in the payloads of a run, omitempty does not leave a time.Time out
    either.  Whenever a RunPayload or a PatchPayload is encoded, [start_time]
    and [end_time] are members of the object, whatever their values (an
    EndTime never set is sent as the zero time), each in RFC 3339 with its
    fraction and zone, and the years of the times have at most four digits. *)
Theorem X13_run_payload_times_always_written :
  (forall (r : RunPayload) j, json_Marshal (reflect_RunPayload r) = Ok j ->
     exists ms, j = JObject ms /\
       In ("start_time", Time_json (RunPayload_StartTime r)) ms /\
       In ("end_time", Time_json (RunPayload_EndTime r)) ms /\
       0 <= Year (RunPayload_StartTime r) <= 9999 /\
       0 <= Year (RunPayload_EndTime r) <= 9999) /\
  (forall (r : PatchPayload) j, json_Marshal (reflect_PatchPayload r) = Ok j ->
     exists ms, j = JObject ms /\
       In ("end_time", Time_json (PatchPayload_EndTime r)) ms /\
       0 <= Year (PatchPayload_EndTime r) <= 9999).
Proof.
  split; intros r j Hj.
  - destruct (Time_field_written _ "start_time" false (RunPayload_StartTime r) j Hj)
      as (ms & -> & H1 & Y1); [do 3 right; left; reflexivity|].
    destruct (Time_field_written _ "end_time" true (RunPayload_EndTime r) _ Hj)
      as (ms' & E & H2 & Y2); [do 10 right; left; reflexivity|].
    injection E as <-. exists ms. auto.
  - destruct (Time_field_written _ "end_time" false (PatchPayload_EndTime r) j Hj)
      as (ms & -> & H1 & Y1); [right; left; reflexivity|].
    exists ms. auto.
Qed.

Lemma X13_run_payload_times_always_written_witness :
  (exists ms,
     JObject [ ("id", JString "run-1"); ("name", JString "r"); ("run_type", JString "chain");
               ("start_time", JRaw (quoted "2023-11-14T23:13:20.5+01:00"));
               ("inputs", JNull);
               ("end_time", JRaw (quoted "0001-01-01T00:00:00Z")) ] = JObject ms /\
     In ("start_time", Time_json t_cet) ms /\
     In ("end_time", Time_json zero_Time) ms /\
     0 <= Year t_cet <= 9999 /\ 0 <= Year zero_Time <= 9999) /\
  (exists ms,
     JObject [ ("outputs", JNull); ("end_time", JRaw (quoted "2023-11-14T22:13:20Z")) ] =
       JObject ms /\
     In ("end_time", Time_json t_utc) ms /\ 0 <= Year t_utc <= 9999).
Proof.
  split.
  - exact (proj1 X13_run_payload_times_always_written (run_payload_at t_cet) _ eq_refl).
  - exact (proj2 X13_run_payload_times_always_written (patch_payload_at t_utc) _ eq_refl).
Defined.

(** ** QueryRuns: the body *)

Lemma json_Marshal_strings s : json_Marshal (reflect_slice GoString s) = Ok (strings_json s).
Proof.
  destruct s as [l|]; [|reflexivity]. cbn [reflect_slice strings_json].
  induction l as [|a l IH]; [reflexivity|].
  cbn [map]. cbn [json_Marshal] in IH |- *. cbn [obind].
  destruct ((fix elems (l : list GoValue) : outcome (list JSON) := _) (map GoString l))
    as [js| |]; cbn [obind] in IH |- *; [|discriminate IH..].
  injection IH as ->. reflexivity.
Qed.

(** X14: the body QueryRuns sends has the four members [filter], [root],
    [select] and [session], in this order; a nil list is sent as null; its
    encoding does not fail; and of the query parameters only Select and
    Filter are sent: the other ten fields of QueryParams have no influence
    on the request. *)
Theorem X14_QueryRuns_body (h : Host) (d : DatasetClient) (experimentIds : slice string)
  (isRoot : bool) (q : QueryParams) :
  map Body (requests (events (QueryRuns h d experimentIds isRoot (Some q)))) =
    (if NewRequest_accepts h "POST" (BASE_URL +:+ "/runs/query")
     then [ Some (JSONData (JObject [ ("filter", JString (QueryParams_Filter q));
                                      ("root", JBool isRoot);
                                      ("select", strings_json (QueryParams_Select q));
                                      ("session", strings_json experimentIds) ])) ]
     else []).
Proof.
  unfold QueryRuns, QueryRuns_body. rewrite events_lift_bind.
  assert (E : json_Marshal
                (GoMap [ ("session", reflect_slice GoString experimentIds);
                         ("root", GoBool isRoot);
                         ("select", reflect_slice GoString (QueryParams_Select q));
                         ("filter", GoString (QueryParams_Filter q)) ]) =
              Ok (JObject [ ("filter", JString (QueryParams_Filter q));
                            ("root", JBool isRoot);
                            ("select", strings_json (QueryParams_Select q));
                            ("session", strings_json experimentIds) ])).
  { pose proof (json_Marshal_strings experimentIds) as E1.
    pose proof (json_Marshal_strings (QueryParams_Select q)) as E2.
    remember (reflect_slice GoString experimentIds) as v1.
    remember (reflect_slice GoString (QueryParams_Select q)) as v2.
    remember (strings_json experimentIds) as j1.
    remember (strings_json (QueryParams_Select q)) as j2.
    change (json_Marshal (GoMap [ ("session", v1); ("root", GoBool isRoot); ("select", v2);
                                  ("filter", GoString (QueryParams_Filter q)) ]))
      with (do ms <- sequence [ ("filter", Ok (JString (QueryParams_Filter q)));
                                ("root", Ok (JBool isRoot));
                                ("select", json_Marshal v2);
                                ("session", json_Marshal v1) ];
            Ok (JObject ms)).
    rewrite E1, E2. reflexivity. }
  rewrite E, events_lift_bind. unfold http_NewRequest.
  destruct (NewRequest_accepts h _ _); [|reflexivity].
  rewrite events_lift_bind. unfold io_bind, client_Do, lift, events. cbn [fst snd].
  destruct (RoundTrip h _) as [resp| |]; [|reflexivity..].
  cbn [fst snd app].
  destruct (handleResponse h resp); [|reflexivity..].
  cbn [fst snd app]. unfold io_ReadAll. cbn [fst snd app].
  destruct (Unmarshal_RunsResponse h _); reflexivity.
Qed.

(** ** The operations that build their own request *)

Ltac sent k :=
  right;
  unfold http_NewRequest, client_Do, fmt_Println, io_ReadAll, io_bind, io_map, lift, events,
    returned;
  cbn [fst snd app];
  match goal with
  | |- context [RoundTrip ?h ?req] => exists req, k; destruct (RoundTrip h req)
  end;
  cbn [fst snd app requests obind];
  repeat match goal with
         | |- context [match ?x with Ok _ => _ | Err _ => _ | Panic _ => _ end] =>
             destruct x; cbn [fst snd app requests obind]
         end;
  (split; [reflexivity|]; split; [reflexivity|]; split; reflexivity).

(** What such a call does, when it gets as far as sending: one request, to
    its own URL, with the API key as its only header; and what it returns is
    decided by the answer to that request. *)
Lemma direct_call h d c :
  builds_request c = true ->
  requests (events (perform h d c)) = [] \/
  exists req k,
    requests (events (perform h d c)) = [req] /\
    (Method req, URL req) = target d c /\
    Header req = {[ "X-Api-Key" := [APIKey (DatasetClient_baseClient d)] ]} /\
    returned (perform h d c) =
      (do resp <- RoundTrip h req; do _ <- handleResponse h resp; k resp).
Proof.
  destruct c; cbn [builds_request]; intros Hb; try discriminate Hb; clear Hb;
    unfold perform, target.
  - unfold ReadDataset, http_NewRequest.
    destruct (NewRequest_accepts h _ _); [|left; reflexivity].
    sent (fun resp => Ok (bytes (Response_Body resp))).
  - unfold DownloadDatasetCsv, http_NewRequest.
    destruct (NewRequest_accepts h _ _); [|left; reflexivity].
    sent (fun resp => Ok (bytes (Response_Body resp))).
  - unfold GetExamples, http_NewRequest.
    destruct (NewRequest_accepts h _ _); [|left; reflexivity].
    sent (fun resp => do l <- Unmarshal_Examples h (Response_Body resp); Ok (examples l)).
  - unfold GetExamplesWithRuns.
    change (json_Marshal (GoMap _)) with (Ok session_ids_body).
    rewrite events_lift_bind. unfold http_NewRequest.
    destruct (NewRequest_accepts h _ _); [|left; reflexivity].
    sent (fun resp => do l <- Unmarshal_Examples h (Response_Body resp); Ok (examples l)).
  - unfold ReadComparitiveExperiment, http_NewRequest.
    destruct (NewRequest_accepts h _ _); [|left; reflexivity].
    sent (fun resp => do l <- Unmarshal_ComparativeExperiments h (Response_Body resp);
                      Ok (comparativeExperiments l)).
  - unfold QueryRuns. destruct queryParams as [q|]; [|left; reflexivity].
    cbn [QueryRuns_body]. rewrite events_lift_bind.
    destruct (json_Marshal _) as [data| |]; [|left; reflexivity..].
    rewrite events_lift_bind. unfold http_NewRequest.
    destruct (NewRequest_accepts h _ _); [|left; reflexivity].
    sent (fun resp => do r <- Unmarshal_RunsResponse h (Response_Body resp);
                      Ok (runsResponse r)).
Qed.

(** X15: the six operations that build their request themselves send at
    most one request; it goes to the operation's own method and URL, and the
    header map the operation hands to the transport has exactly one entry,
    [X-Api-Key] with the client's key: the operation sets no Content-Type,
    also not on the two POSTs that carry a JSON body. *)
Theorem X15_one_request_one_header (h : Host) (d : DatasetClient) (c : Call) (r : http_Request) :
  builds_request c = true ->
  In r (requests (events (perform h d c))) ->
  requests (events (perform h d c)) = [r] /\
  (Method r, URL r) = target d c /\
  Header r = {[ "X-Api-Key" := [APIKey (DatasetClient_baseClient d)] ]}.
Proof.
  intros Hb Hin.
  destruct (direct_call h d c Hb) as [E|(req & k & E & Ht & Hh & _)]; rewrite E in Hin.
  - destruct Hin.
  - destruct Hin as [<-|[]]. auto.
Qed.

Lemma X15_one_request_one_header_witness :
  let r := {| Method := "POST"; URL := "https://api.smith.langchain.com/api/v1/runs/query";
              Header := {[ "X-Api-Key" := ["key"] ]};
              Body := Some (JSONData (JObject [ ("filter", JString "");
                                                ("root", JBool true);
                                                ("select", JNull);
                                                ("session", JNull) ])) |} in
  let c := call_QueryRuns None true (Some query_empty) in
  requests (events (perform (mock_Host 200 "{}") client_override c)) = [r] /\
  (Method r, URL r) = target client_override c /\
  Header r = {[ "X-Api-Key" := [APIKey (DatasetClient_baseClient client_override)] ]}.
Proof.
  intros r c.
  apply (X15_one_request_one_header (mock_Host 200 "{}") client_override c r eq_refl).
  left. reflexivity.
Defined.

(** X16: when the transport fails on the request such an operation sends,
    or the response check rejects the answer, the operation returns that very
    error, and the body of the answer is not decoded. *)
Theorem X16_errors_returned_unchanged (h : Host) (d : DatasetClient) (c : Call)
  (r : http_Request) (e : error) :
  builds_request c = true ->
  In r (requests (events (perform h d c))) ->
  RoundTrip h r = Err e \/
    (exists resp, RoundTrip h r = Ok resp /\ handleResponse h resp = Err e) ->
  returned (perform h d c) = Err e.
Proof.
  intros Hb Hin He.
  destruct (direct_call h d c Hb) as [E|(req & k & E & _ & _ & Hr)]; rewrite E in Hin.
  - destruct Hin.
  - destruct Hin as [<-|[]]. rewrite Hr.
    destruct He as [->|(resp & -> & He)]; [reflexivity|].
    cbn [obind]. rewrite He. reflexivity.
Qed.

Lemma X16_errors_returned_unchanged_witness :
  returned (perform offline_Host client_override (call_ReadDataset "ds-1")) = Err url_Error /\
  returned (perform (mock_Host 404 "") client_override (call_GetExamples "ds-1" 0)) =
    Err (remote_Error "404").
Proof.
  split.
  - apply (X16_errors_returned_unchanged offline_Host client_override (call_ReadDataset "ds-1")
             {| Method := "GET"; URL := "http://localhost:1984/api/v1/datasets/ds-1";
                Header := {[ "X-Api-Key" := ["key"] ]}; Body := None |} url_Error eq_refl).
    + left. reflexivity.
    + left. reflexivity.
  - apply (X16_errors_returned_unchanged (mock_Host 404 "") client_override
             (call_GetExamples "ds-1" 0)
             {| Method := "GET";
                URL := "https://api.smith.langchain.com/api/v1/examples?dataset=ds-1&offset=0";
                Header := {[ "X-Api-Key" := ["key"] ]}; Body := None |}
             (remote_Error "404") eq_refl).
    + left. reflexivity.
    + right. eexists. split; reflexivity.
Defined.

(** X17: GetExamples and QueryRuns do not depend on LANGSMITH_URL.  Two
    clients built in environments with the same LANGSMITH_API_KEY behave the
    same in these two operations, whatever LANGSMITH_URL is in each: the same
    request, the same result. *)
Theorem X17_endpoint_override_has_no_effect (h : Host) (env env' : gmap string string)
  (d d' : DatasetClient) :
  env !! "LANGSMITH_API_KEY" = env' !! "LANGSMITH_API_KEY" ->
  NewDatasetClient env = Ok d -> NewDatasetClient env' = Ok d' ->
  (forall datasetId offset,
     GetExamples h d datasetId offset = GetExamples h d' datasetId offset) /\
  (forall experimentIds isRoot queryParams,
     QueryRuns h d experimentIds isRoot queryParams =
     QueryRuns h d' experimentIds isRoot queryParams).
Proof.
  intros Hk Hd Hd'.
  assert (E : APIKey (DatasetClient_baseClient d) = APIKey (DatasetClient_baseClient d')).
  { unfold NewDatasetClient, os_Getenv in Hd, Hd'. rewrite <- Hk in Hd'.
    destruct (default "" (env !! "LANGSMITH_API_KEY") =? "")%string;
      [discriminate Hd|]. injection Hd as <-. injection Hd' as <-. reflexivity. }
  split; intros; unfold GetExamples, QueryRuns; rewrite E; reflexivity.
Qed.

Lemma X17_endpoint_override_has_no_effect_witness :
  (forall datasetId offset,
     GetExamples (mock_Host 200 "[]") {| DatasetClient_baseClient :=
         {| APIKey := "key"; baseUrl := "https://api.smith.langchain.com/api/v1/datasets" |} |}
       datasetId offset =
     GetExamples (mock_Host 200 "[]") client_override datasetId offset) /\
  (forall experimentIds isRoot queryParams,
     QueryRuns (mock_Host 200 "[]") {| DatasetClient_baseClient :=
         {| APIKey := "key"; baseUrl := "https://api.smith.langchain.com/api/v1/datasets" |} |}
       experimentIds isRoot queryParams =
     QueryRuns (mock_Host 200 "[]") client_override experimentIds isRoot queryParams).
Proof.
  exact (X17_endpoint_override_has_no_effect (mock_Host 200 "[]") env_key env_override _ _
           eq_refl eq_refl eq_refl).
Defined.
